(** * Aquasense water-quality node: the firmware's control core

    A shallow embedding of [src/main.cpp] (the measurement pipeline, the menu
    handler, the power manager and the upload schedule) together with the
    properties its specification states about them.

    Conventions of the model.
    - [unsigned long] timestamps are integers reduced modulo [2^32]; the
      firmware's unsigned subtraction is [ul_sub].
    - [float] values are exact rationals ([Q]): rounding, infinities and NaN
      are outside the model.  The sentinel [-1.0] is the rational [-1].  What
      the clamp of the pH and turbidity conversions does to a NaN is told
      apart in [Binary32], on values that are a number or NaN.
    - Every call into the board (clock, pins, ADC, probe, network) goes through
      the [Board] interface; a world of type [W] answers each call and may
      change with it, so two reads of the same pin need not agree.
    - What the firmware writes (LCD, serial console, transport, sleep
      controller) is appended to a chronological trace of [Effect]s.
    - [esp_deep_sleep_start()] does not return: the computation ends in
      [Halted]. *)

From Stdlib Require Import ZArith QArith Bool List String Lia Lqa.
From stdpp Require Import base list gmap strings.
Import ListNotations.

Open Scope Z_scope.

(** ** Numbers *)

Definition UL_MOD : Z := 2 ^ 32.

(** Value of an [unsigned long] expression. *)
Definition ul (z : Z) : Z := z mod UL_MOD.

(** [a - b] on [unsigned long]. *)
Definition ul_sub (a b : Z) : Z := ul (a - b).

(** [x < y] on floats. *)
Definition Qltb (x y : Q) : bool :=
  (Qnum x * Zpos (Qden y) <? Qnum y * Zpos (Qden x))%Z.

(** [x > y] on floats. *)
Definition Qgtb (x y : Q) : bool := Qltb y x.

(** Arduino's
    [#define constrain(amt,low,high) ((amt)<(low)?(low):((amt)>(high)?(high):(amt)))],
    on numbers.  What the macro does to a NaN is [Binary32.constrain]
    below. *)
Definition constrain (amt low high : Q) : Q :=
  if Qltb amt low then low else if Qgtb amt high then high else amt.

(** [adc * (3.3 / 4095.0)] *)
Definition adc_to_volts (adc : Z) : Q := (inject_Z adc * ((33 # 10) / 4095))%Q.

(** [t == -127.00 || t == 85.00]: the DS18B20's disconnected and power-on
    codes. *)
Definition probe_fault (t : Q) : bool := Qeq_bool t (-(127)) || Qeq_bool t 85.

(** A reading is a float; a negative one is the fault sentinel, which is how
    every consumer ([displayValue], [sendToFirebase], [getEC]) tests it. *)
Definition valid (reading : Q) : bool := negb (Qltb reading 0).

(** ** Floats that may be NaN *)

(** The firmware's [float]s are exact rationals in this development.  A
    binary32 can also be NaN, which a calibration coefficient read from the
    store can be, and which compares false with everything.  The conversions
    of lines 239-253 are given here a second time, on values that are a
    number or NaN, to tell what the clamp does to a NaN; on numbers they
    agree with [getPH] and [getTurbidity] below.  Rounding and infinities are
    not modelled. *)
Module Binary32.

Inductive float : Type :=
| Num (q : Q)
| NaN.

Definition add (x y : float) : float :=
  match x, y with
  | Num a, Num b => Num (a + b)
  | _, _ => NaN
  end.

Definition sub (x y : float) : float :=
  match x, y with
  | Num a, Num b => Num (a - b)
  | _, _ => NaN
  end.

Definition mul (x y : float) : float :=
  match x, y with
  | Num a, Num b => Num (a * b)
  | _, _ => NaN
  end.

(** [x < y]: false as soon as one side is NaN. *)
Definition ltb (x y : float) : bool :=
  match x, y with
  | Num a, Num b => Qltb a b
  | _, _ => false
  end.

(** [x > y]: false as soon as one side is NaN. *)
Definition gtb (x y : float) : bool := ltb y x.

(** The macro [constrain] of Arduino.h. *)
Definition constrain (amt low high : float) : float :=
  if ltb amt low then low else if gtb amt high then high else amt.

(** Lines 241-245: [getPH] from the voltage [v] that [readVoltage] returned
    and the temperature that [getTemp] returned. *)
Definition getPH (slope intercept v currentTempC : float) : float :=
  if ltb v (Num 0) then Num (-(1))
  else
    let ph := add (mul slope v) intercept in
    let ph := add ph (mul (Num (198 # 10000)) (sub currentTempC (Num 25))) in
    constrain ph (Num 0) (Num 14).

(** Lines 250-252: [getTurbidity] from the voltage that [readVoltage]
    returned. *)
Definition getTurbidity (slope intercept v : float) : float :=
  if ltb v (Num 0) then Num (-(1))
  else
    let ntu := add (mul slope v) intercept in
    constrain ntu (Num 0) (Num 150).

(** [x] is a number of the interval [[low, high]]. *)
Definition within (low high : Q) (x : float) : Prop :=
  match x with
  | Num q => (low <= q <= high)%Q
  | NaN => False
  end.

End Binary32.

(** ** Pins and constants *)

Definition PH_PIN : Z := 34.
Definition TURB_PIN : Z := 35.
Definition TDS_PIN : Z := 36.
Definition BTN_UP : Z := 14.
Definition BTN_DOWN : Z := 27.
Definition BTN_SELECT : Z := 26.
Definition BTN_BACK : Z := 25.

Definition menuItems : list string :=
  ["Temperature"; "pH"; "Turbidity"; "TDS"; "EC"; "Power Save"; "Send Data"]%string.
Definition menuItemsCount : Z := 7.

(** [menuItems[i]]; outside the array the C++ read is undefined, the model
    yields the empty string. *)
Definition menuItem (i : Z) : string :=
  if i <? 0 then EmptyString else nth (Z.to_nat i) menuItems EmptyString.

(** ** The firmware's globals *)

Record Device : Type := mkDevice {
  currentMenuItem : Z;
  inSubMenu : bool;
  lastButtonPress : Z;
  lastLCDActivity : Z;
  lcdBacklightOn : bool;
  ph_slope : Q;
  ph_intercept : Q;
  turb_slope : Q;
  turb_intercept : Q;
  tds_k : Q;
  lastRead : Z;
  phBuf : list Q;
  turbBuf : list Q;
  tdsBuf : list Q;
  phPtr : Z;
  turbPtr : Z;
  tdsPtr : Z;
  powerSaveMode : bool
}.

(** The globals as their initialisers leave them (static storage is zeroed). *)
Definition initial_device : Device :=
  {| currentMenuItem := 0; inSubMenu := false;
     lastButtonPress := 0; lastLCDActivity := 0; lcdBacklightOn := true;
     ph_slope := -(15 # 10); ph_intercept := 7;
     turb_slope := -(50); turb_intercept := 100; tds_k := 5 # 10;
     lastRead := 0;
     phBuf := [0; 0; 0]%Q; turbBuf := [0; 0; 0]%Q; tdsBuf := [0; 0; 0]%Q;
     phPtr := 0; turbPtr := 0; tdsPtr := 0;
     powerSaveMode := false |}.

Definition set_currentMenuItem (v : Z) (d : Device) : Device :=
  mkDevice v (inSubMenu d) (lastButtonPress d) (lastLCDActivity d)
    (lcdBacklightOn d) (ph_slope d) (ph_intercept d) (turb_slope d)
    (turb_intercept d) (tds_k d) (lastRead d) (phBuf d) (turbBuf d) (tdsBuf d)
    (phPtr d) (turbPtr d) (tdsPtr d) (powerSaveMode d).

Definition set_lastButtonPress (v : Z) (d : Device) : Device :=
  mkDevice (currentMenuItem d) (inSubMenu d) v (lastLCDActivity d)
    (lcdBacklightOn d) (ph_slope d) (ph_intercept d) (turb_slope d)
    (turb_intercept d) (tds_k d) (lastRead d) (phBuf d) (turbBuf d) (tdsBuf d)
    (phPtr d) (turbPtr d) (tdsPtr d) (powerSaveMode d).

Definition set_lastLCDActivity (v : Z) (d : Device) : Device :=
  mkDevice (currentMenuItem d) (inSubMenu d) (lastButtonPress d) v
    (lcdBacklightOn d) (ph_slope d) (ph_intercept d) (turb_slope d)
    (turb_intercept d) (tds_k d) (lastRead d) (phBuf d) (turbBuf d) (tdsBuf d)
    (phPtr d) (turbPtr d) (tdsPtr d) (powerSaveMode d).

Definition set_lcdBacklightOn (v : bool) (d : Device) : Device :=
  mkDevice (currentMenuItem d) (inSubMenu d) (lastButtonPress d)
    (lastLCDActivity d) v (ph_slope d) (ph_intercept d) (turb_slope d)
    (turb_intercept d) (tds_k d) (lastRead d) (phBuf d) (turbBuf d) (tdsBuf d)
    (phPtr d) (turbPtr d) (tdsPtr d) (powerSaveMode d).

Definition set_lastRead (v : Z) (d : Device) : Device :=
  mkDevice (currentMenuItem d) (inSubMenu d) (lastButtonPress d)
    (lastLCDActivity d) (lcdBacklightOn d) (ph_slope d) (ph_intercept d)
    (turb_slope d) (turb_intercept d) (tds_k d) v (phBuf d) (turbBuf d)
    (tdsBuf d) (phPtr d) (turbPtr d) (tdsPtr d) (powerSaveMode d).

Definition set_powerSaveMode (v : bool) (d : Device) : Device :=
  mkDevice (currentMenuItem d) (inSubMenu d) (lastButtonPress d)
    (lastLCDActivity d) (lcdBacklightOn d) (ph_slope d) (ph_intercept d)
    (turb_slope d) (turb_intercept d) (tds_k d) (lastRead d) (phBuf d)
    (turbBuf d) (tdsBuf d) (phPtr d) (turbPtr d) (tdsPtr d) v.

(** The [(float* buf, int* ptr)] pairs that [readVoltage] is called with: each
    names one channel's rolling buffer and write cursor. *)
Inductive Channel : Type := ChPH | ChTurb | ChTDS.

Definition buf_of (c : Channel) (d : Device) : list Q :=
  match c with ChPH => phBuf d | ChTurb => turbBuf d | ChTDS => tdsBuf d end.

Definition ptr_of (c : Channel) (d : Device) : Z :=
  match c with ChPH => phPtr d | ChTurb => turbPtr d | ChTDS => tdsPtr d end.

Definition set_buf (c : Channel) (b : list Q) (d : Device) : Device :=
  mkDevice (currentMenuItem d) (inSubMenu d) (lastButtonPress d)
    (lastLCDActivity d) (lcdBacklightOn d) (ph_slope d) (ph_intercept d)
    (turb_slope d) (turb_intercept d) (tds_k d) (lastRead d)
    (match c with ChPH => b | _ => phBuf d end)
    (match c with ChTurb => b | _ => turbBuf d end)
    (match c with ChTDS => b | _ => tdsBuf d end)
    (phPtr d) (turbPtr d) (tdsPtr d) (powerSaveMode d).

Definition set_ptr (c : Channel) (p : Z) (d : Device) : Device :=
  mkDevice (currentMenuItem d) (inSubMenu d) (lastButtonPress d)
    (lastLCDActivity d) (lcdBacklightOn d) (ph_slope d) (ph_intercept d)
    (turb_slope d) (turb_intercept d) (tds_k d) (lastRead d)
    (phBuf d) (turbBuf d) (tdsBuf d)
    (match c with ChPH => p | _ => phPtr d end)
    (match c with ChTurb => p | _ => turbPtr d end)
    (match c with ChTDS => p | _ => tdsPtr d end)
    (powerSaveMode d).

(** ** What the firmware emits *)

(** The five readings from which the JSON object handed to the transport is
    built (lines 326-330).  The object itself holds their renderings
    [String(x, 1)], to one decimal: that rendering is library code, it is not
    modelled, and what holds of the readings ([pl_ec] is twice [pl_d]) need
    not hold of the rendered digits. *)
Record Payload : Type := mkPayload {
  pl_t : Q; pl_p : Q; pl_n : Q; pl_d : Q; pl_ec : Q
}.

Inductive WriteResult : Type :=
| WriteOk
| WriteFailed (errorReason : string).

Inductive Effect : Type :=
| LcdClear
| LcdHome
| LcdSetCursor (col row : Z)
| LcdPrint (text : string)
| LcdPrintFloat (val : Q) (digits : Z)
| LcdBacklight
| LcdNoBacklight
| SerialPrint (text : string)
| SerialPrintf (format : string) (args : list Z)
| SerialPrintReason (errorReason : string)
| SerialJson (data : Payload)
| Delay (ms : Z)
| SetJSON (seconds : Z) (data : Payload) (result : WriteResult)
| Ext0Wakeup (gpio level : Z)
| DeepSleepStart.

(** ** The board *)

Class Board (W : Type) : Type := {
  hw_millis : W -> Z * W;
  (** [true] is HIGH; the buttons are wired active low. *)
  hw_digitalRead : Z -> W -> bool * W;
  hw_analogRead : Z -> W -> Z * W;
  (** [sensors.requestTemperatures(); sensors.getTempCByIndex(0)] *)
  hw_tempC : W -> Q * W;
  (** [WiFi.status() == WL_CONNECTED] *)
  hw_wifiConnected : W -> bool * W;
  hw_firebaseReady : W -> bool * W;
  (** [Firebase.setJSON(fbdo, "/r/<seconds>", data)] with [fbdo.errorReason()] *)
  hw_setJSON : Z -> Payload -> W -> WriteResult * W;
  hw_delay : Z -> W -> W
}.

(** ** The machine: world, globals and trace *)

Record Sys (W : Type) : Type := mkSys {
  world : W;
  dev : Device;
  trace : list Effect
}.
Arguments mkSys {W} _ _ _.
Arguments world {W} _.
Arguments dev {W} _.
Arguments trace {W} _.

Inductive Outcome (A : Type) : Type :=
| Done (a : A)
| Halted.
Arguments Done {A} _.
Arguments Halted {A}.

Definition M (W A : Type) : Type := Sys W -> Outcome A * Sys W.

Definition ret {W A} (a : A) : M W A := fun s => (Done a, s).

Definition bind {W A B} (m : M W A) (f : A -> M W B) : M W B :=
  fun s => match m s with
           | (Done a, s') => f a s'
           | (Halted, s') => (Halted, s')
           end.

Notation "x <- m ;; k" := (bind m (fun x => k))
  (at level 100, m at next level, right associativity).
Notation "m ;; k" := (bind m (fun _ => k))
  (at level 100, right associativity).

Definition halt {W A} : M W A := fun s => (Halted, s).

Definition get_dev {W} : M W Device := fun s => (Done (dev s), s).

Definition modify_dev {W} (f : Device -> Device) : M W unit :=
  fun s => (Done tt, mkSys (world s) (f (dev s)) (trace s)).

Definition emit {W} (e : Effect) : M W unit :=
  fun s => (Done tt, mkSys (world s) (dev s) (trace s ++ [e])).

(** A board call that returns a value. *)
Definition ask {W A} (op : W -> A * W) : M W A :=
  fun s => let (a, w) := op (world s) in (Done a, mkSys w (dev s) (trace s)).

Section Firmware.

Context {W : Type} {board : Board W}.

Definition millis : M W Z := t <- ask hw_millis ;; ret (ul t).
Definition digitalRead (pin : Z) : M W bool := ask (hw_digitalRead pin).
Definition analogRead (pin : Z) : M W Z := ask (hw_analogRead pin).

Definition delay (ms : Z) : M W unit :=
  fun s => (Done tt, mkSys (hw_delay ms (world s)) (dev s) (trace s ++ [Delay ms])).

(** *** Power management *)

Definition enterDeepSleep : M W unit :=
  emit LcdClear ;;
  emit (LcdPrint "Sleeping...") ;;
  emit (LcdSetCursor 0 1) ;;
  emit (LcdPrint "Press SELECT to wake") ;;
  delay 1000 ;;
  emit (Ext0Wakeup BTN_SELECT 0) ;;
  emit DeepSleepStart ;;
  halt.

(** Lines 183-186: the backlight timeout.  [&&] reads the clock only when the
    backlight is on. *)
Definition dimBacklight : M W unit :=
  d <- get_dev ;;
  if lcdBacklightOn d then
    now <- millis ;;
    if 30000 <? ul_sub now (lastLCDActivity d) then
      emit LcdNoBacklight ;;
      modify_dev (set_lcdBacklightOn false)
    else ret tt
  else ret tt.

(** Lines 188-190: the deep-sleep timeout. *)
Definition sleepCheck : M W unit :=
  now <- millis ;;
  d <- get_dev ;;
  if 300000 <? ul_sub now (lastRead d) then enterDeepSleep else ret tt.

Definition managePower : M W unit :=
  d <- get_dev ;;
  if powerSaveMode d then
    dimBacklight ;;
    sleepCheck
  else ret tt.

Definition wakeLCD : M W unit :=
  d <- get_dev ;;
  (if negb (lcdBacklightOn d) then
     emit LcdBacklight ;;
     modify_dev (set_lcdBacklightOn true)
   else ret tt) ;;
  now <- millis ;;
  modify_dev (set_lastLCDActivity now).

(** *** Sensors *)

Definition PROBE_WARNING : string :=
  "WARNING: DS18B20 sensor error, returning default temp 25C.".

Definition RAIL_WARNING : string :=
  "Warning: Raw ADC read %d for pin %d, potential sensor issue.\n".

(** The [for] loop of [readVoltage]: [sum += buf[i]] for [i = 0, 1, 2]. *)
Definition sum3 (buf : list Q) : Q :=
  fold_left (fun (sum : Q) (i : nat) => (sum + nth i buf 0)%Q) (seq 0 3) 0%Q.

Definition readVoltage (pin : Z) (c : Channel) : M W Q :=
  adc <- analogRead pin ;;
  if (adc =? 0) || (adc =? 4095) then
    emit (SerialPrintf RAIL_WARNING [adc; pin]) ;;
    ret (-(1))%Q
  else
    let v := adc_to_volts adc in
    d <- get_dev ;;
    modify_dev (set_buf c (<[Z.to_nat (ptr_of c d) := v]> (buf_of c d))) ;;
    modify_dev (set_ptr c (Z.rem (ptr_of c d + 1) 3)) ;;
    d' <- get_dev ;;
    ret (sum3 (buf_of c d') / 3)%Q.

Definition getTemp : M W Q :=
  t <- ask hw_tempC ;;
  if probe_fault t then
    emit (SerialPrint PROBE_WARNING) ;;
    ret 25%Q
  else ret t.

Definition getPH : M W Q :=
  v <- readVoltage PH_PIN ChPH ;;
  if Qltb v 0 then ret (-(1))%Q
  else
    d <- get_dev ;;
    let ph := (ph_slope d * v + ph_intercept d)%Q in
    currentTempC <- getTemp ;;
    let ph := (ph + (198 # 10000) * (currentTempC - 25))%Q in
    ret (constrain ph 0 14).

Definition getTurbidity : M W Q :=
  v <- readVoltage TURB_PIN ChTurb ;;
  if Qltb v 0 then ret (-(1))%Q
  else
    d <- get_dev ;;
    let ntu := (turb_slope d * v + turb_intercept d)%Q in
    ret (constrain ntu 0 150).

Definition getTDS : M W Q :=
  v <- readVoltage TDS_PIN ChTDS ;;
  if Qltb v 0 then ret (-(1))%Q
  else
    t <- getTemp ;;
    d <- get_dev ;;
    let tds := (v * tds_k d * (1 + (2 # 100) * (t - 25)))%Q in
    ret tds.

Definition getEC : M W Q :=
  tds <- getTDS ;;
  if Qltb tds 0 then ret (-(1))%Q
  else ret (tds * 2)%Q.

(** *** Display *)

Definition displayValue (name : string) (val : Q) (unit_ : string) : M W unit :=
  wakeLCD ;;
  emit LcdClear ;;
  emit LcdHome ;;
  emit (LcdPrint name) ;;
  emit (LcdSetCursor 0 1) ;;
  if Qltb val 0 then emit (LcdPrint "Error")
  else if String.eqb name "pH" then
    emit (LcdPrint "pH: ") ;;
    emit (LcdPrintFloat val 1)
  else
    emit (LcdPrintFloat val 1) ;;
    emit (LcdPrint " ") ;;
    emit (LcdPrint unit_).

Definition displayMenu : M W unit :=
  wakeLCD ;;
  emit LcdClear ;;
  emit LcdHome ;;
  emit (LcdPrint ">") ;;
  d <- get_dev ;;
  emit (LcdPrint (menuItem (currentMenuItem d))) ;;
  emit (LcdSetCursor 0 1) ;;
  if currentMenuItem d <? menuItemsCount - 1 then
    emit (LcdPrint " ") ;;
    emit (LcdPrint (menuItem (currentMenuItem d + 1)))
  else
    emit (LcdPrint " ") ;;
    emit (LcdPrint (menuItem 0)).

(** *** Upload *)

Definition MSG_ATTEMPT : string := "Attempting to send data to Firebase...".
Definition MSG_NOT_READY : string :=
  "Firebase send skipped: WiFi not connected or Firebase not ready.".
Definition MSG_SENSOR_ERROR : string :=
  "Skipping Firebase send due to sensor error values.".

(** [temperature < 0 || ph < 0 || turbidity < 0 || tds < 0 || ec < 0] *)
Definition sensor_error (temperature ph turbidity tds ec : Q) : bool :=
  Qltb temperature 0 || Qltb ph 0 || Qltb turbidity 0 || Qltb tds 0
  || Qltb ec 0.

(** Lines 325-343: the JSON object, its path and the transport write. *)
Definition writePayload (data : Payload) : M W unit :=
  now <- millis ;;
  let seconds := now / 1000 in
  emit (SerialPrint "Sending data to: ") ;;
  emit (SerialPrintf "/r/%d" [seconds]) ;;
  emit (SerialPrint "Data: ") ;;
  emit (SerialJson data) ;;
  r <- ask (hw_setJSON seconds data) ;;
  emit (SetJSON seconds data r) ;;
  match r with
  | WriteOk => emit (SerialPrint "Realtime Database write successful!")
  | WriteFailed reason =>
      emit (SerialPrint "Realtime Database write FAILED: ") ;;
      emit (SerialPrintReason reason)
  end.

(** Lines 316-343: the readings, the gate on them and the write. *)
Definition uploadReadings : M W unit :=
  temperature <- getTemp ;;
  ph <- getPH ;;
  turbidity <- getTurbidity ;;
  tds <- getTDS ;;
  let ec := (if Qltb tds 0 then -(1) else tds * 2)%Q in
  if sensor_error temperature ph turbidity tds ec
  then emit (SerialPrint MSG_SENSOR_ERROR)
  else writePayload (mkPayload temperature ph turbidity tds ec).

Definition sendToFirebase : M W unit :=
  emit (SerialPrint MSG_ATTEMPT) ;;
  connected <- ask hw_wifiConnected ;;
  (** [WiFi.status() != WL_CONNECTED || !Firebase.ready()] *)
  notReady <- (if negb connected then ret true
               else ready <- ask hw_firebaseReady ;; ret (negb ready)) ;;
  if notReady then emit (SerialPrint MSG_NOT_READY)
  else uploadReadings.

(** *** Menu *)

(** The [switch] of the Select branch. *)
Definition selectAction : M W unit :=
  d <- get_dev ;;
  match currentMenuItem d with
  | 0 => v <- getTemp ;; displayValue "Temp" v "C"
  | 1 => v <- getPH ;; displayValue "pH" v ""
  | 2 => v <- getTurbidity ;; displayValue "Turbidity" v "NTU"
  | 3 => v <- getTDS ;; displayValue "TDS" v "ppm"
  | 4 => v <- getEC ;; displayValue "EC" v "uS/cm"
  | 5 =>
      modify_dev (set_powerSaveMode (negb (powerSaveMode d))) ;;
      emit LcdClear ;;
      emit (LcdPrint "Power Save: ") ;;
      d' <- get_dev ;;
      emit (LcdPrint (if powerSaveMode d' then "ON" else "OFF")) ;;
      delay 1000 ;;
      displayMenu
  | 6 =>
      emit LcdClear ;;
      emit (LcdPrint "Sending data...") ;;
      sendToFirebase ;;
      emit LcdClear ;;
      emit (LcdPrint "Data sent!") ;;
      delay 1000 ;;
      displayMenu
  | _ => ret tt
  end.

(** Lines 392-394: [lastButtonPress = millis()]. *)
Definition stampPress : M W unit :=
  now' <- millis ;;
  modify_dev (set_lastButtonPress now').

Definition handleMenu : M W unit :=
  now <- millis ;;
  d <- get_dev ;;
  if ul_sub now (lastButtonPress d) <? 200 then ret tt
  else
    up <- digitalRead BTN_UP ;;
    buttonPressed <-
      (if negb up then
         modify_dev (fun d =>
           set_currentMenuItem
             (if 0 <? currentMenuItem d then currentMenuItem d - 1
              else menuItemsCount - 1) d) ;;
         displayMenu ;;
         ret true
       else
         down <- digitalRead BTN_DOWN ;;
         if negb down then
           modify_dev (fun d =>
             set_currentMenuItem
               (if currentMenuItem d <? menuItemsCount - 1
                then currentMenuItem d + 1 else 0) d) ;;
           displayMenu ;;
           ret true
         else
           select <- digitalRead BTN_SELECT ;;
           if negb select then
             selectAction ;;
             ret true
           else
             back <- digitalRead BTN_BACK ;;
             if negb back then
               displayMenu ;;
               ret true
             else ret false) ;;
    if buttonPressed : bool then stampPress else ret tt.

(** *** Main loop *)

(** Lines 402-407: the 15-second schedule. *)
Definition autoSend : M W unit :=
  now <- millis ;;
  d <- get_dev ;;
  if 15000 <=? ul_sub now (lastRead d) then
    now' <- millis ;;
    modify_dev (set_lastRead now') ;;
    d' <- get_dev ;;
    if negb (powerSaveMode d') then sendToFirebase else ret tt
  else ret tt.

Definition loop : M W unit :=
  handleMenu ;;
  managePower ;;
  autoSend ;;
  delay 100.

(** [n] iterations of [loop]. *)
Fixpoint run (n : nat) : M W unit :=
  match n with
  | O => ret tt
  | S k => loop ;; run k
  end.

End Firmware.

(** ** Observations on a trace *)

(** Number of calls of [sendToFirebase] recorded in a trace. *)
Fixpoint attempts (tr : list Effect) : nat :=
  match tr with
  | [] => O
  | SerialPrint text :: tr' =>
      if String.eqb text MSG_ATTEMPT then S (attempts tr') else attempts tr'
  | _ :: tr' => attempts tr'
  end.

(** Texts on the LCD: what was printed since the last [lcd.clear()]. *)
Definition lcd_step (shown : list string) (e : Effect) : list string :=
  match e with
  | LcdClear => []
  | LcdPrint text => shown ++ [text]
  | _ => shown
  end.

Definition lcd_text (tr : list Effect) : list string :=
  fold_left lcd_step tr [].

(** Has the chip been put to sleep? *)
Definition slept (tr : list Effect) : bool :=
  existsb (fun e => match e with DeepSleepStart => true | _ => false end) tr.

(** The transport writes of a trace, by their [/r/<seconds>] key. *)
Definition writes (tr : list Effect) : list Z :=
  flat_map (fun e => match e with SetJSON sec _ _ => [sec] | _ => [] end) tr.

(** ** A simulated board

    A clock that only [delay] advances, and inputs that are functions of the
    clock. *)

Record Sim : Type := mkSim {
  clock : Z;
  levels : Z -> Z -> bool;
  adc : Z -> Z -> Z;
  probe : Z -> Q;
  wifi : Z -> bool;
  firebase : Z -> bool;
  transport : Z -> WriteResult
}.

#[export] Instance SimBoard : Board Sim := {|
  hw_millis w := (clock w, w);
  hw_digitalRead pin w := (levels w (clock w) pin, w);
  hw_analogRead pin w := (adc w (clock w) pin, w);
  hw_tempC w := (probe w (clock w), w);
  hw_wifiConnected w := (wifi w (clock w), w);
  hw_firebaseReady w := (firebase w (clock w), w);
  hw_setJSON _ _ w := (transport w (clock w), w);
  hw_delay ms w :=
    mkSim (clock w + ms) (levels w) (adc w) (probe w) (wifi w) (firebase w)
      (transport w)
|}.

(** ** Scenarios on the simulated board *)

(** A quiet bench at clock [clk]: no button held, every ADC pin reads [raw],
    the probe reads [t], the network is up and writes are accepted. *)
Definition bench (clk raw : Z) (t : Q) : Sim :=
  mkSim clk (fun _ _ => true) (fun _ _ => raw) (fun _ => t)
    (fun _ => true) (fun _ => true) (fun _ => WriteOk).

(** The same board with the button on [pin] held down. *)
Definition holding (pin : Z) (w : Sim) : Sim :=
  mkSim (clock w) (fun t p => if p =? pin then false else levels w t p)
    (adc w) (probe w) (wifi w) (firebase w) (transport w).

(** The same board with the ADC on [pin] reading [raw]. *)
Definition reading (pin raw : Z) (w : Sim) : Sim :=
  mkSim (clock w) (levels w) (fun t p => if p =? pin then raw else adc w t p)
    (probe w) (wifi w) (firebase w) (transport w).

(** The same board with the access point gone. *)
Definition offline (w : Sim) : Sim :=
  mkSim (clock w) (levels w) (adc w) (probe w) (fun _ => false) (firebase w)
    (transport w).

(** The same board with a transport that rejects every write. *)
Definition rejecting (reason : string) (w : Sim) : Sim :=
  mkSim (clock w) (levels w) (adc w) (probe w) (wifi w) (firebase w)
    (fun _ => WriteFailed reason).

(** A short session after boot: Up is held during the first iteration, which
    selects "Send Data", and Select is held for one iteration 14.5 s after
    the clock started. *)
Definition session : Sim :=
  mkSim 3000
    (fun t p =>
       if (p =? BTN_UP) && (t <? 3100) then false
       else if (p =? BTN_SELECT) && (14500 <=? t) && (t <? 14600) then false
       else true)
    (fun _ _ => 2047) (fun _ => 25%Q)
    (fun _ => true) (fun _ => true) (fun _ => WriteOk).

(** An operator who enables power-save and leaves: Up is held until 3.3 s,
    which is accepted twice and selects "Power Save"; Select is held during
    the iteration at 4 s; no button is touched afterwards. *)
Definition unattended : Sim :=
  mkSim 3000
    (fun t p =>
       if (p =? BTN_UP) && (t <? 3300) then false
       else if (p =? BTN_SELECT) && (4000 <=? t) && (t <? 4100) then false
       else true)
    (fun _ _ => 2047) (fun _ => 25%Q)
    (fun _ => true) (fun _ => true) (fun _ => WriteOk).

(** The machine entering [loop()] for the first time in world [w], after a
    [setup()] that found the calibration store empty: the globals hold their
    initialisers, but for the activity stamp of [setup()]'s [displayMenu()].
    The trace starts empty here. *)
Definition booted (w : Sim) : Sys Sim :=
  mkSys w (set_lastLCDActivity (clock w) initial_device) [].

(** The machine with menu item [i] selected and power-save set to [ps], the
    other globals at their initialisers. *)
Definition browsing (i : Z) (ps : bool) (w : Sim) : Sys Sim :=
  mkSys w (set_powerSaveMode ps (set_currentMenuItem i initial_device)) [].

(** ** Vocabulary of the statements *)

Section Vocabulary.

Context {W : Type}.

(** [m] always returns: it never ends in the deep-sleep halt. *)
Definition returns {A} (m : M W A) : Prop :=
  forall s, exists a s', m s = (Done a, s').

(** Every run of [m] relates the state it starts from to the one it ends in. *)
Definition stays {A} (R : relation (Sys W)) (m : M W A) : Prop :=
  forall s, R s (snd (m s)).

(** The observation [f] is the same before and after. *)
Definition same {X} (f : Sys W -> X) : relation (Sys W) :=
  fun s s' => f s' = f s.

(** The trace only grows. *)
Definition extends : relation (Sys W) :=
  fun s s' => exists evs, trace s' = trace s ++ evs.

(** One channel's rolling buffer with its write cursor. *)
Definition sampler (c : Channel) (s : Sys W) : list Q * Z :=
  (buf_of c (dev s), ptr_of c (dev s)).

(** The globals that steer the menu, the schedule and the power manager. *)
Definition controls (d : Device) : Z * Z * Z * bool :=
  (currentMenuItem d, lastButtonPress d, lastRead d, powerSaveMode d).

(** What a sensor query or a screen refresh must leave alone: the controls,
    the number of upload attempts and the transport writes. *)
Definition passive (s : Sys W) : (Z * Z * Z * bool) * nat * list Z :=
  (controls (dev s), attempts (trace s), writes (trace s)).

(** The debounce window is over when [handleMenu] reads the clock as [t0]. *)
Definition debounce_open (s : Sys W) (t0 : Z) : Prop :=
  (ul_sub (ul t0) (lastButtonPress (dev s)) <? 200) = false.

(** The menu invariant: the selected index is one of the seven items. *)
Definition index_ok (s : Sys W) : Prop :=
  0 <= currentMenuItem (dev s) < menuItemsCount.

(** The same machine in another world. *)
Definition in_world (w : W) (s : Sys W) : Sys W := mkSys w (dev s) (trace s).

End Vocabulary.

Section Clocks.

Context {W : Type} {board : Board W}.

(** The clock value that the deep-sleep test reads when [managePower] starts
    in [s]: the read that follows the backlight timeout. *)
Definition sleep_clock (s : Sys W) : Z :=
  ul (fst (hw_millis (world (snd (dimBacklight s))))).

(** The clock value that the 15-second test reads when [autoSend] starts in
    [s]. *)
Definition schedule_clock (s : Sys W) : Z := ul (fst (hw_millis (world s))).


End Clocks.



(** ** Calibration storage *)

(** The "calib" namespace of the non-volatile store: float entries by key. *)
Definition getFloat (nvs : gmap string Q) (key : string) (defaultValue : Q) : Q :=
  match nvs !! key with
  | Some v => v
  | None => defaultValue
  end.

Definition putFloat (key : string) (value : Q) (nvs : gmap string Q)
  : gmap string Q :=
  <[key := value]> nvs.

Definition set_ph_slope (v : Q) (d : Device) : Device :=
  mkDevice (currentMenuItem d) (inSubMenu d) (lastButtonPress d)
    (lastLCDActivity d) (lcdBacklightOn d) v (ph_intercept d)
    (turb_slope d) (turb_intercept d) (tds_k d) (lastRead d) (phBuf d)
    (turbBuf d) (tdsBuf d) (phPtr d) (turbPtr d) (tdsPtr d) (powerSaveMode d).

Definition set_ph_intercept (v : Q) (d : Device) : Device :=
  mkDevice (currentMenuItem d) (inSubMenu d) (lastButtonPress d)
    (lastLCDActivity d) (lcdBacklightOn d) (ph_slope d) v
    (turb_slope d) (turb_intercept d) (tds_k d) (lastRead d) (phBuf d)
    (turbBuf d) (tdsBuf d) (phPtr d) (turbPtr d) (tdsPtr d) (powerSaveMode d).

Definition set_turb_slope (v : Q) (d : Device) : Device :=
  mkDevice (currentMenuItem d) (inSubMenu d) (lastButtonPress d)
    (lastLCDActivity d) (lcdBacklightOn d) (ph_slope d) (ph_intercept d)
    v (turb_intercept d) (tds_k d) (lastRead d) (phBuf d)
    (turbBuf d) (tdsBuf d) (phPtr d) (turbPtr d) (tdsPtr d) (powerSaveMode d).

Definition set_turb_intercept (v : Q) (d : Device) : Device :=
  mkDevice (currentMenuItem d) (inSubMenu d) (lastButtonPress d)
    (lastLCDActivity d) (lcdBacklightOn d) (ph_slope d) (ph_intercept d)
    (turb_slope d) v (tds_k d) (lastRead d) (phBuf d)
    (turbBuf d) (tdsBuf d) (phPtr d) (turbPtr d) (tdsPtr d) (powerSaveMode d).

Definition set_tds_k (v : Q) (d : Device) : Device :=
  mkDevice (currentMenuItem d) (inSubMenu d) (lastButtonPress d)
    (lastLCDActivity d) (lcdBacklightOn d) (ph_slope d) (ph_intercept d)
    (turb_slope d) (turb_intercept d) v (lastRead d) (phBuf d)
    (turbBuf d) (tdsBuf d) (phPtr d) (turbPtr d) (tdsPtr d) (powerSaveMode d).

(** Each coefficient is read with its current value as the default. *)
Definition loadCalibration (nvs : gmap string Q) (d : Device) : Device :=
  let d := set_ph_slope (getFloat nvs "ph_slope" (ph_slope d)) d in
  let d := set_ph_intercept (getFloat nvs "ph_intercept" (ph_intercept d)) d in
  let d := set_turb_slope (getFloat nvs "turb_slope" (turb_slope d)) d in
  let d := set_turb_intercept (getFloat nvs "turb_intercept" (turb_intercept d)) d in
  set_tds_k (getFloat nvs "tds_k" (tds_k d)) d.

Definition saveCalibration (d : Device) (nvs : gmap string Q) : gmap string Q :=
  let nvs := putFloat "ph_slope" (ph_slope d) nvs in
  let nvs := putFloat "ph_intercept" (ph_intercept d) nvs in
  let nvs := putFloat "turb_slope" (turb_slope d) nvs in
  let nvs := putFloat "turb_intercept" (turb_intercept d) nvs in
  putFloat "tds_k" (tds_k d) nvs.

(** The five coefficients. *)
Definition calibration (d : Device) : Q * Q * Q * Q * Q :=
  (ph_slope d, ph_intercept d, turb_slope d, turb_intercept d, tds_k d).

Definition calibration_keys : list string :=
  ["ph_slope"; "ph_intercept"; "turb_slope"; "turb_intercept"; "tds_k"]%string.

(** The coefficient [coef] of [d'] was read from [key] with [d] holding the
    defaults: a stored value replaces it, a missing key keeps it. *)
Definition read_from (key : string) (coef : Device -> Q)
    (nvs : gmap string Q) (d d' : Device) : Prop :=
  (forall v, nvs !! key = Some v -> coef d' = v) /\
  (nvs !! key = None -> coef d' = coef d).

(** ** Vocabulary of the further properties *)

(** An invariant of the machine, as a relation between the two ends of a
    run. *)
Definition carries {W} (P : Sys W -> Prop) : relation (Sys W) :=
  fun s s' => P s -> P s'.

(** Every rolling buffer has its three slots and every cursor points at one
    of them. *)
Definition samplers_ok (d : Device) : Prop :=
  forall c : Channel, length (buf_of c d) = 3%nat /\ 0 <= ptr_of c d < 3.

(** Every slot of every rolling buffer holds a voltage of the ADC's range. *)
Definition slots_in_range (d : Device) : Prop :=
  forall c : Channel,
    Forall (fun v => (0 <= v)%Q /\ (v <= 33 # 10)%Q) (buf_of c d).

(** Is the LCD's backlight on after the commands of a trace?  It is on when
    the trace starts. *)
Definition panel_step (lit : bool) (e : Effect) : bool :=
  match e with
  | LcdBacklight => true
  | LcdNoBacklight => false
  | _ => lit
  end.

Definition panel_lit (tr : list Effect) : bool := fold_left panel_step tr true.

(** The backlight flag agrees with the panel. *)
Definition mirrors {W} (s : Sys W) : Prop :=
  lcdBacklightOn (dev s) = panel_lit (trace s).

(** The JSON objects handed to the transport. *)
Definition payloads (tr : list Effect) : list Payload :=
  flat_map (fun e => match e with SetJSON _ data _ => [data] | _ => [] end) tr.

(** What the readings of a payload that passed the gate of [uploadReadings]
    look like. *)
Definition payload_ok (p : Payload) : Prop :=
  (0 <= pl_t p)%Q /\
  (0 <= pl_p p <= 14)%Q /\
  (0 <= pl_n p <= 150)%Q /\
  (0 <= pl_d p)%Q /\
  pl_ec p = (pl_d p * 2)%Q.

Definition payloads_ok {W} (s : Sys W) : Prop :=
  Forall payload_ok (payloads (trace s)).

(** No more transport writes than upload attempts. *)
Definition written_le_attempted {W} (s : Sys W) : Prop :=
  (length (writes (trace s)) <= attempts (trace s))%nat.

(** The numbers on the LCD: what [lcd.print(val, 1)] wrote since the last
    [lcd.clear()]. *)
Definition floats_step (shown : list Q) (e : Effect) : list Q :=
  match e with
  | LcdClear => []
  | LcdPrintFloat v _ => shown ++ [v]
  | _ => shown
  end.

Definition lcd_floats (tr : list Effect) : list Q := fold_left floats_step tr [].

(** What [enterDeepSleep] emits. *)
Definition SLEEP_SEQUENCE : list Effect :=
  [LcdClear; LcdPrint "Sleeping..."; LcdSetCursor 0 1;
   LcdPrint "Press SELECT to wake"; Delay 1000;
   Ext0Wakeup BTN_SELECT 0; DeepSleepStart].

Section Timing.

Context {W : Type} {board : Board W}.

(** An ideal board: [clk] is the millisecond clock that [millis()] reads,
    only [delay] advances it, and every other call into the board takes no
    time. *)
Definition ideal_timing (clk : W -> Z) : Prop :=
  (forall w, fst (hw_millis w) = clk w /\ clk (snd (hw_millis w)) = clk w) /\
  (forall pin w, clk (snd (hw_digitalRead pin w)) = clk w) /\
  (forall pin w, clk (snd (hw_analogRead pin w)) = clk w) /\
  (forall w, clk (snd (hw_tempC w)) = clk w) /\
  (forall w, clk (snd (hw_wifiConnected w)) = clk w) /\
  (forall w, clk (snd (hw_firebaseReady w)) = clk w) /\
  (forall sec data w, clk (snd (hw_setJSON sec data w)) = clk w) /\
  (forall ms w, clk (hw_delay ms w) = clk w + ms).

(** The schedule's timestamp is at most [age] milliseconds old on the clock
    [clk]. *)
Definition fresh (clk : W -> Z) (age : Z) (s : Sys W) : Prop :=
  exists L : Z, lastRead (dev s) = ul L /\ 0 <= clk (world s) - L <= age.

End Timing.

(** * Properties *)

(** ** Arithmetic of the model *)

Lemma Qltb_lt (x y : Q) : Qltb x y = true <-> (x < y)%Q.
Proof. unfold Qltb, Qlt. apply Z.ltb_lt. Qed.

Lemma Qltb_ge (x y : Q) : Qltb x y = false <-> (y <= x)%Q.
Proof. unfold Qltb, Qle. apply Z.ltb_ge. Qed.

Lemma valid_nonneg (r : Q) : valid r = true <-> (0 <= r)%Q.
Proof. unfold valid. rewrite negb_true_iff. apply Qltb_ge. Qed.

Lemma constrain_range (amt low high : Q) :
  (low <= high)%Q -> (low <= constrain amt low high <= high)%Q.
Proof.
  intros Hlh. unfold constrain, Qgtb.
  destruct (Qltb amt low) eqn:E1.
  - split; [apply Qle_refl | exact Hlh].
  - apply Qltb_ge in E1. destruct (Qltb high amt) eqn:E2.
    + split; [exact Hlh | apply Qle_refl].
    + apply Qltb_ge in E2. split; assumption.
Qed.

Lemma ul_sub_no_wrap (now last : Z) :
  0 <= last <= now -> now < UL_MOD -> ul_sub now last = now - last.
Proof.
  intros Hl Hn. unfold ul_sub, ul. apply Z.mod_small. unfold UL_MOD in *. lia.
Qed.

(** ** Observations are additive *)

Lemma attempts_app (t1 t2 : list Effect) :
  attempts (t1 ++ t2) = (attempts t1 + attempts t2)%nat.
Proof.
  induction t1 as [| e t1 IH]; simpl; [reflexivity |].
  destruct e; try exact IH.
  destruct (String.eqb text MSG_ATTEMPT); simpl; rewrite IH; reflexivity.
Qed.

Lemma lcd_text_app (t1 t2 : list Effect) :
  lcd_text (t1 ++ t2) = fold_left lcd_step t2 (lcd_text t1).
Proof. unfold lcd_text. apply fold_left_app. Qed.

Lemma slept_app (t1 t2 : list Effect) :
  slept (t1 ++ t2) = slept t1 || slept t2.
Proof. unfold slept. apply existsb_app. Qed.

Lemma writes_app (t1 t2 : list Effect) :
  writes (t1 ++ t2) = writes t1 ++ writes t2.
Proof. unfold writes. apply flat_map_app. Qed.

(** ** Reasoning about runs *)

Section Runs.

Context {W : Type} {board : Board W}.

Lemma bind_done {A B} (m : M W A) (k : A -> M W B) s a s' :
  m s = (Done a, s') -> bind m k s = k a s'.
Proof. intros E. unfold bind. rewrite E. reflexivity. Qed.

Lemma bind_halted {A B} (m : M W A) (k : A -> M W B) s s' :
  m s = (Halted, s') -> bind m k s = (Halted, s').
Proof. intros E. unfold bind. rewrite E. reflexivity. Qed.

#[export] Instance same_preorder {X} (f : Sys W -> X) : PreOrder (same f).
Proof.
  split.
  - intros s. reflexivity.
  - intros s1 s2 s3 H12 H23. unfold same in *. congruence.
Qed.

#[export] Instance extends_preorder : PreOrder (@extends W).
Proof.
  split.
  - intros s. exists []. symmetry. apply app_nil_r.
  - intros s1 s2 s3 [e1 H1] [e2 H2]. exists (e1 ++ e2).
    rewrite H2, H1. symmetry. apply app_assoc.
Qed.

Section Stays.

Context (R : relation (Sys W)) `{!PreOrder R}.

Lemma stays_ret {A} (a : A) : stays R (ret a).
Proof. intros s. simpl. reflexivity. Qed.

Lemma stays_bind {A B} (m : M W A) (k : A -> M W B) :
  stays R m -> (forall a, stays R (k a)) -> stays R (bind m k).
Proof.
  intros Hm Hk s. unfold bind. specialize (Hm s).
  destruct (m s) as [[a |] s1]; simpl in *; [| exact Hm].
  transitivity s1; [exact Hm | apply Hk].
Qed.

Lemma stays_get_dev : stays R get_dev.
Proof. intros s. simpl. reflexivity. Qed.

Lemma stays_halt {A} : stays R (@halt W A).
Proof. intros s. simpl. reflexivity. Qed.

Lemma stays_ask {A} (op : W -> A * W) :
  (forall s w, R s (in_world w s)) -> stays R (ask op).
Proof.
  intros HR s. unfold ask. destruct (op (world s)) as [a w]. apply HR.
Qed.

Lemma stays_emit (e : Effect) :
  (forall s, R s (mkSys (world s) (dev s) (trace s ++ [e]))) ->
  stays R (emit e).
Proof. intros HR s. apply HR. Qed.

Lemma stays_modify_dev (g : Device -> Device) :
  (forall s, R s (mkSys (world s) (g (dev s)) (trace s))) ->
  stays R (modify_dev g).
Proof. intros HR s. apply HR. Qed.

Lemma stays_delay (ms : Z) :
  (forall s, R s (mkSys (hw_delay ms (world s)) (dev s) (trace s ++ [Delay ms]))) ->
  stays R (delay ms).
Proof. intros HR s. apply HR. Qed.

End Stays.

Lemma stays_weaken {A} (R R' : relation (Sys W)) (m : M W A) :
  (forall s s', R s s' -> R' s s') -> stays R m -> stays R' m.
Proof. intros HRR Hm s. apply HRR, Hm. Qed.

Lemma returns_ret {A} (a : A) : returns (@ret W A a).
Proof. intros s. eexists _, _. reflexivity. Qed.

Lemma returns_bind {A B} (m : M W A) (k : A -> M W B) :
  returns m -> (forall a, returns (k a)) -> returns (bind m k).
Proof.
  intros Hm Hk s. destruct (Hm s) as (a & s1 & E).
  rewrite (bind_done _ _ _ _ _ E). apply Hk.
Qed.

Lemma returns_get_dev : returns (@get_dev W).
Proof. intros s. eexists _, _. reflexivity. Qed.

Lemma returns_ask {A} (op : W -> A * W) : returns (ask op).
Proof.
  intros s. unfold ask. destruct (op (world s)) as [a w]. eexists _, _. reflexivity.
Qed.

Lemma returns_emit (e : Effect) : returns (@emit W e).
Proof. intros s. eexists _, _. reflexivity. Qed.

Lemma returns_modify_dev (g : Device -> Device) : returns (@modify_dev W g).
Proof. intros s. eexists _, _. reflexivity. Qed.

Lemma returns_delay (ms : Z) : returns (delay ms).
Proof. intros s. eexists _, _. reflexivity. Qed.

End Runs.

Create HintDb fw_returns.

#[export] Hint Resolve returns_ret returns_get_dev returns_ask returns_emit
  returns_modify_dev returns_delay : fw_returns.

(** [returns_tac] walks a program that contains no deep-sleep call; the
    functions already known to return are taken from [fw_returns]. *)
Ltac returns_step :=
  first
    [ solve [auto 1 with fw_returns nocore]
    | apply returns_bind; [| intros ?]
    | match goal with
      | |- returns (if ?c then _ else _) => destruct c
      | |- returns (match ?r with WriteOk => _ | WriteFailed _ => _ end) =>
          destruct r
      | |- returns (let _ := _ in _) => cbv zeta
      end ].

Ltac returns_tac := repeat returns_step.

Create HintDb fw_stays.

(** [stays_tac side] walks a program: functions already framed are taken from
    [fw_stays], the primitive steps' side conditions are left to [side]. *)
Ltac from_passive :=
  let Hp := fresh "Hp" in
  intros ? ? Hp; unfold same, passive, controls in *; congruence.

Ltac stays_step side :=
  first
    [ solve [auto 1 with fw_stays nocore]
    | eapply (stays_weaken (same passive));
        [solve [from_passive] | solve [auto 1 with fw_stays nocore]]
    | eapply (stays_weaken (same (fun s => controls (dev s))));
        [solve [from_passive] | solve [auto 1 with fw_stays nocore]]
    | apply stays_ret; solve [typeclasses eauto]
    | apply stays_get_dev; solve [typeclasses eauto]
    | apply stays_halt; solve [typeclasses eauto]
    | apply stays_ask; solve [side]
    | apply stays_emit; solve [side]
    | apply stays_modify_dev; solve [side]
    | apply stays_delay; solve [side]
    | apply stays_bind; [typeclasses eauto | | intros ?]
    | match goal with
      | |- stays _ (if ?c then _ else _) => destruct c
      | |- stays _ (match ?r with WriteOk => _ | WriteFailed _ => _ end) =>
          destruct r
      | |- stays _ (let _ := _ in _) => cbv zeta
      end ].

Ltac stays_tac side := repeat (stays_step side).

(** Side conditions of [same passive]: the step touches no control and emits
    neither an attempt line nor a transport write. *)
Ltac passive_side :=
  intros; unfold same, passive, in_world; cbn [world dev trace];
  rewrite ?attempts_app, ?writes_app; cbn; rewrite ?Nat.add_0_r, ?app_nil_r;
  reflexivity.

(** Side conditions of [same f] for an [f] that reads globals only. *)
Ltac globals_side :=
  intros; unfold same, in_world; cbn [world dev trace]; reflexivity.

(** Side conditions of [same (fun s => attempts (trace s))]. *)
Ltac attempts_side :=
  intros; unfold same, in_world; cbn [world dev trace];
  rewrite ?attempts_app; cbn; rewrite ?Nat.add_0_r; reflexivity.

(** Side conditions of [extends]. *)
Ltac extends_side :=
  intros; unfold extends, in_world; cbn [world dev trace];
  first [ eexists; reflexivity | exists []; symmetry; apply app_nil_r ].

(** ** What returns *)

Section Returns.

Context {W : Type} {board : Board W}.

Lemma returns_millis : returns millis.
Proof. unfold millis. returns_tac. Qed.
Hint Resolve returns_millis : fw_returns.

Lemma returns_digitalRead pin : returns (digitalRead pin).
Proof. unfold digitalRead. returns_tac. Qed.
Hint Resolve returns_digitalRead : fw_returns.

Lemma returns_readVoltage pin c : returns (readVoltage pin c).
Proof. unfold readVoltage, analogRead. returns_tac. Qed.
Hint Resolve returns_readVoltage : fw_returns.

Lemma returns_getTemp : returns getTemp.
Proof. unfold getTemp. returns_tac. Qed.
Hint Resolve returns_getTemp : fw_returns.

Lemma returns_getPH : returns getPH.
Proof. unfold getPH. returns_tac. Qed.
Hint Resolve returns_getPH : fw_returns.

Lemma returns_getTurbidity : returns getTurbidity.
Proof. unfold getTurbidity. returns_tac. Qed.
Hint Resolve returns_getTurbidity : fw_returns.

Lemma returns_getTDS : returns getTDS.
Proof. unfold getTDS. returns_tac. Qed.
Hint Resolve returns_getTDS : fw_returns.

Lemma returns_getEC : returns getEC.
Proof. unfold getEC. returns_tac. Qed.
Hint Resolve returns_getEC : fw_returns.

Lemma returns_wakeLCD : returns wakeLCD.
Proof. unfold wakeLCD. returns_tac. Qed.
Hint Resolve returns_wakeLCD : fw_returns.

Lemma returns_displayValue name val unit_ : returns (displayValue name val unit_).
Proof. unfold displayValue. returns_tac. Qed.
Hint Resolve returns_displayValue : fw_returns.

Lemma returns_displayMenu : returns displayMenu.
Proof. unfold displayMenu. returns_tac. Qed.
Hint Resolve returns_displayMenu : fw_returns.

Lemma returns_writePayload data : returns (writePayload data).
Proof. unfold writePayload. returns_tac. Qed.
Hint Resolve returns_writePayload : fw_returns.

Lemma returns_uploadReadings : returns uploadReadings.
Proof. unfold uploadReadings. returns_tac. Qed.
Hint Resolve returns_uploadReadings : fw_returns.

Lemma returns_sendToFirebase : returns sendToFirebase.
Proof. unfold sendToFirebase. returns_tac. Qed.
Hint Resolve returns_sendToFirebase : fw_returns.

Lemma returns_selectAction : returns selectAction.
Proof.
  unfold selectAction. apply returns_bind; [apply returns_get_dev | intros d].
  destruct (currentMenuItem d) as [| p | p]; [| | apply returns_ret].
  - returns_tac.
  - do 3 (try destruct p as [p | p |]); returns_tac.
Qed.
Hint Resolve returns_selectAction : fw_returns.

Lemma returns_stampPress : returns stampPress.
Proof. unfold stampPress. returns_tac. Qed.
Hint Resolve returns_stampPress : fw_returns.

Lemma returns_handleMenu : returns handleMenu.
Proof. unfold handleMenu. returns_tac. Qed.

Lemma returns_dimBacklight : returns dimBacklight.
Proof. unfold dimBacklight. returns_tac. Qed.

Lemma returns_autoSend : returns autoSend.
Proof. unfold autoSend. returns_tac. Qed.

End Returns.

(** ** The sampler *)

Section Sampler.

Context {W : Type} {board : Board W}.

Lemma buf_of_set (c : Channel) (b : list Q) (p : Z) (d : Device) :
  buf_of c (set_ptr c p (set_buf c b d)) = b.
Proof. destruct c; reflexivity. Qed.

Lemma ptr_of_set (c : Channel) (b : list Q) (p : Z) (d : Device) :
  ptr_of c (set_ptr c p (set_buf c b d)) = p.
Proof. destruct c; reflexivity. Qed.

Lemma other_channel_set (c c' : Channel) (b : list Q) (p : Z) (d : Device) :
  c' <> c ->
  buf_of c' (set_ptr c p (set_buf c b d)) = buf_of c' d /\
  ptr_of c' (set_ptr c p (set_buf c b d)) = ptr_of c' d.
Proof. destruct c, c'; intros Hne; try congruence; split; reflexivity. Qed.

(** A raw value on a rail: the sentinel, a warning line, nothing else. *)
Lemma readVoltage_rail pin c (s : Sys W) raw w :
  hw_analogRead pin (world s) = (raw, w) ->
  raw = 0 \/ raw = 4095 ->
  readVoltage pin c s =
    (Done (-(1))%Q,
     mkSys w (dev s) (trace s ++ [SerialPrintf RAIL_WARNING [raw; pin]])).
Proof.
  intros E Hrail. unfold readVoltage, analogRead, bind, ask. rewrite E.
  cbn [world dev trace].
  replace ((raw =? 0) || (raw =? 4095)) with true; [reflexivity |].
  symmetry. apply orb_true_iff. destruct Hrail as [-> | ->]; [left | right]; reflexivity.
Qed.

(** Any other raw value: the voltage goes into the slot under the cursor, the
    cursor moves on, and the mean of the three slots is returned. *)
Lemma readVoltage_push pin c (s : Sys W) raw w :
  hw_analogRead pin (world s) = (raw, w) ->
  raw <> 0 -> raw <> 4095 ->
  let b := <[Z.to_nat (ptr_of c (dev s)) := adc_to_volts raw]> (buf_of c (dev s)) in
  readVoltage pin c s =
    (Done (sum3 b / 3)%Q,
     mkSys w (set_ptr c (Z.rem (ptr_of c (dev s) + 1) 3) (set_buf c b (dev s)))
       (trace s)).
Proof.
  intros E H0 H4095 b. unfold readVoltage, analogRead, bind, ask. rewrite E.
  cbn [world dev trace].
  replace ((raw =? 0) || (raw =? 4095)) with false.
  - unfold get_dev, modify_dev, ret. cbn [world dev trace].
    rewrite buf_of_set. reflexivity.
  - symmetry. apply orb_false_iff. split; apply Z.eqb_neq; assumption.
Qed.

Lemma sampler_push pin c (s : Sys W) raw w :
  hw_analogRead pin (world s) = (raw, w) ->
  raw <> 0 -> raw <> 4095 ->
  sampler c (snd (readVoltage pin c s)) =
    (<[Z.to_nat (ptr_of c (dev s)) := adc_to_volts raw]> (buf_of c (dev s)),
     Z.rem (ptr_of c (dev s) + 1) 3).
Proof.
  intros E H0 H4095. rewrite (readVoltage_push pin c s raw w E H0 H4095).
  unfold sampler. cbn [snd dev]. rewrite buf_of_set, ptr_of_set. reflexivity.
Qed.

(** The mean that a push returns is the mean of the buffer it leaves. *)
Lemma mean_push pin c (s : Sys W) raw w :
  hw_analogRead pin (world s) = (raw, w) ->
  raw <> 0 -> raw <> 4095 ->
  fst (readVoltage pin c s) =
    Done (sum3 (fst (sampler c (snd (readVoltage pin c s)))) / 3)%Q.
Proof.
  intros E H0 H4095. rewrite (sampler_push pin c s raw w E H0 H4095).
  rewrite (readVoltage_push pin c s raw w E H0 H4095). reflexivity.
Qed.

End Sampler.

(** ** Conversions *)

Section Conversions.

Context {W : Type} {board : Board W}.

Lemma getTemp_fault (s : Sys W) t w :
  hw_tempC (world s) = (t, w) ->
  probe_fault t = true ->
  getTemp s = (Done 25%Q, mkSys w (dev s) (trace s ++ [SerialPrint PROBE_WARNING])).
Proof.
  intros E Hf. unfold getTemp, bind, ask. rewrite E. cbn [world dev trace].
  rewrite Hf. reflexivity.
Qed.

Lemma getTemp_reading (s : Sys W) t w :
  hw_tempC (world s) = (t, w) ->
  probe_fault t = false ->
  getTemp s = (Done t, mkSys w (dev s) (trace s)).
Proof.
  intros E Hf. unfold getTemp, bind, ask. rewrite E. cbn [world dev trace].
  rewrite Hf. reflexivity.
Qed.

Lemma getPH_invalid (s s1 : Sys W) v :
  readVoltage PH_PIN ChPH s = (Done v, s1) ->
  Qltb v 0 = true ->
  getPH s = (Done (-(1))%Q, s1).
Proof.
  intros E Hv. unfold getPH. rewrite (bind_done _ _ _ _ _ E), Hv. reflexivity.
Qed.

Lemma getPH_valid (s s1 s2 : Sys W) v t :
  readVoltage PH_PIN ChPH s = (Done v, s1) ->
  Qltb v 0 = false ->
  getTemp s1 = (Done t, s2) ->
  getPH s =
    (Done (constrain (ph_slope (dev s1) * v + ph_intercept (dev s1)
                      + (198 # 10000) * (t - 25)) 0 14), s2).
Proof.
  intros E Hv Et. unfold getPH. rewrite (bind_done _ _ _ _ _ E), Hv.
  unfold bind at 1. cbn [get_dev]. rewrite (bind_done _ _ _ _ _ Et).
  reflexivity.
Qed.

Lemma getTurbidity_invalid (s s1 : Sys W) v :
  readVoltage TURB_PIN ChTurb s = (Done v, s1) ->
  Qltb v 0 = true ->
  getTurbidity s = (Done (-(1))%Q, s1).
Proof.
  intros E Hv. unfold getTurbidity. rewrite (bind_done _ _ _ _ _ E), Hv.
  reflexivity.
Qed.

Lemma getTurbidity_valid (s s1 : Sys W) v :
  readVoltage TURB_PIN ChTurb s = (Done v, s1) ->
  Qltb v 0 = false ->
  getTurbidity s =
    (Done (constrain (turb_slope (dev s1) * v + turb_intercept (dev s1)) 0 150),
     s1).
Proof.
  intros E Hv. unfold getTurbidity. rewrite (bind_done _ _ _ _ _ E), Hv.
  reflexivity.
Qed.

Lemma getTDS_invalid (s s1 : Sys W) v :
  readVoltage TDS_PIN ChTDS s = (Done v, s1) ->
  Qltb v 0 = true ->
  getTDS s = (Done (-(1))%Q, s1).
Proof.
  intros E Hv. unfold getTDS. rewrite (bind_done _ _ _ _ _ E), Hv. reflexivity.
Qed.

Lemma getTDS_valid (s s1 s2 : Sys W) v t :
  readVoltage TDS_PIN ChTDS s = (Done v, s1) ->
  Qltb v 0 = false ->
  getTemp s1 = (Done t, s2) ->
  getTDS s =
    (Done (v * tds_k (dev s2) * (1 + (2 # 100) * (t - 25)))%Q, s2).
Proof.
  intros E Hv Et. unfold getTDS. rewrite (bind_done _ _ _ _ _ E), Hv.
  rewrite (bind_done _ _ _ _ _ Et). reflexivity.
Qed.

Lemma getEC_eq (s s1 : Sys W) tds :
  getTDS s = (Done tds, s1) ->
  getEC s = (Done (if Qltb tds 0 then -(1) else tds * 2)%Q, s1).
Proof.
  intros E. unfold getEC. rewrite (bind_done _ _ _ _ _ E).
  destruct (Qltb tds 0); reflexivity.
Qed.

End Conversions.

(** ** Frames: what sensor queries and screen refreshes leave alone *)

Section Frames.

Context {W : Type} {board : Board W}.

Lemma passive_millis : stays (same passive) millis.
Proof. unfold millis. stays_tac passive_side. Qed.
Lemma extends_millis : stays extends millis.
Proof. unfold millis. stays_tac extends_side. Qed.
Hint Resolve passive_millis extends_millis : fw_stays.

Lemma passive_digitalRead pin : stays (same passive) (digitalRead pin).
Proof. unfold digitalRead. stays_tac passive_side. Qed.
Lemma extends_digitalRead pin : stays extends (digitalRead pin).
Proof. unfold digitalRead. stays_tac extends_side. Qed.
Hint Resolve passive_digitalRead extends_digitalRead : fw_stays.

Lemma passive_readVoltage pin c : stays (same passive) (readVoltage pin c).
Proof. unfold readVoltage, analogRead. stays_tac passive_side. Qed.
Lemma extends_readVoltage pin c : stays extends (readVoltage pin c).
Proof. unfold readVoltage, analogRead. stays_tac extends_side. Qed.
Hint Resolve passive_readVoltage extends_readVoltage : fw_stays.

Lemma passive_getTemp : stays (same passive) getTemp.
Proof. unfold getTemp. stays_tac passive_side. Qed.
Lemma extends_getTemp : stays extends getTemp.
Proof. unfold getTemp. stays_tac extends_side. Qed.
Hint Resolve passive_getTemp extends_getTemp : fw_stays.

Lemma passive_getPH : stays (same passive) getPH.
Proof. unfold getPH. stays_tac passive_side. Qed.
Lemma extends_getPH : stays extends getPH.
Proof. unfold getPH. stays_tac extends_side. Qed.
Hint Resolve passive_getPH extends_getPH : fw_stays.

Lemma passive_getTurbidity : stays (same passive) getTurbidity.
Proof. unfold getTurbidity. stays_tac passive_side. Qed.
Lemma extends_getTurbidity : stays extends getTurbidity.
Proof. unfold getTurbidity. stays_tac extends_side. Qed.
Hint Resolve passive_getTurbidity extends_getTurbidity : fw_stays.

Lemma passive_getTDS : stays (same passive) getTDS.
Proof. unfold getTDS. stays_tac passive_side. Qed.
Lemma extends_getTDS : stays extends getTDS.
Proof. unfold getTDS. stays_tac extends_side. Qed.
Hint Resolve passive_getTDS extends_getTDS : fw_stays.

Lemma passive_getEC : stays (same passive) getEC.
Proof. unfold getEC. stays_tac passive_side. Qed.
Lemma extends_getEC : stays extends getEC.
Proof. unfold getEC. stays_tac extends_side. Qed.
Hint Resolve passive_getEC extends_getEC : fw_stays.

Lemma passive_wakeLCD : stays (same passive) wakeLCD.
Proof. unfold wakeLCD. stays_tac passive_side. Qed.
Lemma extends_wakeLCD : stays extends wakeLCD.
Proof. unfold wakeLCD. stays_tac extends_side. Qed.
Hint Resolve passive_wakeLCD extends_wakeLCD : fw_stays.

Lemma passive_displayValue name val unit_ :
  stays (same passive) (displayValue name val unit_).
Proof. unfold displayValue. stays_tac passive_side. Qed.
Lemma extends_displayValue name val unit_ :
  stays extends (displayValue name val unit_).
Proof. unfold displayValue. stays_tac extends_side. Qed.
Hint Resolve passive_displayValue extends_displayValue : fw_stays.

Lemma passive_displayMenu : stays (same passive) displayMenu.
Proof. unfold displayMenu. stays_tac passive_side. Qed.
Lemma extends_displayMenu : stays extends displayMenu.
Proof. unfold displayMenu. stays_tac extends_side. Qed.
Hint Resolve passive_displayMenu extends_displayMenu : fw_stays.

Lemma passive_dimBacklight : stays (same passive) dimBacklight.
Proof. unfold dimBacklight. stays_tac passive_side. Qed.
Hint Resolve passive_dimBacklight : fw_stays.

Lemma controls_sendToFirebase :
  stays (same (fun s => controls (dev s))) sendToFirebase.
Proof. unfold sendToFirebase, uploadReadings, writePayload. stays_tac globals_side. Qed.

Lemma extends_sendToFirebase : stays extends sendToFirebase.
Proof. unfold sendToFirebase, uploadReadings, writePayload. stays_tac extends_side. Qed.

Hint Resolve controls_sendToFirebase extends_sendToFirebase : fw_stays.

(** Every call of [sendToFirebase] is one attempt, whatever comes of it. *)
Lemma attempts_sendToFirebase (s : Sys W) :
  attempts (trace (snd (sendToFirebase s))) = S (attempts (trace s)).
Proof.
  unfold sendToFirebase.
  match goal with
  | |- context [bind (emit ?e) ?k s] =>
      assert (Hk : stays (same (fun s => attempts (trace s))) (k tt))
        by (unfold uploadReadings, writePayload; stays_tac attempts_side);
      change (bind (emit e) k s)
        with (k tt (mkSys (world s) (dev s) (trace s ++ [e])));
      etransitivity; [exact (Hk (mkSys (world s) (dev s) (trace s ++ [e]))) |]
  end.
  cbn [trace]. rewrite attempts_app. cbn. lia.
Qed.

End Frames.

(** ** Signal conditioner: the claims *)

Section SamplerClaims.

Context {W : Type} {board : Board W}.

(** C4. A raw ADC value of 0 or 4095 makes [readVoltage] return the invalid
    sentinel at once and leaves every global, so the channel's rolling buffer
    and write cursor, as they were; a raw value strictly between the rails
    puts the converted voltage into the buffer slot under the cursor and
    advances the cursor. *)
Theorem rail_sample_rejected_else_pushed
  (pin : Z) (c : Channel) (s : Sys W) (raw : Z) (w : W) :
  hw_analogRead pin (world s) = (raw, w) ->
  (raw = 0 \/ raw = 4095 ->
     fst (readVoltage pin c s) = Done (-(1))%Q /\
     valid (-(1)) = false /\
     dev (snd (readVoltage pin c s)) = dev s /\
     sampler c (snd (readVoltage pin c s)) = sampler c s) /\
  (0 < raw < 4095 ->
     sampler c (snd (readVoltage pin c s)) =
       (<[Z.to_nat (ptr_of c (dev s)) := adc_to_volts raw]> (buf_of c (dev s)),
        Z.rem (ptr_of c (dev s) + 1) 3)).
Proof.
  intros E. split.
  - intros Hrail. rewrite (readVoltage_rail pin c s raw w E Hrail).
    repeat split; reflexivity.
  - intros Hmid. apply (sampler_push pin c s raw w E); lia.
Qed.

(** C6. Three valid samples [v1], [v2], [v3] pushed into a zeroed rolling
    buffer (cursor at slot 0) report the means [v1/3], [(v1+v2)/3] and
    [(v1+v2+v3)/3]: the slots not yet written count as 0.0.  Anything may
    happen between the pushes as long as the channel's buffer and cursor are
    left alone. *)
Theorem warm_up_means
  (pin : Z) (c : Channel) (s1 s2 s3 : Sys W) (a1 a2 a3 : Z) :
  sampler c s1 = ([0; 0; 0]%Q, 0) ->
  fst (hw_analogRead pin (world s1)) = a1 ->
  fst (hw_analogRead pin (world s2)) = a2 ->
  fst (hw_analogRead pin (world s3)) = a3 ->
  0 < a1 < 4095 -> 0 < a2 < 4095 -> 0 < a3 < 4095 ->
  sampler c s2 = sampler c (snd (readVoltage pin c s1)) ->
  sampler c s3 = sampler c (snd (readVoltage pin c s2)) ->
  exists m1 m2 m3 : Q,
    fst (readVoltage pin c s1) = Done m1 /\
    fst (readVoltage pin c s2) = Done m2 /\
    fst (readVoltage pin c s3) = Done m3 /\
    (m1 == adc_to_volts a1 / 3)%Q /\
    (m2 == (adc_to_volts a1 + adc_to_volts a2) / 3)%Q /\
    (m3 == (adc_to_volts a1 + adc_to_volts a2 + adc_to_volts a3) / 3)%Q.
Proof.
  intros H0 E1 E2 E3 V1 V2 V3 H12 H23.
  destruct (hw_analogRead pin (world s1)) as [r1 w1] eqn:R1.
  destruct (hw_analogRead pin (world s2)) as [r2 w2] eqn:R2.
  destruct (hw_analogRead pin (world s3)) as [r3 w3] eqn:R3.
  cbn [fst] in E1, E2, E3. subst r1 r2 r3.
  assert (P1 := sampler_push pin c s1 a1 w1 R1 ltac:(lia) ltac:(lia)).
  assert (P2 := sampler_push pin c s2 a2 w2 R2 ltac:(lia) ltac:(lia)).
  assert (P3 := sampler_push pin c s3 a3 w3 R3 ltac:(lia) ltac:(lia)).
  assert (M1 := mean_push pin c s1 a1 w1 R1 ltac:(lia) ltac:(lia)).
  assert (M2 := mean_push pin c s2 a2 w2 R2 ltac:(lia) ltac:(lia)).
  assert (M3 := mean_push pin c s3 a3 w3 R3 ltac:(lia) ltac:(lia)).
  assert (B1 : sampler c (snd (readVoltage pin c s1))
               = ([adc_to_volts a1; 0; 0]%Q, 1)).
  { rewrite P1. unfold sampler in H0. injection H0 as -> ->. reflexivity. }
  assert (B2 : sampler c (snd (readVoltage pin c s2))
               = ([adc_to_volts a1; adc_to_volts a2; 0]%Q, 2)).
  { rewrite P2. rewrite B1 in H12. unfold sampler in H12.
    injection H12 as -> ->. reflexivity. }
  assert (B3 : sampler c (snd (readVoltage pin c s3))
               = ([adc_to_volts a1; adc_to_volts a2; adc_to_volts a3]%Q, 0)).
  { rewrite P3. rewrite B2 in H23. unfold sampler in H23.
    injection H23 as -> ->. reflexivity. }
  rewrite B1 in M1. rewrite B2 in M2. rewrite B3 in M3.
  eexists _, _, _. split; [exact M1 |]. split; [exact M2 |].
  split; [exact M3 |].
  unfold sum3. cbn [fst fold_left seq nth].
  repeat split; field.
Qed.

End SamplerClaims.

Lemma rail_sample_rejected_else_pushed_witness :
  (let s := booted (bench 3000 4095 25) in
   fst (readVoltage PH_PIN ChPH s) = Done (-(1))%Q /\
   sampler ChPH (snd (readVoltage PH_PIN ChPH s)) = ([0; 0; 0]%Q, 0)) /\
  (let s := booted (bench 3000 2047 25) in
   sampler ChPH (snd (readVoltage PH_PIN ChPH s)) =
     ([adc_to_volts 2047; 0; 0]%Q, 1)).
Proof.
  split.
  - destruct (rail_sample_rejected_else_pushed (board := SimBoard) PH_PIN ChPH
                (booted (bench 3000 4095 25)) 4095 (bench 3000 4095 25)
                eq_refl) as [Hrail _].
    destruct (Hrail (or_intror eq_refl)) as (Hr & _ & _ & Hs).
    split; [exact Hr | exact Hs].
  - destruct (rail_sample_rejected_else_pushed (board := SimBoard) PH_PIN ChPH
                (booted (bench 3000 2047 25)) 2047 (bench 3000 2047 25)
                eq_refl) as [_ Hmid].
    apply Hmid. lia.
Defined.

Lemma warm_up_means_witness :
  let s1 := booted (bench 3000 1000 25) in
  let s2 := in_world (bench 3100 2000 25) (snd (readVoltage PH_PIN ChPH s1)) in
  let s3 := in_world (bench 3200 3000 25) (snd (readVoltage PH_PIN ChPH s2)) in
  exists m1 m2 m3 : Q,
    fst (readVoltage PH_PIN ChPH s1) = Done m1 /\
    fst (readVoltage PH_PIN ChPH s2) = Done m2 /\
    fst (readVoltage PH_PIN ChPH s3) = Done m3 /\
    (m1 == adc_to_volts 1000 / 3)%Q /\
    (m2 == (adc_to_volts 1000 + adc_to_volts 2000) / 3)%Q /\
    (m3 == (adc_to_volts 1000 + adc_to_volts 2000 + adc_to_volts 3000) / 3)%Q.
Proof.
  intros s1 s2 s3.
  apply (warm_up_means (board := SimBoard) PH_PIN ChPH s1 s2 s3 1000 2000 3000);
    first [reflexivity | lia].
Defined.

(** ** Conversions: the claims *)

Section ConversionClaims.

Context {W : Type} {board : Board W}.

(** C5. An EC query is one TDS query followed by a doubling: when the TDS
    reading is valid EC is exactly twice it, and the EC reading is invalid
    exactly when the TDS reading is. *)
Theorem ec_is_twice_tds (s : Sys W) :
  exists (tds ec : Q) (s' : Sys W),
    getTDS s = (Done tds, s') /\
    getEC s = (Done ec, s') /\
    (valid tds = true -> ec = (tds * 2)%Q) /\
    (valid ec = false <-> valid tds = false).
Proof.
  destruct (returns_getTDS s) as (tds & s' & E).
  exists tds, (if Qltb tds 0 then -(1) else tds * 2)%Q, s'.
  split; [exact E |]. split; [exact (getEC_eq s s' tds E) |].
  unfold valid. destruct (Qltb tds 0) eqn:Ht; cbn [negb].
  - split; [discriminate | split; reflexivity].
  - split; [reflexivity |]. apply Qltb_ge in Ht.
    assert (Hec : Qltb (tds * 2) 0 = false) by (apply Qltb_ge; lra).
    rewrite Hec. split; intros; assumption.
Qed.

(** The three cases of the clamp. *)
Lemma constrain_cases (x low high : Q) :
  (low <= high)%Q ->
  ((x < low)%Q -> constrain x low high = low) /\
  ((high < x)%Q -> constrain x low high = high) /\
  ((low <= x <= high)%Q -> constrain x low high = x).
Proof.
  intros Hlh. unfold constrain, Qgtb.
  destruct (Qltb x low) eqn:E1;
    [apply Qltb_lt in E1 | apply Qltb_ge in E1];
    (destruct (Qltb high x) eqn:E2;
       [apply Qltb_lt in E2 | apply Qltb_ge in E2]);
    repeat split; intros; first [reflexivity | lra].
Qed.

(** On numbers the conversions on floats are those of the firmware. *)
Lemma Binary32_constrain_num (x low high : Q) :
  Binary32.constrain (Binary32.Num x) (Binary32.Num low) (Binary32.Num high)
  = Binary32.Num (constrain x low high).
Proof.
  unfold Binary32.constrain, Binary32.gtb, Binary32.ltb, constrain, Qgtb.
  destruct (Qltb x low); [reflexivity |].
  destruct (Qltb high x); reflexivity.
Qed.

Lemma Binary32_getPH_num (slope intercept v t : Q) :
  Binary32.getPH (Binary32.Num slope) (Binary32.Num intercept)
    (Binary32.Num v) (Binary32.Num t)
  = Binary32.Num
      (if Qltb v 0 then (-(1))%Q
       else constrain (slope * v + intercept + (198 # 10000) * (t - 25)) 0 14).
Proof.
  unfold Binary32.getPH.
  cbn [Binary32.ltb Binary32.add Binary32.mul Binary32.sub].
  destruct (Qltb v 0); [reflexivity | apply Binary32_constrain_num].
Qed.

Lemma Binary32_getTurbidity_num (slope intercept v : Q) :
  Binary32.getTurbidity (Binary32.Num slope) (Binary32.Num intercept)
    (Binary32.Num v)
  = Binary32.Num
      (if Qltb v 0 then (-(1))%Q
       else constrain (slope * v + intercept) 0 150).
Proof.
  unfold Binary32.getTurbidity.
  cbn [Binary32.ltb Binary32.add Binary32.mul].
  destruct (Qltb v 0); [reflexivity | apply Binary32_constrain_num].
Qed.

(** C7, as the firmware has it.  [getPH] and [getTurbidity] always return.
    On an invalid voltage sample the reading is the fault sentinel.  On a
    valid one, and with numbers for the coefficients, the pH reading is
    [x = slope * mean_v + intercept + 0.0198 * (temperature_C - 25.0)]
    clamped to [[0, 14]]: it is [0] when [x] is below [0], [14] when [x] is
    above [14], and [x] itself in between; the turbidity reading is
    [slope * mean_v + intercept] clamped to [[0, 150]] in the same way.
    These readings are the conversions of [Binary32] taken at numbers; a
    NaN coefficient is another matter, and is looked at after this
    theorem. *)
Theorem ph_and_turbidity_clamped_unless_nan (s : Sys W) :
  (exists (v ph : Q) (s1 s' : Sys W),
     readVoltage PH_PIN ChPH s = (Done v, s1) /\
     getPH s = (Done ph, s') /\
     valid ph = valid v /\
     if valid v then
       exists t : Q,
         getTemp s1 = (Done t, s') /\
         let x := (ph_slope (dev s1) * v + ph_intercept (dev s1)
                   + (198 # 10000) * (t - 25))%Q in
         Binary32.getPH (Binary32.Num (ph_slope (dev s1)))
           (Binary32.Num (ph_intercept (dev s1))) (Binary32.Num v)
           (Binary32.Num t) = Binary32.Num ph /\
         ((x < 0)%Q -> ph = 0%Q) /\
         ((14 < x)%Q -> ph = 14%Q) /\
         ((0 <= x <= 14)%Q -> ph = x) /\
         (0 <= ph <= 14)%Q
     else ph = (-(1))%Q /\ s' = s1) /\
  (exists (v ntu : Q) (s1 : Sys W),
     readVoltage TURB_PIN ChTurb s = (Done v, s1) /\
     getTurbidity s = (Done ntu, s1) /\
     valid ntu = valid v /\
     if valid v then
       let x := (turb_slope (dev s1) * v + turb_intercept (dev s1))%Q in
       Binary32.getTurbidity (Binary32.Num (turb_slope (dev s1)))
         (Binary32.Num (turb_intercept (dev s1))) (Binary32.Num v)
       = Binary32.Num ntu /\
       ((x < 0)%Q -> ntu = 0%Q) /\
       ((150 < x)%Q -> ntu = 150%Q) /\
       ((0 <= x <= 150)%Q -> ntu = x) /\
       (0 <= ntu <= 150)%Q
     else ntu = (-(1))%Q).
Proof.
  split.
  - destruct (returns_readVoltage PH_PIN ChPH s) as (v & s1 & E).
    destruct (Qltb v 0) eqn:Hv.
    + exists v, (-(1))%Q, s1, s1. split; [exact E |].
      split; [exact (getPH_invalid s s1 v E Hv) |].
      unfold valid. rewrite Hv. split; [reflexivity |].
      split; reflexivity.
    + destruct (returns_getTemp s1) as (t & s2 & Et).
      eexists v, _, s1, s2. split; [exact E |].
      split; [exact (getPH_valid s s1 s2 v t E Hv Et) |].
      set (x := (ph_slope (dev s1) * v + ph_intercept (dev s1)
                 + (198 # 10000) * (t - 25))%Q).
      assert (Hr := constrain_range x 0 14 ltac:(lra)).
      destruct (constrain_cases x 0 14 ltac:(lra)) as (Hlo & Hhi & Hin).
      unfold valid at 2 3. rewrite Hv. cbn [negb]. split.
      * apply valid_nonneg. apply Hr.
      * exists t. split; [exact Et |]. cbv zeta. fold x.
        split; [rewrite Binary32_getPH_num, Hv; reflexivity |].
        split; [exact Hlo |]. split; [exact Hhi |].
        split; [exact Hin | exact Hr].
  - destruct (returns_readVoltage TURB_PIN ChTurb s) as (v & s1 & E).
    destruct (Qltb v 0) eqn:Hv.
    + exists v, (-(1))%Q, s1. split; [exact E |].
      split; [exact (getTurbidity_invalid s s1 v E Hv) |].
      unfold valid. rewrite Hv. split; reflexivity.
    + eexists v, _, s1. split; [exact E |].
      split; [exact (getTurbidity_valid s s1 v E Hv) |].
      set (x := (turb_slope (dev s1) * v + turb_intercept (dev s1))%Q).
      assert (Hr := constrain_range x 0 150 ltac:(lra)).
      destruct (constrain_cases x 0 150 ltac:(lra)) as (Hlo & Hhi & Hin).
      unfold valid at 2 3. rewrite Hv. cbn [negb]. split.
      * apply valid_nonneg. apply Hr.
      * cbv zeta. fold x.
        split; [rewrite Binary32_getTurbidity_num, Hv; reflexivity |].
        split; [exact Hlo |]. split; [exact Hhi |].
        split; [exact Hin | exact Hr].
Qed.

End ConversionClaims.

Lemma ph_and_turbidity_clamped_unless_nan_witness :
  let s := booted (bench 3000 2047 25) in
  let hot := mkSys (bench 3000 4094 25)
               (set_buf ChTurb [3; 3; 3]%Q initial_device) [] in
  (exists ph : Q, fst (getPH s) = Done ph /\ (ph == 168583 # 27300)%Q) /\
  fst (getTurbidity hot) = Done 0%Q.
Proof.
  intros s hot. split.
  - destruct (ph_and_turbidity_clamped_unless_nan (board := SimBoard) s)
      as ((v & ph & s1 & s' & Ev & Eph & _ & H) & _).
    exists ph. rewrite Eph. split; [reflexivity |].
    vm_compute in Ev. injection Ev as <- <-.
    cbv beta iota delta [valid Qltb Qnum Qden Z.ltb Z.mul Z.compare negb] in H.
    destruct H as (t & Et & _ & _ & _ & Hin & _).
    vm_compute in Et. injection Et as <- <-.
    cbv zeta in Hin. rewrite Hin.
    + vm_compute. reflexivity.
    + split; vm_compute; discriminate.
  - destruct (ph_and_turbidity_clamped_unless_nan (board := SimBoard) hot)
      as (_ & (v & ntu & s1 & Ev & En & _ & H)).
    rewrite En. cbn [fst]. f_equal.
    vm_compute in Ev. injection Ev as <- <-.
    cbv beta iota delta [valid Qltb Qnum Qden Z.ltb Z.mul Z.compare negb] in H.
    destruct H as (_ & Hlo & _).
    apply Hlo. vm_compute. reflexivity.
Defined.

(** C7 as stated fails on a NaN.  With a NaN for the slope, which the
    calibration store can hold, a mid-scale voltage and 25 degrees, both
    comparisons of the clamp are false: the pH reading is the NaN itself,
    which is not in [[0, 14]], and the turbidity reading is the NaN itself,
    which is not in [[0, 150]]. *)
Lemma nan_coefficient_is_not_clamped :
  Binary32.getPH Binary32.NaN (Binary32.Num 7) (Binary32.Num (33 # 20))
    (Binary32.Num 25) = Binary32.NaN /\
  ~ Binary32.within 0 14
      (Binary32.getPH Binary32.NaN (Binary32.Num 7) (Binary32.Num (33 # 20))
         (Binary32.Num 25)) /\
  Binary32.getTurbidity Binary32.NaN (Binary32.Num 100)
    (Binary32.Num (33 # 20)) = Binary32.NaN /\
  ~ Binary32.within 0 150
      (Binary32.getTurbidity Binary32.NaN (Binary32.Num 100)
         (Binary32.Num (33 # 20))).
Proof.
  split; [reflexivity |].
  split; [intros H; vm_compute in H; exact H |].
  split; [reflexivity |].
  intros H. vm_compute in H. exact H.
Qed.

(** ** Temperature faults and the upload gate *)

Section UploadGate.

Context {W : Type} {board : Board W}.

Lemma writes_snoc_neq (l : list Z) (x : Z) : l ++ [x] <> l.
Proof.
  intros E. apply (f_equal (@length Z)) in E. rewrite length_app in E.
  cbn in E. lia.
Qed.

Lemma writes_writePayload data (s : Sys W) :
  exists sec : Z,
    writes (trace (snd (writePayload data s))) = writes (trace s) ++ [sec].
Proof.
  unfold writePayload, millis, bind, ask, emit, ret.
  destruct (hw_millis (world s)) as [now w1]. cbn [world dev trace].
  destruct (hw_setJSON (ul now / 1000) data w1) as [r w2].
  exists (ul now / 1000).
  destruct r; cbn [snd trace]; rewrite !writes_app; cbn;
    rewrite ?app_nil_r; reflexivity.
Qed.

(** The gate of [uploadReadings]: nothing is written exactly when
    [sensor_error] holds of the readings just taken. *)
Lemma upload_gate (s : Sys W) :
  exists (temperature ph turbidity tds : Q) (s1 s2 s3 s4 s' : Sys W),
    getTemp s = (Done temperature, s1) /\
    getPH s1 = (Done ph, s2) /\
    getTurbidity s2 = (Done turbidity, s3) /\
    getTDS s3 = (Done tds, s4) /\
    uploadReadings s = (Done tt, s') /\
    (writes (trace s') = writes (trace s) <->
     sensor_error temperature ph turbidity tds
       (if Qltb tds 0 then -(1) else tds * 2)%Q = true).
Proof.
  destruct (returns_getTemp s) as (temperature & s1 & E1).
  destruct (returns_getPH s1) as (ph & s2 & E2).
  destruct (returns_getTurbidity s2) as (turbidity & s3 & E3).
  destruct (returns_getTDS s3) as (tds & s4 & E4).
  assert (Hw : writes (trace s4) = writes (trace s)).
  { pose proof (passive_getTemp s) as P1. rewrite E1 in P1.
    pose proof (passive_getPH s1) as P2. rewrite E2 in P2.
    pose proof (passive_getTurbidity s2) as P3. rewrite E3 in P3.
    pose proof (passive_getTDS s3) as P4. rewrite E4 in P4.
    unfold same, passive in *. cbn [snd] in *. congruence. }
  assert (Eu : uploadReadings s =
               (if sensor_error temperature ph turbidity tds
                     (if Qltb tds 0 then -(1) else tds * 2)%Q
                then emit (SerialPrint MSG_SENSOR_ERROR)
                else writePayload
                       (mkPayload temperature ph turbidity tds
                          (if Qltb tds 0 then -(1) else tds * 2)%Q)) s4).
  { unfold uploadReadings.
    rewrite (bind_done _ _ _ _ _ E1), (bind_done _ _ _ _ _ E2),
      (bind_done _ _ _ _ _ E3), (bind_done _ _ _ _ _ E4). reflexivity. }
  destruct (sensor_error temperature ph turbidity tds
              (if Qltb tds 0 then -(1) else tds * 2)%Q) eqn:Hse.
  - eexists temperature, ph, turbidity, tds, s1, s2, s3, s4, _.
    split; [exact E1 |]. split; [exact E2 |]. split; [exact E3 |].
    split; [exact E4 |]. split; [exact Eu |].
    cbn [trace]. rewrite writes_app, Hw. cbn. rewrite app_nil_r.
    split; intros _; [exact Hse | reflexivity].
  - destruct (returns_writePayload
                (mkPayload temperature ph turbidity tds
                   (if Qltb tds 0 then -(1) else tds * 2)%Q) s4)
      as ([] & s' & Ew).
    destruct (writes_writePayload
                (mkPayload temperature ph turbidity tds
                   (if Qltb tds 0 then -(1) else tds * 2)%Q) s4)
      as (sec & Hsec).
    rewrite Ew in Hsec. cbn [snd] in Hsec. rewrite Ew in Eu.
    exists temperature, ph, turbidity, tds, s1, s2, s3, s4, s'.
    split; [exact E1 |]. split; [exact E2 |]. split; [exact E3 |].
    split; [exact E4 |]. split; [exact Eu |].
    rewrite Hsec, Hw, Hse. split; [| discriminate].
    intros Habs. exfalso. exact (writes_snoc_neq _ _ Habs).
Qed.

(** A reading of 25.0 degrees never trips the gate by itself. *)
Lemma sensor_error_at_default ph turbidity tds :
  sensor_error 25 ph turbidity tds (if Qltb tds 0 then -(1) else tds * 2)%Q
  = true <->
  valid ph = false \/ valid turbidity = false \/ valid tds = false \/
  valid (if Qltb tds 0 then -(1) else tds * 2)%Q = false.
Proof.
  unfold sensor_error, valid.
  replace (Qltb 25 0) with false by reflexivity. cbn [orb].
  rewrite !orb_true_iff, !negb_false_iff. tauto.
Qed.

(** In general the gate also closes on a negative temperature. *)
Lemma sensor_error_iff temperature ph turbidity tds :
  sensor_error temperature ph turbidity tds
    (if Qltb tds 0 then -(1) else tds * 2)%Q = true <->
  (temperature < 0)%Q \/
  valid ph = false \/ valid turbidity = false \/ valid tds = false \/
  valid (if Qltb tds 0 then -(1) else tds * 2)%Q = false.
Proof.
  unfold sensor_error, valid.
  rewrite !orb_true_iff, !negb_false_iff, Qltb_lt. tauto.
Qed.

(** pH validity never depends on the probe. *)
Lemma getPH_valid_iff (s s1 : Sys W) v :
  readVoltage PH_PIN ChPH s = (Done v, s1) ->
  exists (ph : Q) (s' : Sys W), getPH s = (Done ph, s') /\ valid ph = valid v.
Proof.
  intros E. destruct (Qltb v 0) eqn:Hv.
  - exists (-(1))%Q, s1. split; [exact (getPH_invalid s s1 v E Hv) |].
    unfold valid. rewrite Hv. reflexivity.
  - destruct (returns_getTemp s1) as (t & s2 & Et).
    eexists _, s2. split; [exact (getPH_valid s s1 s2 v t E Hv Et) |].
    unfold valid at 2. rewrite Hv. cbn [negb]. apply valid_nonneg.
    apply constrain_range. lra.
Qed.

(** With a faulted probe TDS is what it is at 25.0 degrees: [mean_v * k]. *)
Lemma getTDS_under_fault (s s1 : Sys W) v t w :
  readVoltage TDS_PIN ChTDS s = (Done v, s1) ->
  valid v = true ->
  hw_tempC (world s1) = (t, w) ->
  probe_fault t = true ->
  exists (tds : Q) (s' : Sys W),
    getTDS s = (Done tds, s') /\
    (tds == v * tds_k (dev s1))%Q /\
    ((0 <= tds_k (dev s1))%Q -> valid tds = true).
Proof.
  intros E Hv Et Hf. unfold valid in Hv. apply negb_true_iff in Hv.
  pose proof (getTemp_fault s1 t w Et Hf) as Eg.
  eexists _, _. split; [exact (getTDS_valid s s1 _ v 25 E Hv Eg) |].
  cbn [dev]. split; [ring |].
  intros Hk. apply valid_nonneg. apply Qltb_ge in Hv.
  assert (0 <= v * tds_k (dev s1))%Q by (apply Qmult_le_0_compat; assumption).
  lra.
Qed.

End UploadGate.

Section TemperatureClaims.

Context {W : Type} {board : Board W}.

(** C3, as the firmware has it.  A probe sentinel (-127 or 85) reads as the
    default 25.0 degrees and invalidates nothing: the pH reading is valid
    exactly when its voltage sample is, whatever the probe says; with a
    faulted probe TDS is [mean_v * k], valid for a non-negative [k]; and the
    fault never closes the upload gate by itself.  The gate of an upload
    cycle closes exactly when the temperature value is negative or one of
    the pH, turbidity, TDS and EC readings is invalid. *)
Theorem temperature_fault_degrades_only :
  (forall (s : Sys W) (t : Q) (w : W),
     hw_tempC (world s) = (t, w) -> probe_fault t = true ->
     fst (getTemp s) = Done 25%Q) /\
  (forall (s s1 : Sys W) (v : Q),
     readVoltage PH_PIN ChPH s = (Done v, s1) ->
     exists (ph : Q) (s' : Sys W),
       getPH s = (Done ph, s') /\ valid ph = valid v) /\
  (forall (s s1 : Sys W) (v t : Q) (w : W),
     readVoltage TDS_PIN ChTDS s = (Done v, s1) -> valid v = true ->
     hw_tempC (world s1) = (t, w) -> probe_fault t = true ->
     exists (tds : Q) (s' : Sys W),
       getTDS s = (Done tds, s') /\
       (tds == v * tds_k (dev s1))%Q /\
       ((0 <= tds_k (dev s1))%Q -> valid tds = true)) /\
  (forall s : Sys W,
     exists (temperature ph turbidity tds : Q) (s1 s2 s3 s4 s' : Sys W),
       getTemp s = (Done temperature, s1) /\
       getPH s1 = (Done ph, s2) /\
       getTurbidity s2 = (Done turbidity, s3) /\
       getTDS s3 = (Done tds, s4) /\
       uploadReadings s = (Done tt, s') /\
       let ec := (if Qltb tds 0 then -(1) else tds * 2)%Q in
       let reading_invalid :=
         valid ph = false \/ valid turbidity = false \/ valid tds = false \/
         valid ec = false in
       (writes (trace s') = writes (trace s) <->
        (temperature < 0)%Q \/ reading_invalid) /\
       (forall (t : Q) (w : W),
          hw_tempC (world s) = (t, w) -> probe_fault t = true ->
          temperature = 25%Q /\
          (writes (trace s') = writes (trace s) <-> reading_invalid))).
Proof.
  split; [| split; [| split]].
  - intros s t w E Hf. rewrite (getTemp_fault s t w E Hf). reflexivity.
  - intros s s1 v E. exact (getPH_valid_iff s s1 v E).
  - intros s s1 v t w E Hv Et Hf. exact (getTDS_under_fault s s1 v t w E Hv Et Hf).
  - intros s.
    destruct (upload_gate s)
      as (temperature & ph & turbidity & tds & s1 & s2 & s3 & s4 & s'
          & E1 & E2 & E3 & E4 & Eu & Hgate).
    exists temperature, ph, turbidity, tds, s1, s2, s3, s4, s'.
    split; [exact E1 |]. split; [exact E2 |]. split; [exact E3 |].
    split; [exact E4 |]. split; [exact Eu |]. cbv zeta. split.
    + rewrite Hgate. apply sensor_error_iff.
    + intros t w Et Hf. rewrite (getTemp_fault s t w Et Hf) in E1.
      injection E1 as <- _. split; [reflexivity |].
      rewrite Hgate. apply sensor_error_at_default.
Qed.

End TemperatureClaims.

Lemma temperature_fault_degrades_only_witness :
  let s := booted (bench 3000 2047 (-(127))) in
  fst (getTemp s) = Done 25%Q /\
  (exists (tds : Q) (s' : Sys Sim),
     getTDS s = (Done tds, s') /\ valid tds = true) /\
  (exists (temperature : Q) (s1 s' : Sys Sim),
     getTemp s = (Done temperature, s1) /\
     uploadReadings s = (Done tt, s') /\ temperature = 25%Q).
Proof.
  intros s.
  destruct (temperature_fault_degrades_only (board := SimBoard))
    as (Hdefault & _ & Htds & Hgate).
  split; [| split].
  - exact (Hdefault s (-(127))%Q (world s) eq_refl eq_refl).
  - pose (s1 := snd (readVoltage TDS_PIN ChTDS s)).
    pose (v := (sum3 (buf_of ChTDS (dev s1)) / 3)%Q).
    assert (Ev : readVoltage TDS_PIN ChTDS s = (Done v, s1)) by reflexivity.
    assert (Hv : valid v = true) by reflexivity.
    destruct (Htds s s1 v (-(127))%Q (world s) Ev Hv eq_refl eq_refl)
      as (tds & s' & E & _ & Hvalid).
    exists tds, s'. split; [exact E |]. apply Hvalid. discriminate.
  - destruct (Hgate s)
      as (temperature & ph & turbidity & tds & s1 & s2 & s3 & s4 & s'
          & E1 & E2 & E3 & E4 & Eu & _ & Hfault).
    destruct (Hfault (-(127))%Q (world s) eq_refl eq_refl) as [Ht _].
    exists temperature, s1, s'. split; [exact E1 |]. split; [exact Eu | exact Ht].
Defined.

(** C3 as stated fails on a probe reading that is negative without being a
    sentinel: at -5.0 degrees every sensor reading is valid and the cycle is
    skipped all the same. *)
Lemma subzero_temperature_blocks_upload :
  let s := booted (bench 3000 2047 (-(5))) in
  probe_fault (-(5)) = false /\
  exists (ph turbidity tds : Q) (s1 s2 s3 s4 : Sys Sim),
    getTemp s = (Done (-(5))%Q, s1) /\
    getPH s1 = (Done ph, s2) /\
    getTurbidity s2 = (Done turbidity, s3) /\
    getTDS s3 = (Done tds, s4) /\
    valid ph = true /\ valid turbidity = true /\ valid tds = true /\
    valid (if Qltb tds 0 then -(1) else tds * 2)%Q = true /\
    trace (snd (uploadReadings s)) = [SerialPrint MSG_SENSOR_ERROR] /\
    writes (trace (snd (uploadReadings s))) = [].
Proof.
  intros s. split; [reflexivity |].
  pose (reading_of := fun o : Outcome Q * Sys Sim =>
                        match fst o with Done r => r | Halted => 0%Q end).
  pose (s1 := snd (getTemp s)).
  pose (s2 := snd (getPH s1)).
  pose (s3 := snd (getTurbidity s2)).
  pose (s4 := snd (getTDS s3)).
  exists (reading_of (getPH s1)), (reading_of (getTurbidity s2)),
    (reading_of (getTDS s3)), s1, s2, s3, s4.
  do 9 (split; [vm_compute; reflexivity |]).
  vm_compute; reflexivity.
Qed.

(** ** The menu handler *)

Section Menu.

Context {W : Type} {board : Board W}.

Lemma passive_stampPress_but_press :
  stays (same (fun s => (currentMenuItem (dev s), lastRead (dev s),
                         powerSaveMode (dev s), trace s)))
    stampPress.
Proof. unfold stampPress, millis. stays_tac globals_side. Qed.

Lemma index_selectAction :
  stays (same (fun s => (currentMenuItem (dev s), lastRead (dev s))))
    selectAction.
Proof.
  unfold selectAction. apply stays_bind; [typeclasses eauto | |].
  { apply stays_get_dev. typeclasses eauto. }
  intros d. destruct (currentMenuItem d) as [| p | p].
  - stays_tac globals_side.
  - do 3 (try destruct p as [p | p |]); stays_tac globals_side.
  - stays_tac globals_side.
Qed.

Lemma extends_selectAction : stays extends selectAction.
Proof.
  unfold selectAction. apply stays_bind; [typeclasses eauto | |].
  { apply stays_get_dev. typeclasses eauto. }
  intros d. destruct (currentMenuItem d) as [| p | p].
  - stays_tac extends_side.
  - do 3 (try destruct p as [p | p |]); stays_tac extends_side.
  - stays_tac extends_side.
Qed.

Hint Resolve index_selectAction extends_selectAction : fw_stays.

Lemma lastRead_selectAction :
  stays (same (fun s => lastRead (dev s))) selectAction.
Proof.
  eapply stays_weaken; [| exact index_selectAction].
  intros s s' Hs. unfold same in *. congruence.
Qed.

Lemma index_only_selectAction :
  stays (same (fun s => currentMenuItem (dev s))) selectAction.
Proof.
  eapply stays_weaken; [| exact index_selectAction].
  intros s s' Hs. unfold same in *. congruence.
Qed.

Hint Resolve lastRead_selectAction index_only_selectAction : fw_stays.

(** The menu handler never touches the schedule's timestamp. *)
Lemma lastRead_handleMenu : stays (same (fun s => lastRead (dev s))) handleMenu.
Proof. unfold handleMenu, stampPress. stays_tac globals_side. Qed.

Lemma extends_handleMenu : stays extends handleMenu.
Proof. unfold handleMenu, stampPress. stays_tac extends_side. Qed.

(** *** Which branch runs *)

Lemma handleMenu_bounced (s : Sys W) t0 w0 :
  hw_millis (world s) = (t0, w0) ->
  (ul_sub (ul t0) (lastButtonPress (dev s)) <? 200) = true ->
  handleMenu s = (Done tt, in_world w0 s).
Proof.
  intros E0 Hd. unfold handleMenu, millis, bind, ask, ret, get_dev.
  rewrite E0. cbn [world dev trace]. rewrite Hd. reflexivity.
Qed.

Lemma handleMenu_up (s : Sys W) t0 w0 w1 :
  hw_millis (world s) = (t0, w0) -> debounce_open s t0 ->
  hw_digitalRead BTN_UP w0 = (false, w1) ->
  handleMenu s =
    (displayMenu ;; stampPress)
      (mkSys w1
         (set_currentMenuItem
            (if 0 <? currentMenuItem (dev s) then currentMenuItem (dev s) - 1
             else menuItemsCount - 1) (dev s))
         (trace s)).
Proof.
  intros E0 Hd E1. unfold handleMenu, millis, digitalRead.
  unfold bind, ask, ret, get_dev, modify_dev.
  unfold debounce_open in Hd.
  rewrite E0. cbn [world dev trace]. rewrite Hd. cbn [world dev trace].
  rewrite E1. cbn [negb world dev trace].
  match goal with |- context [displayMenu ?x] => destruct (displayMenu x) as [[[] |] s'] end;
    reflexivity.
Qed.

Lemma handleMenu_down (s : Sys W) t0 w0 w1 w2 :
  hw_millis (world s) = (t0, w0) -> debounce_open s t0 ->
  hw_digitalRead BTN_UP w0 = (true, w1) ->
  hw_digitalRead BTN_DOWN w1 = (false, w2) ->
  handleMenu s =
    (displayMenu ;; stampPress)
      (mkSys w2
         (set_currentMenuItem
            (if currentMenuItem (dev s) <? menuItemsCount - 1
             then currentMenuItem (dev s) + 1 else 0) (dev s))
         (trace s)).
Proof.
  intros E0 Hd E1 E2. unfold handleMenu, millis, digitalRead.
  unfold bind, ask, ret, get_dev, modify_dev.
  unfold debounce_open in Hd.
  rewrite E0. cbn [world dev trace]. rewrite Hd. cbn [world dev trace].
  rewrite E1. cbn [negb world dev trace].
  rewrite E2. cbn [negb world dev trace].
  match goal with |- context [displayMenu ?x] => destruct (displayMenu x) as [[[] |] s'] end;
    reflexivity.
Qed.

Lemma handleMenu_select (s : Sys W) t0 w0 w1 w2 w3 :
  hw_millis (world s) = (t0, w0) -> debounce_open s t0 ->
  hw_digitalRead BTN_UP w0 = (true, w1) ->
  hw_digitalRead BTN_DOWN w1 = (true, w2) ->
  hw_digitalRead BTN_SELECT w2 = (false, w3) ->
  handleMenu s = (selectAction ;; stampPress) (in_world w3 s).
Proof.
  intros E0 Hd E1 E2 E3. unfold handleMenu, millis, digitalRead.
  unfold bind, ask, ret, get_dev, modify_dev.
  unfold debounce_open in Hd.
  rewrite E0. cbn [world dev trace]. rewrite Hd. cbn [world dev trace].
  rewrite E1. cbn [negb world dev trace].
  rewrite E2. cbn [negb world dev trace]. rewrite E3. cbn [negb world dev trace].
  unfold in_world.
  match goal with |- context [selectAction ?x] => destruct (selectAction x) as [[[] |] s'] end;
    reflexivity.
Qed.

Lemma handleMenu_back (s : Sys W) t0 w0 w1 w2 w3 w4 :
  hw_millis (world s) = (t0, w0) -> debounce_open s t0 ->
  hw_digitalRead BTN_UP w0 = (true, w1) ->
  hw_digitalRead BTN_DOWN w1 = (true, w2) ->
  hw_digitalRead BTN_SELECT w2 = (true, w3) ->
  hw_digitalRead BTN_BACK w3 = (false, w4) ->
  handleMenu s = (displayMenu ;; stampPress) (in_world w4 s).
Proof.
  intros E0 Hd E1 E2 E3 E4. unfold handleMenu, millis, digitalRead.
  unfold bind, ask, ret, get_dev, modify_dev.
  unfold debounce_open in Hd.
  rewrite E0. cbn [world dev trace]. rewrite Hd. cbn [world dev trace].
  rewrite E1. cbn [negb world dev trace].
  rewrite E2. cbn [negb world dev trace]. rewrite E3. cbn [negb world dev trace].
  rewrite E4. cbn [negb world dev trace]. unfold in_world.
  match goal with |- context [displayMenu ?x] => destruct (displayMenu x) as [[[] |] s'] end;
    reflexivity.
Qed.

Lemma handleMenu_idle (s : Sys W) t0 w0 w1 w2 w3 w4 :
  hw_millis (world s) = (t0, w0) -> debounce_open s t0 ->
  hw_digitalRead BTN_UP w0 = (true, w1) ->
  hw_digitalRead BTN_DOWN w1 = (true, w2) ->
  hw_digitalRead BTN_SELECT w2 = (true, w3) ->
  hw_digitalRead BTN_BACK w3 = (true, w4) ->
  handleMenu s = (Done tt, in_world w4 s).
Proof.
  intros E0 Hd E1 E2 E3 E4. unfold handleMenu, millis, digitalRead.
  unfold bind, ask, ret, get_dev, modify_dev.
  unfold debounce_open in Hd.
  rewrite E0. cbn [world dev trace]. rewrite Hd. cbn [world dev trace].
  rewrite E1. cbn [negb world dev trace].
  rewrite E2. cbn [negb world dev trace]. rewrite E3. cbn [negb world dev trace].
  rewrite E4. reflexivity.
Qed.

(** Redrawing the menu and stamping the press leave the index alone. *)
Lemma index_redraw :
  stays (same (fun s => currentMenuItem (dev s))) (displayMenu ;; stampPress).
Proof. unfold stampPress. stays_tac globals_side. Qed.

Lemma index_select :
  stays (same (fun s => currentMenuItem (dev s))) (selectAction ;; stampPress).
Proof. unfold stampPress. stays_tac globals_side. Qed.

End Menu.

(** ** Power manager and schedule: frames *)

Section LoopFrames.

Context {W : Type} {board : Board W}.

Lemma passive_enterDeepSleep : stays (same passive) enterDeepSleep.
Proof. unfold enterDeepSleep. stays_tac passive_side. Qed.
Hint Resolve passive_enterDeepSleep : fw_stays.

Lemma passive_sleepCheck : stays (same passive) sleepCheck.
Proof. unfold sleepCheck. stays_tac passive_side. Qed.
Hint Resolve passive_sleepCheck : fw_stays.

(** The power manager changes no control, attempts no upload, writes
    nothing. *)
Lemma passive_managePower : stays (same passive) managePower.
Proof. unfold managePower. stays_tac passive_side. Qed.
Hint Resolve passive_managePower : fw_stays.

(** The schedule changes neither the menu index nor the power-save flag. *)
Lemma menu_and_mode_autoSend :
  stays (same (fun s => (currentMenuItem (dev s), powerSaveMode (dev s))))
    autoSend.
Proof. unfold autoSend. stays_tac globals_side. Qed.

Lemma index_ok_handleMenu (s : Sys W) :
  index_ok s -> index_ok (snd (handleMenu s)).
Proof.
  intros Hok.
  destruct (hw_millis (world s)) as [t0 w0] eqn:E0.
  destruct (ul_sub (ul t0) (lastButtonPress (dev s)) <? 200) eqn:Hd.
  { rewrite (handleMenu_bounced s t0 w0 E0 Hd). exact Hok. }
  destruct (hw_digitalRead BTN_UP w0) as [[|] w1] eqn:E1.
  2:{ rewrite (handleMenu_up s t0 w0 w1 E0 Hd E1).
      unfold index_ok. rewrite index_redraw. cbn [dev currentMenuItem set_currentMenuItem].
      unfold index_ok, menuItemsCount in *.
      destruct (0 <? currentMenuItem (dev s)) eqn:Hc; [apply Z.ltb_lt in Hc |]; lia. }
  destruct (hw_digitalRead BTN_DOWN w1) as [[|] w2] eqn:E2.
  2:{ rewrite (handleMenu_down s t0 w0 w1 w2 E0 Hd E1 E2).
      unfold index_ok. rewrite index_redraw. cbn [dev currentMenuItem set_currentMenuItem].
      unfold index_ok, menuItemsCount in *.
      destruct (currentMenuItem (dev s) <? 7 - 1) eqn:Hc;
        [apply Z.ltb_lt in Hc |]; lia. }
  destruct (hw_digitalRead BTN_SELECT w2) as [[|] w3] eqn:E3.
  2:{ rewrite (handleMenu_select s t0 w0 w1 w2 w3 E0 Hd E1 E2 E3).
      unfold index_ok. rewrite index_select. exact Hok. }
  destruct (hw_digitalRead BTN_BACK w3) as [[|] w4] eqn:E4.
  - rewrite (handleMenu_idle s t0 w0 w1 w2 w3 w4 E0 Hd E1 E2 E3 E4). exact Hok.
  - rewrite (handleMenu_back s t0 w0 w1 w2 w3 w4 E0 Hd E1 E2 E3 E4).
    unfold index_ok. rewrite index_redraw. exact Hok.
Qed.

(** An invariant kept by both halves of a sequence is kept by the sequence. *)
Lemma keeps_bind {A B} (P : Sys W -> Prop) (m : M W A) (k : A -> M W B) :
  (forall s, P s -> P (snd (m s))) ->
  (forall a s, P s -> P (snd (k a s))) ->
  forall s, P s -> P (snd (bind m k s)).
Proof.
  intros Hm Hk s Hs. unfold bind. specialize (Hm s Hs).
  destruct (m s) as [[a |] s1]; cbn [snd] in *; [apply Hk |]; exact Hm.
Qed.

Lemma index_ok_loop (s : Sys W) : index_ok s -> index_ok (snd (loop s)).
Proof.
  revert s. unfold loop.
  apply keeps_bind; [exact index_ok_handleMenu | intros _].
  apply keeps_bind.
  { intros s Hs. unfold index_ok.
    pose proof (passive_managePower s) as Hp. unfold same, passive, controls in Hp.
    replace (currentMenuItem (dev (snd (managePower s))))
      with (currentMenuItem (dev s)) by congruence.
    exact Hs. }
  intros _. apply keeps_bind.
  { intros s Hs. unfold index_ok.
    pose proof (menu_and_mode_autoSend s) as Hp. unfold same in Hp.
    replace (currentMenuItem (dev (snd (autoSend s))))
      with (currentMenuItem (dev s)) by congruence.
    exact Hs. }
  intros _ s Hs. exact Hs.
Qed.

Lemma index_ok_run (n : nat) (s : Sys W) :
  index_ok s -> index_ok (snd (run n s)).
Proof.
  revert s. induction n as [| n IH]; intros s Hs; [exact Hs |].
  cbn [run]. revert s Hs. apply keeps_bind; [exact index_ok_loop |].
  intros _. exact IH.
Qed.

End LoopFrames.

(** ** Menu: the claims *)

Section MenuClaims.

Context {W : Type} {board : Board W}.

(** C8. An accepted Up press moves the selection to the previous item and
    from index 0 to the last index 6; an accepted Down press moves it to the
    next item and from index 6 to index 0.  Whatever the buttons do, the
    menu handler and the main loop keep the index in [[0, 7)], and so does
    any number of iterations that start from the initial index. *)
Theorem menu_navigation_wraps :
  (forall (s : Sys W) (t0 : Z) (w0 w1 : W),
     index_ok s ->
     hw_millis (world s) = (t0, w0) -> debounce_open s t0 ->
     hw_digitalRead BTN_UP w0 = (false, w1) ->
     currentMenuItem (dev (snd (handleMenu s))) =
       (currentMenuItem (dev s) - 1) mod menuItemsCount /\
     (currentMenuItem (dev s) = 0 ->
      currentMenuItem (dev (snd (handleMenu s))) = 6)) /\
  (forall (s : Sys W) (t0 : Z) (w0 w1 w2 : W),
     index_ok s ->
     hw_millis (world s) = (t0, w0) -> debounce_open s t0 ->
     hw_digitalRead BTN_UP w0 = (true, w1) ->
     hw_digitalRead BTN_DOWN w1 = (false, w2) ->
     currentMenuItem (dev (snd (handleMenu s))) =
       (currentMenuItem (dev s) + 1) mod menuItemsCount /\
     (currentMenuItem (dev s) = 6 ->
      currentMenuItem (dev (snd (handleMenu s))) = 0)) /\
  (forall s : Sys W, index_ok s -> index_ok (snd (handleMenu s))) /\
  (forall s : Sys W, index_ok s -> index_ok (snd (loop s))) /\
  (forall (n : nat) (s : Sys W),
     currentMenuItem (dev s) = currentMenuItem initial_device ->
     index_ok (snd (run n s))).
Proof.
  split; [| split; [| split; [| split]]].
  - intros s t0 w0 w1 Hok E0 Hd E1.
    rewrite (handleMenu_up s t0 w0 w1 E0 Hd E1), index_redraw.
    cbn [dev currentMenuItem set_currentMenuItem].
    unfold index_ok, menuItemsCount in *.
    destruct (0 <? currentMenuItem (dev s)) eqn:Hc.
    + apply Z.ltb_lt in Hc. split; [| lia].
      symmetry. apply Z.mod_small. lia.
    + apply Z.ltb_ge in Hc. assert (Hz : currentMenuItem (dev s) = 0) by lia.
      rewrite Hz. split; reflexivity.
  - intros s t0 w0 w1 w2 Hok E0 Hd E1 E2.
    rewrite (handleMenu_down s t0 w0 w1 w2 E0 Hd E1 E2), index_redraw.
    cbn [dev currentMenuItem set_currentMenuItem].
    unfold index_ok, menuItemsCount in *.
    destruct (currentMenuItem (dev s) <? 7 - 1) eqn:Hc.
    + apply Z.ltb_lt in Hc. split; [| lia].
      symmetry. apply Z.mod_small. lia.
    + apply Z.ltb_ge in Hc. assert (Hz : currentMenuItem (dev s) = 6) by lia.
      rewrite Hz. split; reflexivity.
  - exact index_ok_handleMenu.
  - exact index_ok_loop.
  - intros n s Hboot. apply index_ok_run. unfold index_ok, menuItemsCount.
    rewrite Hboot. cbn. lia.
Qed.

End MenuClaims.

Lemma menu_navigation_wraps_witness :
  currentMenuItem
    (dev (snd (handleMenu (browsing 0 false (holding BTN_UP (bench 3000 2047 25))))))
  = 6 /\
  currentMenuItem
    (dev (snd (handleMenu (browsing 6 false (holding BTN_DOWN (bench 3000 2047 25))))))
  = 0.
Proof.
  destruct (menu_navigation_wraps (board := SimBoard)) as (Hup & Hdown & _).
  split.
  - refine (proj2 (Hup (browsing 0 false (holding BTN_UP (bench 3000 2047 25)))
                     3000 _ _ _ eq_refl eq_refl eq_refl) eq_refl).
    unfold index_ok, menuItemsCount. cbn. lia.
  - refine (proj2 (Hdown (browsing 6 false (holding BTN_DOWN (bench 3000 2047 25)))
                     3000 _ _ _ _ eq_refl eq_refl eq_refl eq_refl) eq_refl).
    unfold index_ok, menuItemsCount. cbn. lia.
Defined.

(** ** Manual send *)

Section ManualSend.

Context {W : Type} {board : Board W}.

(** Select on "Send Data": one upload attempt between the two screens, then
    the confirmation, the one-second pause and the menu again. *)
Lemma selectAction_send (s : Sys W) :
  currentMenuItem (dev s) = 6 ->
  exists (evs post : list Effect) (s' : Sys W),
    selectAction s = (Done tt, s') /\
    attempts evs = 1%nat /\
    attempts post = 0%nat /\
    trace s' =
      trace s
      ++ ([LcdClear; LcdPrint "Sending data..."] ++ evs
          ++ [LcdClear; LcdPrint "Data sent!"])
      ++ Delay 1000 :: post /\
    controls (dev s') = controls (dev s).
Proof.
  intros Hitem.
  pose (sa := mkSys (world s) (dev s)
                ((trace s ++ [LcdClear]) ++ [LcdPrint "Sending data..."])).
  destruct (returns_sendToFirebase sa) as ([] & sb & Eb).
  destruct (extends_sendToFirebase sa) as [evs Hevs].
  pose proof (attempts_sendToFirebase sa) as Hatt.
  rewrite Eb in Hevs, Hatt. cbn [snd] in Hevs, Hatt.
  pose (sd := mkSys (hw_delay 1000 (world sb)) (dev sb)
                (((trace sb ++ [LcdClear]) ++ [LcdPrint "Data sent!"])
                 ++ [Delay 1000])).
  destruct (returns_displayMenu sd) as ([] & se & Ee).
  destruct (extends_displayMenu sd) as [post Hpost].
  pose proof (passive_displayMenu sd) as Hpas.
  rewrite Ee in Hpost, Hpas. cbn [snd] in Hpost, Hpas.
  pose proof (controls_sendToFirebase sa) as Hcs.
  rewrite Eb in Hcs. cbn [snd] in Hcs.
  exists evs, post, se. split; [| split; [| split; [| split]]].
  - unfold selectAction. unfold bind at 1. cbn [get_dev]. rewrite Hitem.
    cbv iota. unfold bind, emit, delay. cbn [world dev trace].
    fold sa. rewrite Eb. cbn [world dev trace]. fold sd. rewrite Ee.
    reflexivity.
  - rewrite Hevs, attempts_app in Hatt. lia.
  - assert (Ha : attempts (trace se) = attempts (trace sd))
      by (unfold same, passive in Hpas; congruence).
    rewrite Hpost, attempts_app in Ha. lia.
  - rewrite Hpost. unfold sd. cbn [trace]. rewrite Hevs. unfold sa. cbn [trace].
    repeat rewrite <- app_assoc. reflexivity.
  - assert (Hce : controls (dev se) = controls (dev sd))
      by (unfold same, passive in Hpas; congruence).
    rewrite Hce. exact Hcs.
Qed.

(** Stamping the press emits nothing. *)
Lemma stampPress_trace (s : Sys W) : trace (snd (stampPress s)) = trace s.
Proof.
  pose proof (passive_stampPress_but_press s) as Hs. unfold same in Hs.
  congruence.
Qed.

(** The schedule attempts an upload exactly when 15 s have passed on its own
    timestamp and power-save is off. *)
Lemma autoSend_attempts (s : Sys W) t0 w0 :
  hw_millis (world s) = (t0, w0) ->
  attempts (trace (snd (autoSend s))) =
    (attempts (trace s)
     + (if (15000 <=? ul_sub (ul t0) (lastRead (dev s)))%Z
           && negb (powerSaveMode (dev s))
        then 1 else 0))%nat.
Proof.
  intros E0. unfold autoSend, millis. unfold bind, ask, ret, get_dev, modify_dev.
  rewrite E0. cbn [world dev trace].
  destruct (15000 <=? ul_sub (ul t0) (lastRead (dev s))); cbn [andb].
  - cbn [world dev trace]. destruct (hw_millis w0) as [t1 w1].
    cbn [world dev trace powerSaveMode set_lastRead].
    destruct (powerSaveMode (dev s)); cbn [negb snd trace].
    + lia.
    + rewrite attempts_sendToFirebase. cbn [trace]. lia.
  - cbn [snd trace]. lia.
Qed.

(** When the schedule fires it restarts its timestamp, whether or not it
    sends; otherwise it leaves the timestamp alone. *)
Lemma autoSend_lastRead (s : Sys W) t0 w0 t1 w1 :
  hw_millis (world s) = (t0, w0) ->
  hw_millis w0 = (t1, w1) ->
  lastRead (dev (snd (autoSend s))) =
    if 15000 <=? ul_sub (ul t0) (lastRead (dev s)) then ul t1
    else lastRead (dev s).
Proof.
  intros E0 E1. unfold autoSend, millis. unfold bind, ask, ret, get_dev, modify_dev.
  rewrite E0. cbn [world dev trace].
  destruct (15000 <=? ul_sub (ul t0) (lastRead (dev s))); [| reflexivity].
  cbn [world dev trace]. rewrite E1.
  cbn [world dev trace powerSaveMode set_lastRead].
  destruct (powerSaveMode (dev s)); cbn [negb]; [reflexivity |].
  match goal with
  | |- lastRead (dev (snd (sendToFirebase ?x))) = _ =>
      pose proof (controls_sendToFirebase x) as Hc;
      assert (Hl : lastRead (dev (snd (sendToFirebase x))) = lastRead (dev x))
        by (unfold same, controls in Hc; congruence);
      exact Hl
  end.
Qed.

End ManualSend.

Section ManualSendClaims.

Context {W : Type} {board : Board W}.

(** C9. An accepted Select press on "Send Data" (item 6) always ends with
    the confirmation: the handler returns, it makes exactly one upload
    attempt, and during the one-second pause that follows the attempt the
    LCD shows "Data sent!" and nothing else.  Nothing is assumed about the
    network, the sensors or the transport, so this holds as well when the
    upload was skipped or the write failed. *)
Theorem data_sent_shown_unconditionally
  (s : Sys W) (t0 : Z) (w0 w1 w2 w3 : W) :
  hw_millis (world s) = (t0, w0) -> debounce_open s t0 ->
  hw_digitalRead BTN_UP w0 = (true, w1) ->
  hw_digitalRead BTN_DOWN w1 = (true, w2) ->
  hw_digitalRead BTN_SELECT w2 = (false, w3) ->
  currentMenuItem (dev s) = 6 ->
  fst (handleMenu s) = Done tt /\
  exists pre post : list Effect,
    trace (snd (handleMenu s)) = trace s ++ pre ++ Delay 1000 :: post /\
    attempts pre = 1%nat /\
    lcd_text (trace s ++ pre) = ["Data sent!"%string].
Proof.
  intros E0 Hd E1 E2 E3 Hitem.
  rewrite (handleMenu_select s t0 w0 w1 w2 w3 E0 Hd E1 E2 E3).
  destruct (selectAction_send (in_world w3 s) Hitem)
    as (evs & post & s' & Es & Hevs & _ & Htr & _).
  rewrite (bind_done _ _ _ _ _ Es). split.
  - destruct (returns_stampPress s') as ([] & s'' & Est). rewrite Est. reflexivity.
  - exists ([LcdClear; LcdPrint "Sending data..."] ++ evs
            ++ [LcdClear; LcdPrint "Data sent!"]), post.
    split; [| split].
    + rewrite stampPress_trace. exact Htr.
    + rewrite !attempts_app, Hevs. reflexivity.
    + rewrite !app_assoc. rewrite lcd_text_app. reflexivity.
Qed.

(** C10. An accepted Select press on "Send Data" makes one upload attempt
    whatever the power-save flag says, in particular when it is set; the
    flag gates only the 15-second schedule, which attempts nothing while it
    is set. *)
Theorem manual_send_ignores_power_save
  (s : Sys W) (t0 : Z) (w0 w1 w2 w3 : W) :
  hw_millis (world s) = (t0, w0) -> debounce_open s t0 ->
  hw_digitalRead BTN_UP w0 = (true, w1) ->
  hw_digitalRead BTN_DOWN w1 = (true, w2) ->
  hw_digitalRead BTN_SELECT w2 = (false, w3) ->
  currentMenuItem (dev s) = 6 ->
  attempts (trace (snd (handleMenu s))) = S (attempts (trace s)) /\
  (powerSaveMode (dev s) = true ->
   powerSaveMode (dev (snd (handleMenu s))) = true /\
   attempts (trace (snd (autoSend s))) = attempts (trace s)).
Proof.
  intros E0 Hd E1 E2 E3 Hitem.
  rewrite (handleMenu_select s t0 w0 w1 w2 w3 E0 Hd E1 E2 E3).
  destruct (selectAction_send (in_world w3 s) Hitem)
    as (evs & post & s' & Es & Hevs & Hpost & Htr & Hctl).
  rewrite (bind_done _ _ _ _ _ Es). split.
  - rewrite stampPress_trace, Htr. cbn [in_world trace].
    rewrite !attempts_app. cbn. rewrite Hevs, Hpost. lia.
  - intros Hps. split.
    + pose proof (passive_stampPress_but_press s') as Hst. unfold same in Hst.
      replace (powerSaveMode (dev (snd (stampPress s'))))
        with (powerSaveMode (dev s')) by congruence.
      unfold controls in Hctl. cbn [in_world dev] in Hctl.
      injection Hctl as _ _ _ Hm. rewrite Hm. exact Hps.
    + rewrite (autoSend_attempts s t0 w0 E0), Hps, andb_false_r. lia.
Qed.

End ManualSendClaims.

Lemma data_sent_shown_unconditionally_witness :
  let shown := fun s : Sys Sim =>
    exists pre post : list Effect,
      trace (snd (handleMenu s)) = trace s ++ pre ++ Delay 1000 :: post /\
      attempts pre = 1%nat /\
      lcd_text (trace s ++ pre) = ["Data sent!"%string] in
  let w := holding BTN_SELECT (bench 20000 2047 25) in
  (shown (browsing 6 false (offline w)) /\
   writes (trace (snd (handleMenu (browsing 6 false (offline w))))) = []) /\
  (shown (browsing 6 false (reading PH_PIN 0 w)) /\
   writes (trace (snd (handleMenu (browsing 6 false (reading PH_PIN 0 w))))) = []) /\
  (shown (browsing 6 false (rejecting "connection lost" w)) /\
   existsb (fun e => match e with
                     | SetJSON _ _ (WriteFailed _) => true
                     | _ => false
                     end)
     (trace (snd (handleMenu (browsing 6 false (rejecting "connection lost" w)))))
   = true).
Proof.
  intros shown w. split; [| split]; (split; [| vm_compute; reflexivity]).
  - exact (proj2 (data_sent_shown_unconditionally (board := SimBoard)
                    (browsing 6 false (offline w)) 20000 _ _ _ _
                    eq_refl eq_refl eq_refl eq_refl eq_refl eq_refl)).
  - exact (proj2 (data_sent_shown_unconditionally (board := SimBoard)
                    (browsing 6 false (reading PH_PIN 0 w)) 20000 _ _ _ _
                    eq_refl eq_refl eq_refl eq_refl eq_refl eq_refl)).
  - exact (proj2 (data_sent_shown_unconditionally (board := SimBoard)
                    (browsing 6 false (rejecting "connection lost" w)) 20000
                    _ _ _ _ eq_refl eq_refl eq_refl eq_refl eq_refl eq_refl)).
Defined.

Lemma manual_send_ignores_power_save_witness :
  let s := browsing 6 true (holding BTN_SELECT (bench 20000 2047 25)) in
  powerSaveMode (dev s) = true /\
  attempts (trace (snd (handleMenu s))) = 1%nat /\
  powerSaveMode (dev (snd (handleMenu s))) = true /\
  attempts (trace (snd (autoSend s))) = 0%nat.
Proof.
  intros s.
  destruct (manual_send_ignores_power_save (board := SimBoard) s 20000 _ _ _ _
              eq_refl eq_refl eq_refl eq_refl eq_refl eq_refl) as [Hman Hauto].
  destruct (Hauto eq_refl) as [Hmode Hnone].
  split; [reflexivity |]. split; [exact Hman |]. split; [exact Hmode | exact Hnone].
Defined.

(** ** Power manager and schedule *)

Section Power.

Context {W : Type} {board : Board W}.

Lemma managePower_off (s : Sys W) :
  powerSaveMode (dev s) = false -> managePower s = (Done tt, s).
Proof.
  intros Hps. unfold managePower. unfold bind at 1. cbn [get_dev].
  rewrite Hps. reflexivity.
Qed.

Lemma managePower_on (s s1 : Sys W) :
  powerSaveMode (dev s) = true ->
  dimBacklight s = (Done tt, s1) ->
  managePower s = sleepCheck s1.
Proof.
  intros Hps Ed. unfold managePower. unfold bind at 1. cbn [get_dev].
  rewrite Hps. rewrite (bind_done _ _ _ _ _ Ed). reflexivity.
Qed.

Lemma enterDeepSleep_halts (s : Sys W) :
  fst (enterDeepSleep s) = Halted /\
  slept (trace (snd (enterDeepSleep s))) = true.
Proof.
  unfold enterDeepSleep, bind, emit, delay, halt. cbn [fst snd trace].
  split; [reflexivity |]. rewrite !slept_app. cbn. apply orb_true_r.
Qed.

Lemma sleepCheck_halts_iff (s : Sys W) :
  fst (sleepCheck s) = Halted <->
  300000 < ul_sub (ul (fst (hw_millis (world s)))) (lastRead (dev s)).
Proof.
  unfold sleepCheck, millis. unfold bind at 1 2 3. unfold ask, ret, get_dev.
  destruct (hw_millis (world s)) as [t w]. cbn [fst world dev trace].
  destruct (300000 <? ul_sub (ul t) (lastRead (dev s))) eqn:Hc.
  - apply Z.ltb_lt in Hc. split; [intros _; exact Hc | intros _].
    apply enterDeepSleep_halts.
  - apply Z.ltb_ge in Hc. cbn [fst]. split; [discriminate | lia].
Qed.

Lemma sleepCheck_slept (s : Sys W) :
  slept (trace s) = false ->
  (slept (trace (snd (sleepCheck s))) = true <-> fst (sleepCheck s) = Halted).
Proof.
  intros Hno. rewrite sleepCheck_halts_iff.
  unfold sleepCheck, millis. unfold bind at 1 2 3. unfold ask, ret, get_dev.
  destruct (hw_millis (world s)) as [t w]. cbn [fst world dev trace].
  destruct (300000 <? ul_sub (ul t) (lastRead (dev s))) eqn:Hc.
  - apply Z.ltb_lt in Hc. split; [intros _; exact Hc | intros _].
    apply enterDeepSleep_halts.
  - apply Z.ltb_ge in Hc. cbn [snd trace]. rewrite Hno.
    split; [discriminate | lia].
Qed.

(** The deep-sleep rule of the power manager. *)
Lemma managePower_halts_iff (s : Sys W) :
  fst (managePower s) = Halted <->
  powerSaveMode (dev s) = true /\
  300000 < ul_sub (sleep_clock s) (lastRead (dev s)).
Proof.
  destruct (powerSaveMode (dev s)) eqn:Hps.
  - destruct (returns_dimBacklight s) as ([] & s1 & Ed).
    rewrite (managePower_on s s1 Hps Ed), sleepCheck_halts_iff.
    unfold sleep_clock. rewrite Ed. cbn [snd].
    assert (Hl : lastRead (dev s1) = lastRead (dev s)).
    { pose proof (passive_dimBacklight s) as Hp. rewrite Ed in Hp.
      unfold same, passive, controls in Hp. cbn [snd] in Hp. congruence. }
    rewrite Hl. tauto.
  - rewrite (managePower_off s Hps). cbn [fst].
    split; [discriminate | intros [Habs _]; discriminate].
Qed.

Lemma managePower_slept (s : Sys W) :
  slept (trace s) = false ->
  (slept (trace (snd (managePower s))) = true <-> fst (managePower s) = Halted).
Proof.
  intros Hno. destruct (powerSaveMode (dev s)) eqn:Hps.
  - destruct (returns_dimBacklight s) as ([] & s1 & Ed).
    rewrite (managePower_on s s1 Hps Ed). apply sleepCheck_slept.
    revert Ed. unfold dimBacklight, millis.
    unfold bind, ask, ret, get_dev, emit, modify_dev.
    destruct (lcdBacklightOn (dev s)).
    + destruct (hw_millis (world s)) as [t w]. cbn [world dev trace].
      destruct (30000 <? ul_sub (ul t) (lastLCDActivity (dev s)));
        intros Ed; injection Ed as <-; cbn [trace]; [| exact Hno].
      rewrite slept_app, Hno. reflexivity.
    + intros Ed. injection Ed as <-. exact Hno.
  - rewrite (managePower_off s Hps). cbn [fst snd]. rewrite Hno.
    split; discriminate.
Qed.

(** The main loop halts exactly when its power manager does. *)
Lemma loop_halts_iff (s : Sys W) :
  fst (loop s) = Halted <-> fst (managePower (snd (handleMenu s))) = Halted.
Proof.
  unfold loop. destruct (returns_handleMenu s) as ([] & sh & Eh).
  rewrite (bind_done _ _ _ _ _ Eh), Eh. cbn [snd].
  destruct (managePower sh) as [[[] |] sm] eqn:Em.
  - rewrite (bind_done _ _ _ _ _ Em).
    destruct (returns_autoSend sm) as ([] & sa & Ea).
    rewrite (bind_done _ _ _ _ _ Ea). cbn [fst delay]. split; discriminate.
  - rewrite (bind_halted _ _ _ _ Em). cbn [fst]. split; reflexivity.
Qed.

Lemma loop_halted_state (s : Sys W) :
  fst (loop s) = Halted -> snd (loop s) = snd (managePower (snd (handleMenu s))).
Proof.
  unfold loop. destruct (returns_handleMenu s) as ([] & sh & Eh).
  rewrite (bind_done _ _ _ _ _ Eh), Eh. cbn [snd].
  destruct (managePower sh) as [[[] |] sm] eqn:Em.
  - rewrite (bind_done _ _ _ _ _ Em).
    destruct (returns_autoSend sm) as ([] & sa & Ea).
    rewrite (bind_done _ _ _ _ _ Ea). cbn [fst delay]. discriminate.
  - rewrite (bind_halted _ _ _ _ Em). reflexivity.
Qed.

Lemma loop_halted_mode (s : Sys W) :
  fst (loop s) = Halted -> powerSaveMode (dev (snd (loop s))) = true.
Proof.
  intros Hh. rewrite (loop_halted_state s Hh).
  apply loop_halts_iff, managePower_halts_iff in Hh. destruct Hh as [Hps _].
  pose proof (passive_managePower (snd (handleMenu s))) as Hp.
  unfold same, passive, controls in Hp.
  replace (powerSaveMode (dev (snd (managePower (snd (handleMenu s))))))
    with (powerSaveMode (dev (snd (handleMenu s)))) by congruence.
  exact Hps.
Qed.

Lemma run_halted_mode (n : nat) (s : Sys W) :
  fst (run n s) = Halted -> powerSaveMode (dev (snd (run n s))) = true.
Proof.
  revert s. induction n as [| n IH]; intros s; cbn [run].
  - cbn. discriminate.
  - destruct (loop s) as [[[] |] s1] eqn:El.
    + rewrite (bind_done _ _ _ _ _ El). apply IH.
    + rewrite (bind_halted _ _ _ _ El). cbn [fst snd]. intros _.
      pose proof (loop_halted_mode s) as Hm. rewrite El in Hm. apply Hm.
      reflexivity.
Qed.

End Power.

Section PowerClaims.

Context {W : Type} {board : Board W}.

(** The test of the power manager.  It enters deep sleep exactly when
    power-save is enabled and more than 300 s have elapsed, on the unsigned
    32-bit millisecond clock, since the timestamp [lastRead]; without
    wrap-around that is [now - lastRead > 300000].  Entering deep sleep is
    what halts the firmware and what leaves [esp_deep_sleep_start] in the
    trace; an iteration of the main loop halts exactly when its power manager
    does; and however many iterations run, a halt finds power-save enabled,
    while with power-save disabled the power manager does nothing at all. *)
Theorem deep_sleep_only_in_power_save :
  (forall s : Sys W,
     fst (managePower s) = Halted <->
     powerSaveMode (dev s) = true /\
     300000 < ul_sub (sleep_clock s) (lastRead (dev s))) /\
  (forall s : Sys W,
     0 <= lastRead (dev s) <= sleep_clock s ->
     (fst (managePower s) = Halted <->
      powerSaveMode (dev s) = true /\
      300000 < sleep_clock s - lastRead (dev s))) /\
  (forall s : Sys W,
     slept (trace s) = false ->
     (slept (trace (snd (managePower s))) = true <->
      fst (managePower s) = Halted)) /\
  (forall s : Sys W,
     fst (loop s) = Halted <->
     fst (managePower (snd (handleMenu s))) = Halted) /\
  (forall (n : nat) (s : Sys W),
     fst (run n s) = Halted -> powerSaveMode (dev (snd (run n s))) = true) /\
  (forall s : Sys W,
     powerSaveMode (dev s) = false -> managePower s = (Done tt, s)).
Proof.
  split; [exact managePower_halts_iff |].
  split.
  { intros s Hnow. rewrite managePower_halts_iff.
    rewrite ul_sub_no_wrap; [tauto | exact Hnow |].
    unfold sleep_clock, ul. apply Z.mod_pos_bound. reflexivity. }
  split; [exact managePower_slept |].
  split; [exact loop_halts_iff |].
  split; [exact run_halted_mode | exact managePower_off].
Qed.


End PowerClaims.

Lemma deep_sleep_only_in_power_save_witness :
  fst (managePower (browsing 5 true (bench 400000 2047 25))) = Halted /\
  managePower (browsing 5 false (bench 400000 2047 25))
  = (Done tt, browsing 5 false (bench 400000 2047 25)) /\
  slept (trace (snd (managePower (browsing 5 true (bench 400000 2047 25)))))
  = true.
Proof.
  destruct (deep_sleep_only_in_power_save (board := SimBoard))
    as (_ & Hrule & Htrace & _ & _ & Hoff).
  assert (Hh : fst (managePower (browsing 5 true (bench 400000 2047 25)))
               = Halted).
  { apply (Hrule (browsing 5 true (bench 400000 2047 25))).
    - vm_compute. split; discriminate.
    - split; reflexivity. }
  split; [exact Hh |]. split.
  - apply Hoff. reflexivity.
  - apply Htrace; [reflexivity | exact Hh].
Defined.

(** C1, where the firmware departs from it.  After boot the operator
    selects "Power Save", enables it with a Select press that ends at 5 s on
    the clock, and leaves.  3100 iterations after boot the clock reads
    314 s: power-save has been enabled and no button touched for 309 s, and
    no sample cycle was made at all (no upload attempt, the three rolling
    buffers still hold their zeroes).  The claim has the device asleep by
    then.  It never went to sleep: the 15-second schedule of [loop()] kept
    restarting [lastRead], the timestamp of the 5-minute test, although
    power-save withheld every send; it last did so at 300 s, and the test
    now measures 14 s. *)
Theorem unattended_power_save_never_sleeps :
  let on := snd (run 11 (booted unattended)) in
  let r := run 3100 (booted unattended) in
  (powerSaveMode (dev on) = true /\
   lastButtonPress (dev on) = 5000 /\
   clock (world on) = 5100) /\
  (clock (world (snd r)) = 314000 /\
   powerSaveMode (dev (snd r)) = true /\
   lastButtonPress (dev (snd r)) = 5000) /\
  (attempts (trace (snd r)) = 0%nat /\
   phBuf (dev (snd r)) = [0; 0; 0]%Q /\
   turbBuf (dev (snd r)) = [0; 0; 0]%Q /\
   tdsBuf (dev (snd r)) = [0; 0; 0]%Q) /\
  (fst r = Done tt /\
   slept (trace (snd r)) = false /\
   lastRead (dev (snd r)) = 300000 /\
   ul_sub (sleep_clock (snd r)) (lastRead (dev (snd r))) = 14000).
Proof.
  vm_compute.
  split; [split; [reflexivity | split; reflexivity] |].
  split; [split; [reflexivity | split; reflexivity] |].
  split; [split; [reflexivity | split; [reflexivity | split; reflexivity]] |].
  split; [reflexivity | split; [reflexivity | split; reflexivity]].
Qed.



(** * Further properties of the firmware *)

(** ** Calibration storage *)

Lemma getFloat_putFloat_same nvs key v dflt :
  getFloat (putFloat key v nvs) key dflt = v.
Proof. unfold getFloat, putFloat. rewrite lookup_insert_eq. reflexivity. Qed.

Lemma getFloat_putFloat_other nvs key key' v dflt :
  key <> key' ->
  getFloat (putFloat key v nvs) key' dflt = getFloat nvs key' dflt.
Proof.
  intros Hne. unfold getFloat, putFloat. rewrite lookup_insert_ne by exact Hne.
  reflexivity.
Qed.

Lemma saveCalibration_ext (d1 d2 : Device) (nvs : gmap string Q) :
  calibration d1 = calibration d2 ->
  saveCalibration d1 nvs = saveCalibration d2 nvs.
Proof.
  unfold calibration, saveCalibration. cbv zeta. intros Hc.
  injection Hc as -> -> -> -> ->. reflexivity.
Qed.

(** Looks a key up under a stack of [putFloat]s. *)
Ltac strip_inserts :=
  repeat first
    [ rewrite lookup_insert_eq
    | rewrite lookup_insert_ne by first [congruence | discriminate] ].

(** Saving and loading again brings back the five coefficients that were
    saved, whatever the store held before and whatever the globals hold at
    load time; a second save of the same globals changes nothing. *)
Theorem calibration_round_trip (d d' : Device) (nvs : gmap string Q) :
  calibration (loadCalibration (saveCalibration d nvs) d') = calibration d /\
  saveCalibration d (saveCalibration d nvs) = saveCalibration d nvs /\
  saveCalibration (loadCalibration (saveCalibration d nvs) d') nvs
  = saveCalibration d nvs.
Proof.
  assert (Hload : calibration (loadCalibration (saveCalibration d nvs) d')
                  = calibration d).
  { unfold calibration, loadCalibration, saveCalibration. cbv zeta.
    cbn [ph_slope ph_intercept turb_slope turb_intercept tds_k
         set_ph_slope set_ph_intercept set_turb_slope set_turb_intercept
         set_tds_k].
    repeat (rewrite getFloat_putFloat_same
            || rewrite getFloat_putFloat_other by discriminate).
    reflexivity. }
  split; [exact Hload |]. split.
  - unfold saveCalibration, putFloat. cbv zeta. apply map_eq. intros key.
    destruct (decide (key = "tds_k"%string)) as [-> | N1];
      [rewrite !lookup_insert_eq; reflexivity |].
    destruct (decide (key = "turb_intercept"%string)) as [-> | N2];
      [strip_inserts; reflexivity |].
    destruct (decide (key = "turb_slope"%string)) as [-> | N3];
      [strip_inserts; reflexivity |].
    destruct (decide (key = "ph_intercept"%string)) as [-> | N4];
      [strip_inserts; reflexivity |].
    destruct (decide (key = "ph_slope"%string)) as [-> | N5];
      strip_inserts; reflexivity.
  - apply saveCalibration_ext, Hload.
Qed.

(** Loading reads each of the five coefficients from its own key: a stored
    value replaces the coefficient, a missing key leaves it as it is.  Every
    other global is left alone, so that with none of the five keys present,
    as on first boot, loading changes nothing at all.  Saving writes each
    coefficient under its own key and touches no other key. *)
Theorem calibration_missing_keys_default (nvs : gmap string Q) (d : Device) :
  (read_from "ph_slope" ph_slope nvs d (loadCalibration nvs d) /\
   read_from "ph_intercept" ph_intercept nvs d (loadCalibration nvs d) /\
   read_from "turb_slope" turb_slope nvs d (loadCalibration nvs d) /\
   read_from "turb_intercept" turb_intercept nvs d (loadCalibration nvs d) /\
   read_from "tds_k" tds_k nvs d (loadCalibration nvs d)) /\
  (currentMenuItem (loadCalibration nvs d) = currentMenuItem d /\
   inSubMenu (loadCalibration nvs d) = inSubMenu d /\
   lastButtonPress (loadCalibration nvs d) = lastButtonPress d /\
   lastLCDActivity (loadCalibration nvs d) = lastLCDActivity d /\
   lcdBacklightOn (loadCalibration nvs d) = lcdBacklightOn d /\
   lastRead (loadCalibration nvs d) = lastRead d /\
   phBuf (loadCalibration nvs d) = phBuf d /\
   turbBuf (loadCalibration nvs d) = turbBuf d /\
   tdsBuf (loadCalibration nvs d) = tdsBuf d /\
   phPtr (loadCalibration nvs d) = phPtr d /\
   turbPtr (loadCalibration nvs d) = turbPtr d /\
   tdsPtr (loadCalibration nvs d) = tdsPtr d /\
   powerSaveMode (loadCalibration nvs d) = powerSaveMode d) /\
  ((forall key, In key calibration_keys -> nvs !! key = None) ->
   loadCalibration nvs d = d) /\
  (saveCalibration d nvs !! "ph_slope"%string = Some (ph_slope d) /\
   saveCalibration d nvs !! "ph_intercept"%string = Some (ph_intercept d) /\
   saveCalibration d nvs !! "turb_slope"%string = Some (turb_slope d) /\
   saveCalibration d nvs !! "turb_intercept"%string = Some (turb_intercept d) /\
   saveCalibration d nvs !! "tds_k"%string = Some (tds_k d)) /\
  (forall key, ~ In key calibration_keys ->
   saveCalibration d nvs !! key = nvs !! key).
Proof.
  split; [| split; [| split; [| split]]].
  - unfold read_from, loadCalibration, getFloat. cbv zeta.
    cbn [ph_slope ph_intercept turb_slope turb_intercept tds_k
         set_ph_slope set_ph_intercept set_turb_slope set_turb_intercept
         set_tds_k].
    do 4 (split; [split; [intros v Hv | intros Hv]; rewrite Hv; reflexivity |]).
    split; [intros v Hv | intros Hv]; rewrite Hv; reflexivity.
  - do 12 (split; [reflexivity |]). reflexivity.
  - intros Hnone. unfold loadCalibration, getFloat. cbv zeta.
    cbn [ph_slope ph_intercept turb_slope turb_intercept tds_k
         set_ph_slope set_ph_intercept set_turb_slope set_turb_intercept
         set_tds_k].
    rewrite !Hnone by (unfold calibration_keys; cbn; tauto).
    destruct d; reflexivity.
  - unfold saveCalibration, putFloat. cbv zeta.
    do 4 (split; [strip_inserts; reflexivity |]). strip_inserts. reflexivity.
  - intros key Hkey. unfold saveCalibration, putFloat. cbv zeta.
    unfold calibration_keys in Hkey. cbn in Hkey.
    repeat (rewrite lookup_insert_ne by (intros <-; apply Hkey; tauto)).
    reflexivity.
Qed.

Lemma calibration_missing_keys_default_witness :
  loadCalibration ∅ initial_device = initial_device /\
  let nvs : gmap string Q :=
    {[ "turb_slope"%string := (-(12))%Q; "tds_k"%string := (7 # 10)%Q ]} in
  turb_slope (loadCalibration nvs initial_device) = (-(12))%Q /\
  tds_k (loadCalibration nvs initial_device) = (7 # 10)%Q /\
  ph_slope (loadCalibration nvs initial_device) = ph_slope initial_device /\
  lcdBacklightOn (loadCalibration nvs initial_device) = true.
Proof.
  destruct (calibration_missing_keys_default ∅ initial_device)
    as (_ & _ & Hempty & _).
  split; [apply Hempty; intros key _; apply lookup_empty |].
  intros nvs.
  destruct (calibration_missing_keys_default nvs initial_device)
    as ((Hps & _ & Hts & _ & Hk) & Hframe & _).
  split; [apply Hts; reflexivity |].
  split; [apply Hk; reflexivity |].
  split; [apply Hps; reflexivity |].
  apply Hframe.
Defined.

(** ** Invariants of the whole firmware *)

(** [firmware_tac side] frames a program down to its primitive steps: it
    opens every function of the firmware and splits the [switch] of the
    Select branch. *)
Ltac open_firmware :=
  unfold loop, handleMenu, stampPress, selectAction, managePower,
    dimBacklight, sleepCheck, enterDeepSleep, autoSend, sendToFirebase,
    uploadReadings, writePayload, displayMenu, displayValue, wakeLCD, getEC,
    getTDS, getPH, getTurbidity, getTemp, readVoltage, millis, digitalRead,
    analogRead.

Ltac firmware_step side :=
  first
    [ stays_step side
    | match goal with
      | |- stays _ (match currentMenuItem ?d with _ => _ end) =>
          destruct (currentMenuItem d) as [| ?p | ?p]
      | |- stays _ (match ?p with xH => _ | _ => _ end) => destruct p
      end ].

Ltac firmware_tac side := open_firmware; repeat (firmware_step side).

Section Invariants.

Context {W : Type} {board : Board W}.

#[export] Instance carries_preorder (P : Sys W -> Prop) : PreOrder (carries P).
Proof.
  split.
  - intros s Hs. exact Hs.
  - intros s1 s2 s3 H12 H23 Hs. apply H23, H12, Hs.
Qed.

Lemma stays_run (R : relation (Sys W)) `{!PreOrder R} (n : nat) :
  stays R loop -> stays R (run n).
Proof.
  intros Hl. induction n as [| n IH]; cbn [run].
  - apply stays_ret. typeclasses eauto.
  - apply stays_bind; [typeclasses eauto | exact Hl | intros _; exact IH].
Qed.

Lemma calibration_loop : stays (same (fun s => calibration (dev s))) loop.
Proof. firmware_tac globals_side. Qed.

(** While it runs, the firmware never changes a calibration coefficient:
    after any number of iterations of the main loop, halted or not, the five
    coefficients are what they were. *)
Theorem calibration_constant_while_running (n : nat) (s : Sys W) :
  calibration (dev (snd (run n s))) = calibration (dev s).
Proof. exact (stays_run _ n calibration_loop s). Qed.

(** *** The rolling buffers keep their shape *)

Lemma samplers_ok_push (c : Channel) (v : Q) (d : Device) :
  samplers_ok d ->
  samplers_ok
    (set_ptr c (Z.rem (ptr_of c d + 1) 3)
       (set_buf c (<[Z.to_nat (ptr_of c d) := v]> (buf_of c d)) d)).
Proof.
  intros Hok c'. pose proof (Hok c) as [Hlen Hptr].
  pose proof (Hok c') as [Hlen' Hptr'].
  assert (Hrem : 0 <= Z.rem (ptr_of c d + 1) 3 < 3)
    by (apply Z.rem_bound_pos; lia).
  destruct c, c'; cbn [buf_of ptr_of set_buf set_ptr phBuf turbBuf tdsBuf
                       phPtr turbPtr tdsPtr] in *;
    rewrite ?length_insert; split; assumption.
Qed.

Lemma samplers_readVoltage pin c :
  stays (carries (fun s => samplers_ok (dev s))) (readVoltage pin c).
Proof.
  intros s Hok. destruct (hw_analogRead pin (world s)) as [raw w] eqn:E.
  destruct (Z.eq_dec raw 0) as [H0 | H0];
    [rewrite (readVoltage_rail pin c s raw w E (or_introl H0)); exact Hok |].
  destruct (Z.eq_dec raw 4095) as [H1 | H1];
    [rewrite (readVoltage_rail pin c s raw w E (or_intror H1)); exact Hok |].
  rewrite (readVoltage_push pin c s raw w E H0 H1). cbn [snd dev].
  apply samplers_ok_push, Hok.
Qed.

Lemma samplers_loop : stays (carries (fun s => samplers_ok (dev s))) loop.
Proof.
  pose proof samplers_readVoltage as Hrv.
  unfold loop, handleMenu, stampPress, selectAction, managePower,
    dimBacklight, sleepCheck, enterDeepSleep, autoSend, sendToFirebase,
    uploadReadings, writePayload, displayMenu, displayValue, wakeLCD, getEC,
    getTDS, getPH, getTurbidity, getTemp, millis, digitalRead.
  repeat first
    [ apply Hrv
    | firmware_step
        ltac:(unfold carries; intros;
              match goal with Hs : samplers_ok _ |- _ => exact Hs end) ].
Qed.

(** Whatever the ADC returns and whatever the buttons do, every rolling
    buffer keeps its three slots and every write cursor stays on one of
    them: no sample is ever written outside a buffer. *)
Theorem samplers_keep_shape (n : nat) (s : Sys W) :
  samplers_ok (dev s) -> samplers_ok (dev (snd (run n s))).
Proof. exact (stays_run _ n samplers_loop s). Qed.

End Invariants.

Lemma samplers_keep_shape_witness :
  samplers_ok (dev (snd (run 116 (booted session)))).
Proof.
  apply (samplers_keep_shape (board := SimBoard)).
  intros c. destruct c; cbn; split; first [reflexivity | lia].
Defined.

(** ** More on the sampler *)

Section SamplerMore.

Context {W : Type} {board : Board W}.

Lemma adc_to_volts_range (raw : Z) :
  0 < raw < 4095 -> (0 < adc_to_volts raw)%Q /\ (adc_to_volts raw < 33 # 10)%Q.
Proof.
  intros Hr. unfold adc_to_volts, Qlt, Qmult, Qdiv, Qinv, inject_Z.
  cbn [Qnum Qden]. cbn. lia.
Qed.

(** A buffer of three slots, taken apart. *)
Lemma three_slots (b : list Q) :
  length b = 3%nat -> exists b0 b1 b2, b = [b0; b1; b2].
Proof.
  intros Hl. destruct b as [| b0 [| b1 [| b2 [| b3 b]]]]; try discriminate.
  exists b0, b1, b2. reflexivity.
Qed.

(** Three valid samples in a row flush the rolling buffer: whatever it held
    and wherever its cursor stood, the third mean is the average of the
    three voltages just sampled, and the cursor is back where it started. *)
Theorem three_pushes_flush
  (pin : Z) (c : Channel) (s1 s2 s3 : Sys W) (a1 a2 a3 : Z) :
  samplers_ok (dev s1) ->
  fst (hw_analogRead pin (world s1)) = a1 ->
  fst (hw_analogRead pin (world s2)) = a2 ->
  fst (hw_analogRead pin (world s3)) = a3 ->
  0 < a1 < 4095 -> 0 < a2 < 4095 -> 0 < a3 < 4095 ->
  sampler c s2 = sampler c (snd (readVoltage pin c s1)) ->
  sampler c s3 = sampler c (snd (readVoltage pin c s2)) ->
  exists m3 : Q,
    fst (readVoltage pin c s3) = Done m3 /\
    (m3 == (adc_to_volts a1 + adc_to_volts a2 + adc_to_volts a3) / 3)%Q /\
    ptr_of c (dev (snd (readVoltage pin c s3))) = ptr_of c (dev s1).
Proof.
  intros Hok E1 E2 E3 V1 V2 V3 H12 H23.
  destruct (hw_analogRead pin (world s1)) as [r1 w1] eqn:R1.
  destruct (hw_analogRead pin (world s2)) as [r2 w2] eqn:R2.
  destruct (hw_analogRead pin (world s3)) as [r3 w3] eqn:R3.
  cbn [fst] in E1, E2, E3. subst r1 r2 r3.
  assert (P1 := sampler_push pin c s1 a1 w1 R1 ltac:(lia) ltac:(lia)).
  assert (P2 := sampler_push pin c s2 a2 w2 R2 ltac:(lia) ltac:(lia)).
  assert (P3 := sampler_push pin c s3 a3 w3 R3 ltac:(lia) ltac:(lia)).
  assert (M3 := mean_push pin c s3 a3 w3 R3 ltac:(lia) ltac:(lia)).
  destruct (Hok c) as [Hlen Hptr].
  destruct (three_slots _ Hlen) as (b0 & b1 & b2 & Hb).
  rewrite P1 in H12. rewrite Hb in H12.
  unfold sampler in H12. injection H12 as Hb2 Hp2.
  rewrite P2 in H23. rewrite Hb2, Hp2 in H23.
  unfold sampler in H23. injection H23 as Hb3 Hp3.
  rewrite P3 in M3. cbn [fst] in M3. rewrite Hb3, Hp3 in M3.
  assert (Hq : sampler c (snd (readVoltage pin c s3)) = sampler c (snd (readVoltage pin c s3)))
    by reflexivity.
  rewrite P3 in Hq at 2. rewrite Hp3 in Hq.
  unfold sampler in Hq. injection Hq as _ Hq.
  assert (Hcases : ptr_of c (dev s1) = 0 \/ ptr_of c (dev s1) = 1
                   \/ ptr_of c (dev s1) = 2) by lia.
  eexists. split; [exact M3 |].
  generalize dependent (adc_to_volts a1).
  generalize dependent (adc_to_volts a2).
  generalize dependent (adc_to_volts a3). intros v3 v2 v1. intros.
  destruct Hcases as [Hp | [Hp | Hp]]; rewrite Hp in *;
    (split; [cbv -[Qplus Qdiv Qeq]; field | rewrite Hq; reflexivity]).
Qed.

(** With the rolling buffer in the ADC's voltage range and a raw value of the
    12-bit range, the reading is invalid exactly on a rail, a valid reading
    is strictly positive and at most 3.3 V, and the buffer stays in range:
    a valid mean is never mistaken for the fault sentinel. *)
Theorem in_range_sample_is_unambiguous
  (pin : Z) (c : Channel) (s : Sys W) (raw : Z) (w : W) :
  hw_analogRead pin (world s) = (raw, w) ->
  0 <= raw <= 4095 ->
  samplers_ok (dev s) ->
  slots_in_range (dev s) ->
  slots_in_range (dev (snd (readVoltage pin c s))) /\
  exists r : Q,
    fst (readVoltage pin c s) = Done r /\
    (valid r = false <-> raw = 0 \/ raw = 4095) /\
    (valid r = true -> (0 < r)%Q /\ (r <= 33 # 10)%Q).
Proof.
  intros E Hraw Hok Hin.
  destruct (Z.eq_dec raw 0) as [H0 | H0].
  { rewrite (readVoltage_rail pin c s raw w E (or_introl H0)). cbn [fst snd dev].
    split; [exact Hin |]. exists (-(1))%Q. split; [reflexivity |].
    split; [split; [intros _; left; exact H0 | reflexivity] | discriminate]. }
  destruct (Z.eq_dec raw 4095) as [H1 | H1].
  { rewrite (readVoltage_rail pin c s raw w E (or_intror H1)). cbn [fst snd dev].
    split; [exact Hin |]. exists (-(1))%Q. split; [reflexivity |].
    split; [split; [intros _; right; exact H1 | reflexivity] | discriminate]. }
  rewrite (readVoltage_push pin c s raw w E H0 H1). cbn [fst snd dev].
  destruct (adc_to_volts_range raw ltac:(lia)) as [Hv0 Hv1].
  set (v := adc_to_volts raw) in *. clearbody v.
  destruct (Hok c) as [Hlen Hptr].
  assert (Hnew : Forall (fun x => (0 <= x)%Q /\ (x <= 33 # 10)%Q)
                   (<[Z.to_nat (ptr_of c (dev s)) := v]> (buf_of c (dev s)))).
  { apply Forall_insert; [apply Hin |]. split; lra. }
  split.
  - intros c'. specialize (Hin c').
    destruct c, c'; cbn [buf_of set_buf set_ptr phBuf turbBuf tdsBuf] in *;
      assumption.
  - eexists. split; [reflexivity |].
    destruct (three_slots _ Hlen) as (b0 & b1 & b2 & Hb).
    rewrite Hb in Hnew |- *.
    assert (Hcases : ptr_of c (dev s) = 0 \/ ptr_of c (dev s) = 1
                     \/ ptr_of c (dev s) = 2) by lia.
    assert (Hmean : (0 < sum3 (<[Z.to_nat (ptr_of c (dev s)) := v]> [b0; b1; b2]) / 3)%Q
                    /\ (sum3 (<[Z.to_nat (ptr_of c (dev s)) := v]> [b0; b1; b2]) / 3
                        <= 33 # 10)%Q).
    { destruct Hcases as [Hp | [Hp | Hp]]; rewrite Hp in *;
        cbn in Hnew; inversion Hnew as [| x1 l1 [Hx1 Hy1] Hl1]; subst;
        inversion Hl1 as [| x2 l2 [Hx2 Hy2] Hl2]; subst;
        inversion Hl2 as [| x3 l3 [Hx3 Hy3] Hl3]; subst;
        cbv -[Qplus Qdiv Qlt Qle];
        (split; [apply Qlt_shift_div_l | apply Qle_shift_div_r]; lra). }
    destruct Hmean as [Hpos Hle].
    assert (Hvalid : valid (sum3 (<[Z.to_nat (ptr_of c (dev s)) := v]> [b0; b1; b2]) / 3)
                     = true) by (apply valid_nonneg; lra).
    split.
    + rewrite Hvalid. split; [discriminate | intros [? | ?]; contradiction].
    + intros _. split; assumption.
Qed.

End SamplerMore.

Lemma three_pushes_flush_witness :
  let s0 := booted (bench 3000 500 25) in
  let s1 := in_world (bench 3100 1000 25) (snd (readVoltage PH_PIN ChPH s0)) in
  let s2 := in_world (bench 3200 2000 25) (snd (readVoltage PH_PIN ChPH s1)) in
  let s3 := in_world (bench 3300 3000 25) (snd (readVoltage PH_PIN ChPH s2)) in
  exists m3 : Q,
    fst (readVoltage PH_PIN ChPH s3) = Done m3 /\
    (m3 == (adc_to_volts 1000 + adc_to_volts 2000 + adc_to_volts 3000) / 3)%Q /\
    ptr_of ChPH (dev (snd (readVoltage PH_PIN ChPH s3))) = 1.
Proof.
  intros s0 s1 s2 s3.
  apply (three_pushes_flush (board := SimBoard) PH_PIN ChPH s1 s2 s3
           1000 2000 3000);
    [ intros c; destruct c; vm_compute;
      (split; [reflexivity | split; first [reflexivity | discriminate]])
    | vm_compute; reflexivity | vm_compute; reflexivity
    | vm_compute; reflexivity | lia | lia | lia
    | vm_compute; reflexivity | vm_compute; reflexivity ].
Defined.

Lemma in_range_sample_is_unambiguous_witness :
  let s := booted (bench 3000 1 25) in
  exists r : Q,
    fst (readVoltage TDS_PIN ChTDS s) = Done r /\ (0 < r)%Q /\ (r <= 33 # 10)%Q.
Proof.
  intros s.
  destruct (in_range_sample_is_unambiguous (board := SimBoard)
              TDS_PIN ChTDS s 1 (world s) eq_refl ltac:(lia))
    as (_ & r & Hr & _ & Hv).
  - intros c. destruct c; cbn; split; first [reflexivity | lia].
  - intros c. subst s. destruct c; vm_compute;
      repeat (constructor; [split; discriminate |]); constructor.
  - exists r. split; [exact Hr |]. apply Hv.
    injection Hr as <-. reflexivity.
Defined.

(** ** Buttons, backlight and screens *)

Section Panel.

Context {W : Type} {board : Board W}.

(** A poll of the buttons that falls inside the 200 ms debounce window, or
    that finds no button held, changes no global and emits nothing; in
    particular an idle poll does not restart the window. *)
Theorem idle_or_bounced_poll_changes_nothing (s : Sys W) (t0 : Z) (w0 : W) :
  hw_millis (world s) = (t0, w0) ->
  (ul_sub (ul t0) (lastButtonPress (dev s)) < 200 \/
   (fst (hw_digitalRead BTN_UP w0) = true /\
    let w1 := snd (hw_digitalRead BTN_UP w0) in
    fst (hw_digitalRead BTN_DOWN w1) = true /\
    let w2 := snd (hw_digitalRead BTN_DOWN w1) in
    fst (hw_digitalRead BTN_SELECT w2) = true /\
    let w3 := snd (hw_digitalRead BTN_SELECT w2) in
    fst (hw_digitalRead BTN_BACK w3) = true)) ->
  fst (handleMenu s) = Done tt /\
  dev (snd (handleMenu s)) = dev s /\
  trace (snd (handleMenu s)) = trace s.
Proof.
  intros E0 Hcase.
  destruct (ul_sub (ul t0) (lastButtonPress (dev s)) <? 200) eqn:Hd.
  { rewrite (handleMenu_bounced s t0 w0 E0 Hd). repeat split. }
  destruct Hcase as [Hb | (Hu & Hdn & Hs & Hb)].
  { apply Z.ltb_ge in Hd. lia. }
  cbv zeta in Hdn, Hs, Hb.
  destruct (hw_digitalRead BTN_UP w0) as [up w1] eqn:E1.
  cbn [fst snd] in *. subst up.
  destruct (hw_digitalRead BTN_DOWN w1) as [down w2] eqn:E2.
  cbn [fst snd] in *. subst down.
  destruct (hw_digitalRead BTN_SELECT w2) as [sel w3] eqn:E3.
  cbn [fst snd] in *. subst sel.
  destruct (hw_digitalRead BTN_BACK w3) as [back w4] eqn:E4.
  cbn [fst] in Hb. subst back.
  rewrite (handleMenu_idle s t0 w0 w1 w2 w3 w4 E0 Hd E1 E2 E3 E4).
  repeat split.
Qed.

(** *** The backlight *)

Lemma wakeLCD_eq (s : Sys W) t w :
  hw_millis (world s) = (t, w) ->
  wakeLCD s =
    (Done tt,
     mkSys w
       (set_lastLCDActivity (ul t) (set_lcdBacklightOn true (dev s)))
       (if lcdBacklightOn (dev s) then trace s else trace s ++ [LcdBacklight])).
Proof.
  intros E. unfold wakeLCD, millis. unfold bind, ask, ret, get_dev, emit, modify_dev.
  destruct (lcdBacklightOn (dev s)) eqn:Hl; cbn [negb world dev trace];
    rewrite E; cbn [world dev trace]; [| reflexivity].
  destruct (dev s); cbn in Hl. subst. reflexivity.
Qed.

Lemma panel_lit_app (t1 t2 : list Effect) :
  panel_lit (t1 ++ t2) = fold_left panel_step t2 (panel_lit t1).
Proof. unfold panel_lit. apply fold_left_app. Qed.

Lemma mirrors_wakeLCD : stays (carries mirrors) wakeLCD.
Proof.
  intros s Hm. destruct (hw_millis (world s)) as [t w] eqn:E.
  rewrite (wakeLCD_eq s t w E). unfold mirrors in *. cbn [snd dev trace].
  cbn [lcdBacklightOn set_lastLCDActivity set_lcdBacklightOn].
  destruct (lcdBacklightOn (dev s)); [exact Hm |].
  rewrite panel_lit_app. reflexivity.
Qed.

Lemma dimBacklight_eq (s : Sys W) t w :
  hw_millis (world s) = (t, w) ->
  dimBacklight s =
    (Done tt,
     if lcdBacklightOn (dev s) then
       if 30000 <? ul_sub (ul t) (lastLCDActivity (dev s)) then
         mkSys w (set_lcdBacklightOn false (dev s)) (trace s ++ [LcdNoBacklight])
       else in_world w s
     else s).
Proof.
  intros E. unfold dimBacklight, millis. unfold bind, ask, ret, get_dev, emit, modify_dev.
  destruct (lcdBacklightOn (dev s)); [| reflexivity].
  rewrite E. cbn [world dev trace].
  destruct (30000 <? ul_sub (ul t) (lastLCDActivity (dev s))); reflexivity.
Qed.

Lemma mirrors_dimBacklight : stays (carries mirrors) dimBacklight.
Proof.
  intros s Hm. destruct (hw_millis (world s)) as [t w] eqn:E.
  rewrite (dimBacklight_eq s t w E). unfold mirrors in *. cbn [snd].
  destruct (lcdBacklightOn (dev s)) eqn:Hl; [| rewrite Hl; exact Hm].
  destruct (30000 <? ul_sub (ul t) (lastLCDActivity (dev s)));
    cbn [dev trace in_world]; [| rewrite Hl; exact Hm].
  rewrite panel_lit_app, <- Hm. reflexivity.
Qed.

Lemma mirrors_loop : stays (carries mirrors) loop.
Proof.
  pose proof mirrors_wakeLCD as Hw. pose proof mirrors_dimBacklight as Hd.
  unfold loop, handleMenu, stampPress, selectAction, managePower,
    sleepCheck, enterDeepSleep, autoSend, sendToFirebase,
    uploadReadings, writePayload, displayMenu, displayValue, getEC,
    getTDS, getPH, getTurbidity, getTemp, readVoltage, millis, digitalRead,
    analogRead.
  repeat first
    [ apply Hw | apply Hd
    | firmware_step
        ltac:(unfold carries, mirrors, in_world; intros;
              cbn [world dev trace] in *; rewrite ?panel_lit_app;
              match goal with Hs : lcdBacklightOn _ = _ |- _ => exact Hs end) ].
Qed.

(** The backlight flag tells the truth about the panel: if it matches the
    backlight commands sent so far, it still does after any number of
    iterations of the main loop. *)
Theorem backlight_flag_mirrors_panel (n : nat) (s : Sys W) :
  lcdBacklightOn (dev s) = panel_lit (trace s) ->
  lcdBacklightOn (dev (snd (run n s))) = panel_lit (trace (snd (run n s))).
Proof. exact (stays_run _ n mirrors_loop s). Qed.

(** The power manager switches the backlight off exactly when power-save is
    enabled, the backlight is on and more than 30 s have passed on the
    clock since the last display activity; it never switches it on. *)
Theorem backlight_dims_after_30s_in_power_save (s : Sys W) (t : Z) (w : W) :
  hw_millis (world s) = (t, w) ->
  lcdBacklightOn (dev (snd (managePower s))) =
    lcdBacklightOn (dev s)
    && negb (powerSaveMode (dev s)
             && (30000 <? ul_sub (ul t) (lastLCDActivity (dev s)))).
Proof.
  intros E. destruct (powerSaveMode (dev s)) eqn:Hps.
  - pose proof (dimBacklight_eq s t w E) as Ed.
    rewrite (managePower_on s _ Hps Ed).
    assert (Hk : stays (same (fun x => lcdBacklightOn (dev x))) sleepCheck)
      by (unfold sleepCheck, enterDeepSleep, millis; stays_tac globals_side).
    rewrite Hk. cbn [andb].
    destruct (lcdBacklightOn (dev s)) eqn:Hl; [| exact Hl].
    destruct (30000 <? ul_sub (ul t) (lastLCDActivity (dev s)));
      cbn [dev in_world negb andb]; [reflexivity | exact Hl].
  - rewrite (managePower_off s Hps). cbn [snd andb negb].
    rewrite andb_true_r. reflexivity.
Qed.

End Panel.

Lemma idle_or_bounced_poll_changes_nothing_witness :
  let s := browsing 6 false (holding BTN_SELECT (bench 100 2047 25)) in
  dev (snd (handleMenu s)) = dev s /\ trace (snd (handleMenu s)) = [].
Proof.
  intros s.
  destruct (idle_or_bounced_poll_changes_nothing (board := SimBoard)
              s 100 (world s) eq_refl) as (_ & Hd & Ht).
  - left. vm_compute. reflexivity.
  - split; [exact Hd | exact Ht].
Defined.

Lemma backlight_flag_mirrors_panel_witness :
  lcdBacklightOn (dev (snd (run 116 (booted session))))
  = panel_lit (trace (snd (run 116 (booted session)))).
Proof.
  apply (backlight_flag_mirrors_panel (board := SimBoard)). reflexivity.
Defined.

Lemma backlight_dims_after_30s_in_power_save_witness :
  lcdBacklightOn
    (dev (snd (managePower (browsing 0 true (bench 40000 2047 25))))) = false.
Proof.
  rewrite (backlight_dims_after_30s_in_power_save (board := SimBoard)
             (browsing 0 true (bench 40000 2047 25)) 40000 _ eq_refl).
  reflexivity.
Defined.

(** ** What the buttons can and cannot do *)

Section Buttons.

Context {W : Type} {board : Board W}.

Lemma lit_after_wakeLCD (s : Sys W) :
  lcdBacklightOn (dev (snd (wakeLCD s))) = true.
Proof.
  destruct (hw_millis (world s)) as [t w] eqn:E.
  rewrite (wakeLCD_eq s t w E). reflexivity.
Qed.

(** A program that wakes the LCD and then leaves the flag alone ends with
    the flag on. *)
Lemma lit_after_wake_then {A} (k : unit -> M W A) (s : Sys W) :
  (forall a, stays (same (fun x => lcdBacklightOn (dev x))) (k a)) ->
  lcdBacklightOn (dev (snd (bind wakeLCD k s))) = true.
Proof.
  intros Hk. destruct (returns_wakeLCD s) as ([] & s1 & E).
  rewrite (bind_done _ _ _ _ _ E). rewrite (Hk tt s1).
  pose proof (lit_after_wakeLCD s) as Hl. rewrite E in Hl. exact Hl.
Qed.

Lemma lit_after_displayMenu (s : Sys W) :
  lcdBacklightOn (dev (snd (displayMenu s))) = true.
Proof.
  unfold displayMenu. apply lit_after_wake_then. intros _.
  stays_tac globals_side.
Qed.

Lemma lit_after_displayValue name val unit_ (s : Sys W) :
  lcdBacklightOn (dev (snd (displayValue name val unit_ s))) = true.
Proof.
  unfold displayValue. apply lit_after_wake_then. intros _.
  stays_tac globals_side.
Qed.

Lemma lit_after_then {A B} (m : M W A) (k : A -> M W B) (s : Sys W) :
  returns m ->
  (forall a s1, lcdBacklightOn (dev (snd (k a s1))) = true) ->
  lcdBacklightOn (dev (snd (bind m k s))) = true.
Proof.
  intros Hm Hk. destruct (Hm s) as (a & s1 & E).
  rewrite (bind_done _ _ _ _ _ E). apply Hk.
Qed.

Lemma lit_after_stamp {A} (m : M W A) (s : Sys W) :
  returns m ->
  (forall s0, lcdBacklightOn (dev (snd (m s0))) = true) ->
  lcdBacklightOn (dev (snd ((m ;; stampPress) s))) = true.
Proof.
  intros Hm Hl. destruct (Hm s) as (a & s1 & E).
  rewrite (bind_done _ _ _ _ _ E).
  assert (Hk : stays (same (fun x => lcdBacklightOn (dev x))) stampPress)
    by (unfold stampPress, millis; stays_tac globals_side).
  rewrite Hk. specialize (Hl s). rewrite E in Hl. exact Hl.
Qed.

Lemma lit_after_selectAction (s : Sys W) :
  index_ok s -> lcdBacklightOn (dev (snd (selectAction s))) = true.
Proof.
  intros Hok. unfold index_ok, menuItemsCount in Hok.
  unfold selectAction. unfold bind at 1. cbn [get_dev].
  destruct (currentMenuItem (dev s)) as [| p | p]; [| | lia].
  - apply lit_after_then; [apply returns_getTemp |].
    intros; apply lit_after_displayValue.
  - do 3 (try destruct p as [p | p |]); try lia.
    + (* 5 *)
      do 5 (apply lit_after_then; [returns_tac | intros ? ?]).
      apply lit_after_displayMenu.
    + (* 3 *)
      apply lit_after_then; [apply returns_getTDS |].
      intros; apply lit_after_displayValue.
    + (* 6 *)
      apply lit_after_then; [returns_tac | intros ? ?].
      apply lit_after_then; [returns_tac | intros ? ?].
      apply lit_after_then; [apply returns_sendToFirebase | intros ? ?].
      do 3 (apply lit_after_then; [returns_tac | intros ? ?]).
      apply lit_after_displayMenu.
    + (* 4 *)
      apply lit_after_then; [apply returns_getEC |].
      intros; apply lit_after_displayValue.
    + (* 2 *)
      apply lit_after_then; [apply returns_getTurbidity |].
      intros; apply lit_after_displayValue.
    + (* 1 *)
      apply lit_after_then; [apply returns_getPH |].
      intros; apply lit_after_displayValue.
Qed.

(** Whenever the menu handler does anything at all, that is, whenever it
    accepts a press, it leaves the backlight flag on: no accepted press is
    handled in the dark. *)
Theorem accepted_press_wakes_backlight (s : Sys W) :
  index_ok s ->
  trace (snd (handleMenu s)) <> trace s ->
  lcdBacklightOn (dev (snd (handleMenu s))) = true.
Proof.
  intros Hok Hchg.
  destruct (hw_millis (world s)) as [t0 w0] eqn:E0.
  destruct (ul_sub (ul t0) (lastButtonPress (dev s)) <? 200) eqn:Hd.
  { exfalso. apply Hchg. rewrite (handleMenu_bounced s t0 w0 E0 Hd). reflexivity. }
  destruct (hw_digitalRead BTN_UP w0) as [[|] w1] eqn:E1.
  2:{ rewrite (handleMenu_up s t0 w0 w1 E0 Hd E1).
      apply lit_after_stamp; [apply returns_displayMenu | apply lit_after_displayMenu]. }
  destruct (hw_digitalRead BTN_DOWN w1) as [[|] w2] eqn:E2.
  2:{ rewrite (handleMenu_down s t0 w0 w1 w2 E0 Hd E1 E2).
      apply lit_after_stamp; [apply returns_displayMenu | apply lit_after_displayMenu]. }
  destruct (hw_digitalRead BTN_SELECT w2) as [[|] w3] eqn:E3.
  2:{ rewrite (handleMenu_select s t0 w0 w1 w2 w3 E0 Hd E1 E2 E3).
      destruct (returns_selectAction (in_world w3 s)) as ([] & s1 & Es).
      rewrite (bind_done _ _ _ _ _ Es).
      assert (Hk : stays (same (fun x => lcdBacklightOn (dev x))) stampPress)
        by (unfold stampPress, millis; stays_tac globals_side).
      rewrite Hk. pose proof (lit_after_selectAction (in_world w3 s) Hok) as Hl.
      rewrite Es in Hl. exact Hl. }
  destruct (hw_digitalRead BTN_BACK w3) as [[|] w4] eqn:E4.
  - exfalso. apply Hchg.
    rewrite (handleMenu_idle s t0 w0 w1 w2 w3 w4 E0 Hd E1 E2 E3 E4). reflexivity.
  - rewrite (handleMenu_back s t0 w0 w1 w2 w3 w4 E0 Hd E1 E2 E3 E4).
    apply lit_after_stamp; [apply returns_displayMenu | apply lit_after_displayMenu].
Qed.

(** *** Uploads and power-save from the menu *)

Lemma quiet_redraw :
  stays (same (fun s => (powerSaveMode (dev s), attempts (trace s),
                         writes (trace s))))
    (displayMenu ;; stampPress).
Proof.
  unfold displayMenu, wakeLCD, stampPress, millis.
  stays_tac ltac:(intros; unfold same, in_world; cbn [world dev trace];
                  rewrite ?attempts_app, ?writes_app; cbn;
                  rewrite ?Nat.add_0_r, ?app_nil_r; reflexivity).
Qed.

Lemma selectAction_no_upload (s : Sys W) :
  currentMenuItem (dev s) <> 6 ->
  attempts (trace (snd (selectAction s))) = attempts (trace s) /\
  writes (trace (snd (selectAction s))) = writes (trace s).
Proof.
  intros Hne.
  enough (Hs : same (fun x => (attempts (trace x), writes (trace x))) s
                 (snd (selectAction s)))
    by (unfold same in Hs; injection Hs as Ha Hw; split; assumption).
  unfold selectAction. unfold bind at 1. cbn [get_dev].
  destruct (currentMenuItem (dev s)) as [| p | p];
    [| do 3 (try destruct p as [p | p |]) |]; try congruence;
    match goal with
    | |- same _ s (snd (?m s)) =>
        assert (Hk : stays (same (fun x => (attempts (trace x), writes (trace x)))) m)
          by (unfold displayMenu, displayValue, wakeLCD, getEC, getTDS, getPH,
                getTurbidity, getTemp, readVoltage, millis, analogRead;
              stays_tac ltac:(intros; unfold same, in_world;
                              cbn [world dev trace];
                              rewrite ?attempts_app, ?writes_app; cbn;
                              rewrite ?Nat.add_0_r, ?app_nil_r; reflexivity));
        exact (Hk s)
    end.
Qed.

Lemma selectAction_keeps_mode (s : Sys W) :
  currentMenuItem (dev s) <> 5 ->
  powerSaveMode (dev (snd (selectAction s))) = powerSaveMode (dev s).
Proof.
  intros Hne.
  change (same (fun x => powerSaveMode (dev x)) s (snd (selectAction s))).
  unfold selectAction. unfold bind at 1. cbn [get_dev].
  destruct (currentMenuItem (dev s)) as [| p | p];
    [| do 3 (try destruct p as [p | p |]) |]; try congruence;
    match goal with
    | |- same _ s (snd (?m s)) =>
        assert (Hk : stays (same (fun x => powerSaveMode (dev x))) m)
          by (unfold sendToFirebase, uploadReadings, writePayload,
                displayMenu, displayValue, wakeLCD, getEC, getTDS, getPH,
                getTurbidity, getTemp, readVoltage, millis, analogRead;
              stays_tac globals_side);
        exact (Hk s)
    end.
Qed.

(** From the menu, only Select on "Send Data" (item 6) can attempt an upload
    or write to the transport, and only Select on "Power Save" (item 5) can
    change the power-save flag: with any other item selected, no combination
    of buttons does either. *)
Theorem menu_side_effects_need_their_item (s : Sys W) :
  (currentMenuItem (dev s) <> 6 ->
   attempts (trace (snd (handleMenu s))) = attempts (trace s) /\
   writes (trace (snd (handleMenu s))) = writes (trace s)) /\
  (currentMenuItem (dev s) <> 5 ->
   powerSaveMode (dev (snd (handleMenu s))) = powerSaveMode (dev s)).
Proof.
  assert (Hst : forall x,
             powerSaveMode (dev (snd (stampPress x))) = powerSaveMode (dev x) /\
             trace (snd (stampPress x)) = trace x).
  { intros x. pose proof (passive_stampPress_but_press x) as Hx.
    unfold same in Hx. split; congruence. }
  destruct (hw_millis (world s)) as [t0 w0] eqn:E0.
  destruct (ul_sub (ul t0) (lastButtonPress (dev s)) <? 200) eqn:Hd.
  { rewrite (handleMenu_bounced s t0 w0 E0 Hd).
    split; [intros _; split; reflexivity | intros _; reflexivity]. }
  destruct (hw_digitalRead BTN_UP w0) as [[|] w1] eqn:E1.
  2:{ rewrite (handleMenu_up s t0 w0 w1 E0 Hd E1).
      match goal with |- context [(displayMenu ;; stampPress) ?x] =>
        pose proof (quiet_redraw x) as Hq end.
      unfold same in Hq. cbn [dev trace powerSaveMode set_currentMenuItem] in Hq.
      injection Hq as Hm Ha Hw.
      split; [intros _; split; assumption | intros _; assumption]. }
  destruct (hw_digitalRead BTN_DOWN w1) as [[|] w2] eqn:E2.
  2:{ rewrite (handleMenu_down s t0 w0 w1 w2 E0 Hd E1 E2).
      match goal with |- context [(displayMenu ;; stampPress) ?x] =>
        pose proof (quiet_redraw x) as Hq end.
      unfold same in Hq. cbn [dev trace powerSaveMode set_currentMenuItem] in Hq.
      injection Hq as Hm Ha Hw.
      split; [intros _; split; assumption | intros _; assumption]. }
  destruct (hw_digitalRead BTN_SELECT w2) as [[|] w3] eqn:E3.
  2:{ rewrite (handleMenu_select s t0 w0 w1 w2 w3 E0 Hd E1 E2 E3).
      destruct (returns_selectAction (in_world w3 s)) as ([] & s1 & Es).
      rewrite (bind_done _ _ _ _ _ Es). destruct (Hst s1) as [Hm Ht].
      rewrite Hm, Ht. split.
      - intros Hne. pose proof (selectAction_no_upload (in_world w3 s) Hne) as Hn.
        rewrite Es in Hn. exact Hn.
      - intros Hne. pose proof (selectAction_keeps_mode (in_world w3 s) Hne) as Hn.
        rewrite Es in Hn. exact Hn. }
  destruct (hw_digitalRead BTN_BACK w3) as [[|] w4] eqn:E4.
  - rewrite (handleMenu_idle s t0 w0 w1 w2 w3 w4 E0 Hd E1 E2 E3 E4).
    split; [intros _; split; reflexivity | intros _; reflexivity].
  - rewrite (handleMenu_back s t0 w0 w1 w2 w3 w4 E0 Hd E1 E2 E3 E4).
    pose proof (quiet_redraw (in_world w4 s)) as Hq.
    unfold same in Hq. cbn [dev trace in_world] in Hq.
    injection Hq as Hm Ha Hw.
      split; [intros _; split; assumption | intros _; assumption].
Qed.

End Buttons.

Lemma accepted_press_wakes_backlight_witness :
  let s := mkSys (holding BTN_BACK (bench 40000 2047 25))
             (set_lcdBacklightOn false initial_device) [] in
  lcdBacklightOn (dev s) = false /\
  lcdBacklightOn (dev (snd (handleMenu s))) = true.
Proof.
  intros s. split; [reflexivity |].
  apply (accepted_press_wakes_backlight (board := SimBoard)).
  - unfold index_ok, menuItemsCount. cbn. lia.
  - vm_compute. discriminate.
Defined.

Lemma menu_side_effects_need_their_item_witness :
  let s := browsing 5 false (holding BTN_SELECT (bench 20000 2047 25)) in
  attempts (trace (snd (handleMenu s))) = 0%nat /\
  writes (trace (snd (handleMenu s))) = [].
Proof.
  intros s.
  destruct (menu_side_effects_need_their_item (board := SimBoard) s) as [Hup _].
  apply Hup. vm_compute. discriminate.
Defined.

(** ** What the LCD shows *)

Section Screens.

Context {W : Type} {board : Board W}.

Lemma lcd_floats_app (t1 t2 : list Effect) :
  lcd_floats (t1 ++ t2) = fold_left floats_step t2 (lcd_floats t1).
Proof. unfold lcd_floats. apply fold_left_app. Qed.

(** The screen that [displayValue] draws: the label and, for a negative
    value, the word Error and no number; otherwise the number. *)
Lemma displayValue_screen name val unit_ (s : Sys W) :
  lcd_text (trace (snd (displayValue name val unit_ s))) =
    (if Qltb val 0 then [name; "Error"%string]
     else if String.eqb name "pH" then [name; "pH: "%string]
     else [name; " "%string; unit_]) /\
  lcd_floats (trace (snd (displayValue name val unit_ s))) =
    (if Qltb val 0 then [] else [val]).
Proof.
  destruct (hw_millis (world s)) as [t w] eqn:E.
  unfold displayValue. rewrite (bind_done _ _ _ _ _ (wakeLCD_eq s t w E)).
  unfold bind, emit. cbn [world dev trace].
  destruct (Qltb val 0); [| destruct (String.eqb name "pH")];
    cbn [snd trace world dev];
    rewrite ?lcd_text_app, ?lcd_floats_app; split; reflexivity.
Qed.

(** The menu screen: the selected item behind a cursor on line one and the
    next item, wrapping from the last to the first, on line two. *)
Theorem menu_screen_shows_next_item_circularly (s : Sys W) :
  index_ok s ->
  lcd_text (trace (snd (displayMenu s))) =
    [">"%string; menuItem (currentMenuItem (dev s)); " "%string;
     menuItem ((currentMenuItem (dev s) + 1) mod menuItemsCount)] /\
  menuItem (currentMenuItem (dev s)) <> EmptyString /\
  menuItem ((currentMenuItem (dev s) + 1) mod menuItemsCount) <> EmptyString.
Proof.
  intros Hok. unfold index_ok, menuItemsCount in Hok.
  destruct (hw_millis (world s)) as [t w] eqn:E.
  unfold displayMenu. rewrite (bind_done _ _ _ _ _ (wakeLCD_eq s t w E)).
  unfold bind, emit, get_dev. cbn [world dev trace].
  cbn [currentMenuItem set_lastLCDActivity set_lcdBacklightOn].
  assert (Hcases : currentMenuItem (dev s) = 0 \/ currentMenuItem (dev s) = 1
                   \/ currentMenuItem (dev s) = 2 \/ currentMenuItem (dev s) = 3
                   \/ currentMenuItem (dev s) = 4 \/ currentMenuItem (dev s) = 5
                   \/ currentMenuItem (dev s) = 6) by lia.
  destruct Hcases as [Hi | [Hi | [Hi | [Hi | [Hi | [Hi | Hi]]]]]]; rewrite Hi;
    match goal with
    | |- context [?a <? ?b] =>
        let v := eval vm_compute in (a <? b) in change (a <? b) with v
    end;
    cbn [snd trace world dev];
    rewrite ?lcd_text_app; (split; [reflexivity | split; discriminate]).
Qed.

(** *** Select on "Temperature" *)

Lemma selectAction_temperature (s : Sys W) :
  currentMenuItem (dev s) = 0 ->
  selectAction s = (v <- getTemp ;; displayValue "Temp" v "C") s.
Proof.
  intros Hi. unfold selectAction. unfold bind at 1. cbn [get_dev].
  rewrite Hi. reflexivity.
Qed.

(** Select on "Temperature": a probe sentinel is shown as the default 25.0;
    a probe reading below zero that is no sentinel is shown as Error, with
    no number on the screen; any other reading is shown as it is. *)
Theorem temperature_screen (s : Sys W) (t : Q) (w : W) :
  currentMenuItem (dev s) = 0 ->
  hw_tempC (world s) = (t, w) ->
  let s' := snd (selectAction s) in
  (probe_fault t = true ->
   lcd_text (trace s') = ["Temp"; " "; "C"]%string /\
   lcd_floats (trace s') = [25%Q]) /\
  (probe_fault t = false -> (t < 0)%Q ->
   lcd_text (trace s') = ["Temp"; "Error"]%string /\
   lcd_floats (trace s') = []) /\
  (probe_fault t = false -> (0 <= t)%Q ->
   lcd_text (trace s') = ["Temp"; " "; "C"]%string /\
   lcd_floats (trace s') = [t]).
Proof.
  intros Hi Et s'. subst s'. rewrite (selectAction_temperature s Hi).
  split; [| split].
  - intros Hf. rewrite (bind_done _ _ _ _ _ (getTemp_fault s t w Et Hf)).
    apply (displayValue_screen "Temp" 25 "C").
  - intros Hf Hneg. rewrite (bind_done _ _ _ _ _ (getTemp_reading s t w Et Hf)).
    pose proof (displayValue_screen "Temp" t "C" (mkSys w (dev s) (trace s))) as Hd.
    apply Qltb_lt in Hneg. rewrite Hneg in Hd. exact Hd.
  - intros Hf Hpos. rewrite (bind_done _ _ _ _ _ (getTemp_reading s t w Et Hf)).
    pose proof (displayValue_screen "Temp" t "C" (mkSys w (dev s) (trace s))) as Hd.
    apply Qltb_ge in Hpos. rewrite Hpos in Hd. exact Hd.
Qed.

(** *** Select on "Power Save" *)

Lemma selectAction_toggle (s : Sys W) :
  currentMenuItem (dev s) = 5 ->
  exists (post : list Effect) (s' : Sys W),
    selectAction s = (Done tt, s') /\
    powerSaveMode (dev s') = negb (powerSaveMode (dev s)) /\
    currentMenuItem (dev s') = 5 /\
    trace s' =
      trace s
      ++ [LcdClear; LcdPrint "Power Save: ";
          LcdPrint (if negb (powerSaveMode (dev s)) then "ON" else "OFF")]
      ++ Delay 1000 :: post.
Proof.
  intros Hitem.
  pose (sd := mkSys (hw_delay 1000 (world s))
                (set_powerSaveMode (negb (powerSaveMode (dev s))) (dev s))
                ((((trace s ++ [LcdClear]) ++ [LcdPrint "Power Save: "])
                  ++ [LcdPrint (if negb (powerSaveMode (dev s))
                                then "ON" else "OFF")])
                 ++ [Delay 1000])).
  destruct (returns_displayMenu sd) as ([] & se & Ee).
  destruct (extends_displayMenu sd) as [post Hpost].
  pose proof (passive_displayMenu sd) as Hpas.
  rewrite Ee in Hpost, Hpas. cbn [snd] in Hpost, Hpas.
  assert (Hc : controls (dev se) = controls (dev sd))
    by (unfold same, passive in Hpas; congruence).
  unfold controls in Hc. cbn [sd dev] in Hc. injection Hc as Hi _ _ Hm.
  exists post, se. split; [| split; [| split]].
  - unfold selectAction. unfold bind at 1. cbn [get_dev]. rewrite Hitem.
    cbv iota. unfold bind, emit, delay, modify_dev, get_dev.
    cbn [world dev trace powerSaveMode set_powerSaveMode].
    fold sd. rewrite Ee. reflexivity.
  - rewrite Hm. reflexivity.
  - rewrite Hi. exact Hitem.
  - rewrite Hpost. unfold sd. cbn [trace].
    repeat rewrite <- app_assoc. reflexivity.
Qed.

Lemma menu_side_effects_need_their_item_aux (s : Sys W) :
  currentMenuItem (dev s) <> 6 ->
  attempts (trace (snd (handleMenu s))) = attempts (trace s).
Proof.
  intros Hne.
  destruct (hw_millis (world s)) as [t0 w0] eqn:E0.
  destruct (ul_sub (ul t0) (lastButtonPress (dev s)) <? 200) eqn:Hd.
  { rewrite (handleMenu_bounced s t0 w0 E0 Hd). reflexivity. }
  assert (Hq : forall x, attempts (trace (snd ((displayMenu ;; stampPress) x)))
                         = attempts (trace x)).
  { intros x. pose proof (quiet_redraw x) as Hx. unfold same in Hx. congruence. }
  destruct (hw_digitalRead BTN_UP w0) as [[|] w1] eqn:E1;
    [| rewrite (handleMenu_up s t0 w0 w1 E0 Hd E1), Hq; reflexivity].
  destruct (hw_digitalRead BTN_DOWN w1) as [[|] w2] eqn:E2;
    [| rewrite (handleMenu_down s t0 w0 w1 w2 E0 Hd E1 E2), Hq; reflexivity].
  destruct (hw_digitalRead BTN_SELECT w2) as [[|] w3] eqn:E3.
  2:{ rewrite (handleMenu_select s t0 w0 w1 w2 w3 E0 Hd E1 E2 E3).
      destruct (returns_selectAction (in_world w3 s)) as ([] & s1 & Es).
      rewrite (bind_done _ _ _ _ _ Es), stampPress_trace.
      pose proof (selectAction_no_upload (in_world w3 s) Hne) as [Hn _].
      rewrite Es in Hn. exact Hn. }
  destruct (hw_digitalRead BTN_BACK w3) as [[|] w4] eqn:E4.
  - rewrite (handleMenu_idle s t0 w0 w1 w2 w3 w4 E0 Hd E1 E2 E3 E4). reflexivity.
  - rewrite (handleMenu_back s t0 w0 w1 w2 w3 w4 E0 Hd E1 E2 E3 E4), Hq.
    reflexivity.
Qed.

(** An accepted Select press on "Power Save" (item 5) flips the flag, makes
    no upload attempt, and shows the new state, ON or OFF, during its
    one-second pause; the selection stays on the item, so a second press
    flips the flag back. *)
Theorem power_save_toggle (s : Sys W) (t0 : Z) (w0 w1 w2 w3 : W) :
  hw_millis (world s) = (t0, w0) -> debounce_open s t0 ->
  hw_digitalRead BTN_UP w0 = (true, w1) ->
  hw_digitalRead BTN_DOWN w1 = (true, w2) ->
  hw_digitalRead BTN_SELECT w2 = (false, w3) ->
  currentMenuItem (dev s) = 5 ->
  powerSaveMode (dev (snd (handleMenu s))) = negb (powerSaveMode (dev s)) /\
  currentMenuItem (dev (snd (handleMenu s))) = 5 /\
  attempts (trace (snd (handleMenu s))) = attempts (trace s) /\
  exists pre post : list Effect,
    trace (snd (handleMenu s)) = trace s ++ pre ++ Delay 1000 :: post /\
    lcd_text (trace s ++ pre) =
      ["Power Save: "%string;
       if powerSaveMode (dev (snd (handleMenu s))) then "ON"%string
       else "OFF"%string].
Proof.
  intros E0 Hd E1 E2 E3 Hitem.
  assert (Hatt : attempts (trace (snd (handleMenu s))) = attempts (trace s)).
  { apply menu_side_effects_need_their_item_aux. rewrite Hitem. discriminate. }
  rewrite (handleMenu_select s t0 w0 w1 w2 w3 E0 Hd E1 E2 E3) in *.
  destruct (selectAction_toggle (in_world w3 s) Hitem)
    as (post & s' & Es & Hm & Hi & Htr).
  rewrite (bind_done _ _ _ _ _ Es) in *.
  pose proof (passive_stampPress_but_press s') as Hst. unfold same in Hst.
  injection Hst as Hsi _ Hsm Hstr. rewrite Hsm, Hsi, Hstr.
  split; [exact Hm |]. split; [exact Hi |].
  split; [rewrite <- Hstr; exact Hatt |].
  exists [LcdClear; LcdPrint "Power Save: ";
          LcdPrint (if negb (powerSaveMode (dev s)) then "ON" else "OFF")],
    post.
  split; [exact Htr |].
  rewrite lcd_text_app, Hm. cbn [in_world dev]. reflexivity.
Qed.

End Screens.

Lemma menu_screen_shows_next_item_circularly_witness :
  lcd_text (trace (snd (displayMenu (browsing 6 false (bench 3000 2047 25)))))
  = [">"; "Send Data"; " "; "Temperature"]%string.
Proof.
  destruct (menu_screen_shows_next_item_circularly (board := SimBoard)
              (browsing 6 false (bench 3000 2047 25))) as [Hs _].
  - unfold index_ok, menuItemsCount. cbn. lia.
  - exact Hs.
Defined.

Lemma temperature_screen_witness :
  let s := booted (bench 3000 2047 (-(5))) in
  lcd_text (trace (snd (selectAction s))) = ["Temp"; "Error"]%string /\
  lcd_floats (trace (snd (selectAction s))) = [].
Proof.
  intros s.
  destruct (temperature_screen (board := SimBoard) s (-(5))%Q (world s)
              eq_refl eq_refl) as (_ & Hneg & _).
  apply Hneg; reflexivity.
Defined.

Lemma power_save_toggle_witness :
  let s := browsing 5 false (holding BTN_SELECT (bench 20000 2047 25)) in
  powerSaveMode (dev (snd (handleMenu s))) = true /\
  attempts (trace (snd (handleMenu s))) = 0%nat.
Proof.
  intros s.
  destruct (power_save_toggle (board := SimBoard) s 20000 _ _ _ _
              eq_refl eq_refl eq_refl eq_refl eq_refl eq_refl)
    as (Hm & _ & Ha & _).
  split; [exact Hm | exact Ha].
Defined.

(** ** More on uploads *)

Section Uploads.

Context {W : Type} {board : Board W}.

(** With the access point gone, or with Firebase not ready, an upload
    attempt stops before it samples anything: besides the two log lines it
    changes no global, so no rolling buffer advances, and it writes nothing.
    With the access point gone, Firebase is not even asked. *)
Theorem upload_not_ready_samples_nothing (s : Sys W) (connected : bool) (w : W) :
  hw_wifiConnected (world s) = (connected, w) ->
  (connected = false ->
   sendToFirebase s =
     (Done tt,
      mkSys w (dev s)
        (trace s ++ [SerialPrint MSG_ATTEMPT; SerialPrint MSG_NOT_READY]))) /\
  (connected = true ->
   forall w', hw_firebaseReady w = (false, w') ->
   sendToFirebase s =
     (Done tt,
      mkSys w' (dev s)
        (trace s ++ [SerialPrint MSG_ATTEMPT; SerialPrint MSG_NOT_READY]))).
Proof.
  intros E. split.
  - intros ->. unfold sendToFirebase, bind, emit, ask, ret.
    cbn [world dev trace]. rewrite E. cbn [negb world dev trace].
    rewrite <- app_assoc. reflexivity.
  - intros -> w' E'. unfold sendToFirebase, bind, emit, ask, ret.
    cbn [world dev trace]. rewrite E. cbn [negb world dev trace].
    rewrite E'. cbn [negb world dev trace]. rewrite <- app_assoc. reflexivity.
Qed.

Lemma payloads_app (t1 t2 : list Effect) :
  payloads (t1 ++ t2) = payloads t1 ++ payloads t2.
Proof. unfold payloads. apply flat_map_app. Qed.

(** Side conditions of [same (fun s => payloads (trace s))]. *)
Ltac payloads_side :=
  intros; unfold same, in_world; cbn [world dev trace];
  rewrite ?payloads_app; cbn; rewrite ?app_nil_r; reflexivity.

Lemma payloads_getTemp : stays (same (fun s => payloads (trace s))) getTemp.
Proof. unfold getTemp. stays_tac payloads_side. Qed.

Lemma payloads_getPH : stays (same (fun s => payloads (trace s))) getPH.
Proof.
  unfold getPH, getTemp, readVoltage, analogRead. stays_tac payloads_side.
Qed.

Lemma payloads_getTurbidity :
  stays (same (fun s => payloads (trace s))) getTurbidity.
Proof. unfold getTurbidity, readVoltage, analogRead. stays_tac payloads_side. Qed.

Lemma payloads_getTDS : stays (same (fun s => payloads (trace s))) getTDS.
Proof.
  unfold getTDS, getTemp, readVoltage, analogRead. stays_tac payloads_side.
Qed.

(** What [getPH] and [getTurbidity] can return. *)
Lemma getPH_range (s s' : Sys W) ph :
  getPH s = (Done ph, s') -> Qltb ph 0 = false -> (0 <= ph <= 14)%Q.
Proof.
  intros E Hv. destruct (returns_readVoltage PH_PIN ChPH s) as (v & s1 & Ev).
  destruct (Qltb v 0) eqn:Hq.
  - rewrite (getPH_invalid s s1 v Ev Hq) in E. injection E as <- _.
    discriminate.
  - destruct (returns_getTemp s1) as (t & s2 & Et).
    rewrite (getPH_valid s s1 s2 v t Ev Hq Et) in E. injection E as <- _.
    apply constrain_range. lra.
Qed.

Lemma getTurbidity_range (s s' : Sys W) ntu :
  getTurbidity s = (Done ntu, s') -> Qltb ntu 0 = false -> (0 <= ntu <= 150)%Q.
Proof.
  intros E Hv. destruct (returns_readVoltage TURB_PIN ChTurb s) as (v & s1 & Ev).
  destruct (Qltb v 0) eqn:Hq.
  - rewrite (getTurbidity_invalid s s1 v Ev Hq) in E. injection E as <- _.
    discriminate.
  - rewrite (getTurbidity_valid s s1 v Ev Hq) in E. injection E as <- _.
    apply constrain_range. lra.
Qed.

Lemma payloads_writePayload data (s : Sys W) :
  payloads (trace (snd (writePayload data s))) = payloads (trace s) ++ [data].
Proof.
  unfold writePayload, millis, bind, ask, emit, ret.
  destruct (hw_millis (world s)) as [now w1]. cbn [world dev trace].
  destruct (hw_setJSON (ul now / 1000) data w1) as [r w2].
  destruct r; cbn [snd trace]; rewrite !payloads_app; cbn;
    rewrite ?app_nil_r; reflexivity.
Qed.

Lemma payloads_ok_uploadReadings : stays (carries payloads_ok) uploadReadings.
Proof.
  intros s Hok. unfold payloads_ok in *.
  destruct (upload_gate s)
    as (temperature & ph & turbidity & tds & s1 & s2 & s3 & s4 & s'
        & E1 & E2 & E3 & E4 & Eu & _).
  assert (Hp : payloads (trace s4) = payloads (trace s)).
  { pose proof (payloads_getTemp s) as P1. rewrite E1 in P1.
    pose proof (payloads_getPH s1) as P2. rewrite E2 in P2.
    pose proof (payloads_getTurbidity s2) as P3. rewrite E3 in P3.
    pose proof (payloads_getTDS s3) as P4. rewrite E4 in P4.
    unfold same in *. cbn [snd] in *. congruence. }
  unfold uploadReadings.
  rewrite (bind_done _ _ _ _ _ E1), (bind_done _ _ _ _ _ E2),
    (bind_done _ _ _ _ _ E3), (bind_done _ _ _ _ _ E4). cbv zeta.
  destruct (sensor_error temperature ph turbidity tds
              (if Qltb tds 0 then -(1) else tds * 2)%Q) eqn:Hse.
  - cbn [emit snd trace]. rewrite payloads_app, Hp. cbn. rewrite app_nil_r.
    exact Hok.
  - rewrite payloads_writePayload, Hp. apply Forall_app. split; [exact Hok |].
    constructor; [| constructor].
    unfold sensor_error in Hse.
    apply orb_false_iff in Hse as [Hse _].
    apply orb_false_iff in Hse as [Hse Htds].
    apply orb_false_iff in Hse as [Hse Hturb].
    apply orb_false_iff in Hse as [Htemp Hph].
    rewrite Htds. unfold payload_ok. cbn [pl_t pl_p pl_n pl_d pl_ec].
    split; [apply Qltb_ge, Htemp |].
    split; [exact (getPH_range s1 s2 ph E2 Hph) |].
    split; [exact (getTurbidity_range s2 s3 turbidity E3 Hturb) |].
    split; [apply Qltb_ge, Htds | reflexivity].
Qed.

Lemma payloads_ok_loop : stays (carries payloads_ok) loop.
Proof.
  pose proof payloads_ok_uploadReadings as Hu.
  unfold loop, handleMenu, stampPress, selectAction, managePower,
    dimBacklight, sleepCheck, enterDeepSleep, autoSend, sendToFirebase,
    displayMenu, displayValue, wakeLCD, getEC,
    getTDS, getPH, getTurbidity, getTemp, readVoltage, millis, digitalRead,
    analogRead.
  repeat first
    [ apply Hu
    | firmware_step
        ltac:(unfold carries, payloads_ok, in_world; intros;
              cbn [world dev trace] in *; rewrite ?payloads_app; cbn;
              rewrite ?app_nil_r;
              match goal with Hs : Forall _ _ |- _ => exact Hs end) ].
Qed.

(** Every JSON object that ever reaches the transport was built from
    readings that passed the gate: the temperature reading is not negative,
    the pH reading lies in [[0, 14]], the turbidity reading in [[0, 150]],
    the TDS reading is not negative and the EC reading is twice the TDS
    reading.  The fault sentinel is never uploaded.  This is about the
    readings handed to [String(x, 1)], before they are rendered, and about
    readings that are numbers, as all are here. *)
Theorem only_valid_payloads_are_written (n : nat) (s : Sys W) :
  Forall payload_ok (payloads (trace s)) ->
  Forall payload_ok (payloads (trace (snd (run n s)))).
Proof. exact (stays_run _ n payloads_ok_loop s). Qed.

(** *** One write per attempt at most *)

Lemma writes_uploadReadings (s : Sys W) :
  (length (writes (trace (snd (uploadReadings s))))
   <= S (length (writes (trace s))))%nat.
Proof.
  destruct (upload_gate s)
    as (temperature & ph & turbidity & tds & s1 & s2 & s3 & s4 & s'
        & E1 & E2 & E3 & E4 & Eu & _).
  assert (Hw : writes (trace s4) = writes (trace s)).
  { pose proof (passive_getTemp s) as P1. rewrite E1 in P1.
    pose proof (passive_getPH s1) as P2. rewrite E2 in P2.
    pose proof (passive_getTurbidity s2) as P3. rewrite E3 in P3.
    pose proof (passive_getTDS s3) as P4. rewrite E4 in P4.
    unfold same, passive in *. cbn [snd] in *. congruence. }
  unfold uploadReadings.
  rewrite (bind_done _ _ _ _ _ E1), (bind_done _ _ _ _ _ E2),
    (bind_done _ _ _ _ _ E3), (bind_done _ _ _ _ _ E4). cbv zeta.
  destruct (sensor_error temperature ph turbidity tds
              (if Qltb tds 0 then -(1) else tds * 2)%Q).
  - cbn [emit snd trace]. rewrite writes_app, Hw. cbn. rewrite app_nil_r. lia.
  - match goal with |- context [writePayload ?d s4] =>
      destruct (writes_writePayload d s4) as (sec & Hsec) end.
    rewrite Hsec, Hw, length_app. cbn. lia.
Qed.

Lemma written_le_attempted_sendToFirebase :
  stays (carries written_le_attempted) sendToFirebase.
Proof.
  intros s Hle. unfold written_le_attempted in *.
  rewrite attempts_sendToFirebase.
  enough (length (writes (trace (snd (sendToFirebase s))))
          <= S (length (writes (trace s))))%nat by lia.
  unfold sendToFirebase, bind, emit, ask, ret. cbn [world dev trace].
  destruct (hw_wifiConnected (world s)) as [connected w1].
  cbn [world dev trace].
  destruct connected; cbn [negb]; cbv iota beta; cbn [world dev trace].
  - destruct (hw_firebaseReady w1) as [ready w2]. cbn [world dev trace].
    destruct ready; cbn [negb]; cbv iota beta; cbn [world dev trace].
    + match goal with |- context [uploadReadings ?x] =>
        pose proof (writes_uploadReadings x) as Hu end.
      cbn [trace] in Hu. rewrite writes_app in Hu. cbn in Hu.
      rewrite app_nil_r in Hu. exact Hu.
    + cbn [snd trace]. rewrite !writes_app. cbn. rewrite !app_nil_r. lia.
  - cbn [snd trace]. rewrite !writes_app. cbn. rewrite !app_nil_r. lia.
Qed.

Lemma written_le_attempted_loop : stays (carries written_le_attempted) loop.
Proof.
  pose proof written_le_attempted_sendToFirebase as Hs.
  unfold loop, handleMenu, stampPress, selectAction, managePower,
    dimBacklight, sleepCheck, enterDeepSleep, autoSend,
    displayMenu, displayValue, wakeLCD, getEC,
    getTDS, getPH, getTurbidity, getTemp, readVoltage, millis, digitalRead,
    analogRead.
  repeat first
    [ apply Hs
    | firmware_step
        ltac:(unfold carries, written_le_attempted, in_world; intros;
              cbn [world dev trace] in *;
              rewrite ?writes_app, ?attempts_app; cbn;
              rewrite ?app_nil_r, ?Nat.add_0_r;
              match goal with Hs : (_ <= _)%nat |- _ => exact Hs end) ].
Qed.

(** A failed or skipped upload is not retried: over any number of
    iterations the transport is written at most once per upload attempt. *)
Theorem at_most_one_write_per_attempt (n : nat) (s : Sys W) :
  (length (writes (trace s)) <= attempts (trace s))%nat ->
  (length (writes (trace (snd (run n s))))
   <= attempts (trace (snd (run n s))))%nat.
Proof. exact (stays_run _ n written_le_attempted_loop s). Qed.

End Uploads.

Lemma upload_not_ready_samples_nothing_witness :
  let s := booted (offline (bench 3000 2047 25)) in
  dev (snd (sendToFirebase s)) = dev s /\
  writes (trace (snd (sendToFirebase s))) = [].
Proof.
  intros s.
  destruct (upload_not_ready_samples_nothing (board := SimBoard)
              s false (world s) eq_refl) as [Hoff _].
  rewrite (Hoff eq_refl). split; reflexivity.
Defined.

Lemma only_valid_payloads_are_written_witness :
  Forall payload_ok (payloads (trace (snd (run 116 (booted session))))).
Proof.
  apply (only_valid_payloads_are_written (board := SimBoard)).
  constructor.
Defined.

Lemma at_most_one_write_per_attempt_witness :
  (length (writes (trace (snd (run 116 (booted session)))))
   <= attempts (trace (snd (run 116 (booted session)))))%nat.
Proof.
  apply (at_most_one_write_per_attempt (board := SimBoard)). cbn. lia.
Defined.

(** ** More on sleep and on the clock *)

Section SleepAndClock.

Context {W : Type} {board : Board W}.

Lemma enterDeepSleep_trace (s : Sys W) :
  trace (snd (enterDeepSleep s)) = trace s ++ SLEEP_SEQUENCE.
Proof.
  unfold enterDeepSleep, bind, emit, delay, halt. cbn [snd trace world dev].
  repeat rewrite <- app_assoc. reflexivity.
Qed.

Lemma sleepCheck_eq (s : Sys W) t w :
  hw_millis (world s) = (t, w) ->
  sleepCheck s =
    if 300000 <? ul_sub (ul t) (lastRead (dev s))
    then enterDeepSleep (in_world w s)
    else (Done tt, in_world w s).
Proof.
  intros E. unfold sleepCheck, millis. unfold bind at 1 2 3.
  unfold ask, ret, get_dev. rewrite E. cbn [fst world dev trace].
  destruct (300000 <? ul_sub (ul t) (lastRead (dev s))); reflexivity.
Qed.

Lemma sleepCheck_halted_trace (s : Sys W) :
  fst (sleepCheck s) = Halted ->
  trace (snd (sleepCheck s)) = trace s ++ SLEEP_SEQUENCE.
Proof.
  destruct (hw_millis (world s)) as [t w] eqn:E.
  rewrite (sleepCheck_eq s t w E).
  destruct (300000 <? ul_sub (ul t) (lastRead (dev s))).
  - intros _. apply (enterDeepSleep_trace (in_world w s)).
  - cbn. discriminate.
Qed.

Lemma managePower_halted_trace (s : Sys W) :
  fst (managePower s) = Halted ->
  exists pre, trace (snd (managePower s)) = pre ++ SLEEP_SEQUENCE.
Proof.
  destruct (powerSaveMode (dev s)) eqn:Hps.
  - destruct (returns_dimBacklight s) as ([] & s1 & Ed).
    rewrite (managePower_on s s1 Hps Ed). intros Hh.
    exists (trace s1). apply sleepCheck_halted_trace, Hh.
  - rewrite (managePower_off s Hps). cbn. discriminate.
Qed.

(** Whenever the firmware goes to sleep, the last things it did, in this
    order, were to show the sleep notice, wait a second, arm the wake-up on
    the Select pin at level low and start deep sleep: it never sleeps without
    a wake source, and nothing follows the sleep command. *)
Theorem sleep_is_always_armed (n : nat) (s : Sys W) :
  fst (run n s) = Halted ->
  exists pre : list Effect,
    trace (snd (run n s)) =
      pre ++ [LcdClear; LcdPrint "Sleeping..."; LcdSetCursor 0 1;
              LcdPrint "Press SELECT to wake"; Delay 1000;
              Ext0Wakeup 26 0; DeepSleepStart].
Proof.
  revert s. induction n as [| n IH]; intros s; cbn [run].
  - cbn. discriminate.
  - destruct (loop s) as [[[] |] s1] eqn:El.
    + rewrite (bind_done _ _ _ _ _ El). apply IH.
    + rewrite (bind_halted _ _ _ _ El). cbn [fst snd]. intros _.
      assert (Hh : fst (loop s) = Halted) by (rewrite El; reflexivity).
      pose proof (loop_halted_state s Hh) as Hs. rewrite El in Hs.
      cbn [snd] in Hs. rewrite Hs.
      apply managePower_halted_trace. apply loop_halts_iff, Hh.
Qed.

(** *** The 32-bit clock *)

Lemma ul_sub_across_wrap (last e : Z) :
  0 <= last < UL_MOD -> 0 <= e < UL_MOD -> ul_sub (ul (last + e)) last = e.
Proof.
  intros Hl He. unfold ul_sub, ul.
  rewrite Zminus_mod_idemp_l.
  replace (last + e - last) with e by lia. apply Z.mod_small. exact He.
Qed.

(** The timers measure true elapsed time across the wrap of the 32-bit
    millisecond clock: if the clock reads [lastRead + e] modulo [2^32] with
    [e] below [2^32], the schedule attempts an upload exactly when [e] is at
    least 15000 and power-save is off, and the power manager sleeps exactly
    when power-save is on and [e] exceeds 300000. *)
Theorem timers_survive_clock_wrap (s : Sys W) (e : Z) :
  0 <= lastRead (dev s) < UL_MOD -> 0 <= e < UL_MOD ->
  (schedule_clock s = ul (lastRead (dev s) + e) ->
   attempts (trace (snd (autoSend s))) =
     (attempts (trace s)
      + (if (15000 <=? e)%Z && negb (powerSaveMode (dev s)) then 1 else 0))%nat) /\
  (sleep_clock s = ul (lastRead (dev s) + e) ->
   (fst (managePower s) = Halted <->
    powerSaveMode (dev s) = true /\ 300000 < e)).
Proof.
  intros Hl He. split.
  - intros Hc. unfold schedule_clock in Hc.
    destruct (hw_millis (world s)) as [t0 w0] eqn:E0. cbn [fst] in Hc.
    rewrite (autoSend_attempts s t0 w0 E0), Hc.
    rewrite (ul_sub_across_wrap _ _ Hl He). reflexivity.
  - intros Hc. rewrite managePower_halts_iff, Hc.
    rewrite (ul_sub_across_wrap _ _ Hl He). tauto.
Qed.

(** *** TDS in the cold *)

(** Below -25 degrees the compensation factor [1 + 0.02 * (t - 25)] is
    negative: with a positive probe constant, a valid voltage sample then
    gives a negative TDS, which every consumer takes for the fault sentinel,
    and the EC query returns the sentinel itself. *)
Theorem tds_reads_invalid_below_minus_25
  (s s1 : Sys W) (v t : Q) (w : W) :
  readVoltage TDS_PIN ChTDS s = (Done v, s1) ->
  (0 < v)%Q ->
  hw_tempC (world s1) = (t, w) ->
  probe_fault t = false ->
  (t < -(25))%Q ->
  (0 < tds_k (dev s1))%Q ->
  exists tds : Q,
    fst (getTDS s) = Done tds /\ (tds < 0)%Q /\ valid tds = false /\
    fst (getEC s) = Done (-(1))%Q.
Proof.
  intros E Hv Et Hf Ht Hk.
  assert (Hq : Qltb v 0 = false) by (apply Qltb_ge; lra).
  pose proof (getTemp_reading s1 t w Et Hf) as Eg.
  pose proof (getTDS_valid s s1 _ v t E Hq Eg) as Etds. cbn [dev] in Etds.
  set (tds := (v * tds_k (dev s1) * (1 + (2 # 100) * (t - 25)))%Q) in *.
  assert (Hneg : (tds < 0)%Q).
  { unfold tds.
    assert (Hvk : (0 < v * tds_k (dev s1))%Q) by (apply Qmult_lt_0_compat; assumption).
    assert (Hfac : (0 < - (1 + (2 # 100) * (t - 25)))%Q) by lra.
    pose proof (Qmult_lt_0_compat _ _ Hvk Hfac) as Hprod. lra. }
  exists tds. split; [rewrite Etds; reflexivity |].
  split; [exact Hneg |].
  assert (Hb : Qltb tds 0 = true) by (apply Qltb_lt, Hneg).
  split; [unfold valid; rewrite Hb; reflexivity |].
  rewrite (getEC_eq s _ tds Etds), Hb. reflexivity.
Qed.

End SleepAndClock.

Lemma sleep_is_always_armed_witness :
  exists pre : list Effect,
    trace (snd (run 1 (browsing 5 true (bench 400000 2047 25)))) =
      pre ++ [LcdClear; LcdPrint "Sleeping..."; LcdSetCursor 0 1;
              LcdPrint "Press SELECT to wake"; Delay 1000;
              Ext0Wakeup 26 0; DeepSleepStart].
Proof.
  apply (sleep_is_always_armed (board := SimBoard)). vm_compute. reflexivity.
Defined.

Lemma timers_survive_clock_wrap_witness :
  let s := mkSys (bench 10000 2047 25)
             (set_lastRead (UL_MOD - 5000) initial_device) [] in
  attempts (trace (snd (autoSend s))) = 1%nat.
Proof.
  intros s.
  destruct (timers_survive_clock_wrap (board := SimBoard) s 15000) as [Hauto _].
  - vm_compute. split; [discriminate | reflexivity].
  - vm_compute. split; [discriminate | reflexivity].
  - rewrite Hauto; reflexivity.
Defined.

Lemma tds_reads_invalid_below_minus_25_witness :
  let s := booted (bench 3000 2047 (-(30))) in
  exists tds : Q,
    fst (getTDS s) = Done tds /\ (tds < 0)%Q /\ valid tds = false /\
    fst (getEC s) = Done (-(1))%Q.
Proof.
  intros s.
  pose (s1 := snd (readVoltage TDS_PIN ChTDS s)).
  pose (v := (sum3 (buf_of ChTDS (dev s1)) / 3)%Q).
  assert (Ev : readVoltage TDS_PIN ChTDS s = (Done v, s1)) by reflexivity.
  apply (tds_reads_invalid_below_minus_25 (board := SimBoard)
           s s1 v (-(30))%Q (world s) Ev); reflexivity.
Defined.

(** ** Deep sleep on an ideal clock *)

Lemma ul_sub_age (c L : Z) :
  0 <= c - L < UL_MOD -> ul_sub (ul c) (ul L) = c - L.
Proof.
  intros H. unfold ul_sub, ul.
  rewrite Zminus_mod_idemp_l, Zminus_mod_idemp_r. apply Z.mod_small. exact H.
Qed.

Section IdealClock.

Context {W : Type} {board : Board W}.
Context (clk : W -> Z) (Hideal : ideal_timing clk).

Lemma clk_millis (w : W) : clk (snd (hw_millis w)) = clk w.
Proof. apply Hideal. Qed.

Lemma clk_millis_value (w : W) : fst (hw_millis w) = clk w.
Proof. apply Hideal. Qed.

Lemma clk_digitalRead pin (w : W) : clk (snd (hw_digitalRead pin w)) = clk w.
Proof. apply Hideal. Qed.

Lemma clk_analogRead pin (w : W) : clk (snd (hw_analogRead pin w)) = clk w.
Proof. apply Hideal. Qed.

Lemma clk_tempC (w : W) : clk (snd (hw_tempC w)) = clk w.
Proof. apply Hideal. Qed.

Lemma clk_wifiConnected (w : W) : clk (snd (hw_wifiConnected w)) = clk w.
Proof. apply Hideal. Qed.

Lemma clk_firebaseReady (w : W) : clk (snd (hw_firebaseReady w)) = clk w.
Proof. apply Hideal. Qed.

Lemma clk_setJSON sec data (w : W) : clk (snd (hw_setJSON sec data w)) = clk w.
Proof. apply Hideal. Qed.

Lemma clk_delay ms (w : W) : clk (hw_delay ms w) = clk w + ms.
Proof. apply Hideal. Qed.

(** A board call keeps what its own result keeps. *)
Lemma stays_ask_result {A} (R : relation (Sys W)) (op : W -> A * W) :
  (forall s, R s (in_world (snd (op (world s))) s)) -> stays R (ask op).
Proof.
  intros HR s. specialize (HR s). unfold ask.
  destruct (op (world s)) as [a w]. exact HR.
Qed.

(** Side conditions of [same (fun s => clk (world s))]. *)
Ltac clock_side :=
  intros; unfold same, in_world; cbn [world dev trace];
  first
    [ reflexivity | apply clk_millis | apply clk_digitalRead
    | apply clk_analogRead | apply clk_tempC | apply clk_wifiConnected
    | apply clk_firebaseReady | apply clk_setJSON ].

Ltac clock_step :=
  lazymatch goal with
  | |- stays _ (ask _) => apply stays_ask_result; solve [clock_side]
  | |- stays _ (bind _ _) => apply stays_bind; [typeclasses eauto | | intros ?]
  | |- stays _ (ret _) => apply stays_ret; typeclasses eauto
  | |- stays _ get_dev => apply stays_get_dev; typeclasses eauto
  | |- stays _ (emit _) => apply stays_emit; solve [clock_side]
  | |- stays _ (modify_dev _) => apply stays_modify_dev; solve [clock_side]
  | |- stays _ (if ?c then _ else _) => destruct c
  | |- stays _ (match ?r with WriteOk => _ | WriteFailed _ => _ end) =>
      destruct r
  | |- stays _ (let _ := _ in _) => cbv zeta
  | |- _ => stays_step clock_side
  end.

Ltac clock_tac := repeat clock_step.

Lemma clock_displayMenu : stays (same (fun s => clk (world s))) displayMenu.
Proof. unfold displayMenu, wakeLCD, millis. clock_tac. Qed.

Lemma clock_stampPress : stays (same (fun s => clk (world s))) stampPress.
Proof. unfold stampPress, millis. clock_tac. Qed.

Lemma clock_dimBacklight : stays (same (fun s => clk (world s))) dimBacklight.
Proof. unfold dimBacklight, millis. clock_tac. Qed.

Lemma lastRead_dimBacklight : stays (same (fun s => lastRead (dev s))) dimBacklight.
Proof. unfold dimBacklight, millis. stays_tac globals_side. Qed.

Lemma clock_sendToFirebase :
  stays (same (fun s => clk (world s))) sendToFirebase.
Proof.
  unfold sendToFirebase, uploadReadings, writePayload, getTDS, getPH,
    getTurbidity, getTemp, readVoltage, millis, analogRead.
  clock_tac.
Qed.

Lemma clock_autoSend : stays (same (fun s => clk (world s))) autoSend.
Proof.
  pose proof clock_sendToFirebase as Hs.
  unfold autoSend, millis.
  repeat first
    [ match goal with |- stays _ sendToFirebase => exact Hs end
    | clock_step ].
Qed.

(** The Select branch takes at most the one second of its confirmation
    screens. *)
Lemma clock_selectAction (s : Sys W) :
  clk (world s) <= clk (world (snd (selectAction s))) <= clk (world s) + 1000.
Proof.
  pose proof clock_displayMenu as Hm. pose proof clock_sendToFirebase as Hf.
  unfold same in Hm, Hf.
  set (r := selectAction s). assert (Hr : r = selectAction s) by reflexivity.
  clearbody r. unfold selectAction in Hr. unfold bind at 1 in Hr.
  cbn [get_dev] in Hr.
  destruct (currentMenuItem (dev s)) as [| p | p];
    [| do 3 (try destruct p as [p | p |]) |]; subst r;
    try (match goal with
         | |- _ <= clk (world (snd (?m s))) <= _ =>
             assert (Hk : stays (same (fun x => clk (world x))) m)
               by (unfold displayValue, wakeLCD, getEC, getTDS, getPH,
                     getTurbidity, getTemp, readVoltage, millis, analogRead;
                   clock_tac);
             pose proof (Hk s) as Hks; unfold same in Hks; rewrite Hks; lia
         end).
  - (* Power Save *)
    unfold bind, emit, delay, modify_dev, get_dev. cbn [world dev trace].
    rewrite Hm. cbn [world]. rewrite clk_delay. lia.
  - (* Send Data *)
    unfold bind, emit, delay. cbn [world dev trace].
    match goal with |- context [sendToFirebase ?x] =>
      destruct (returns_sendToFirebase x) as ([] & sb & Eb);
      pose proof (Hf x) as Hfx; rewrite Eb in Hfx; rewrite Eb
    end.
    cbn [snd world] in Hfx. cbn [world dev trace].
    rewrite Hm. cbn [world]. rewrite clk_delay, Hfx. lia.
Qed.

(** One pass of the menu handler takes at most one second. *)
Lemma clock_handleMenu (s : Sys W) :
  clk (world s) <= clk (world (snd (handleMenu s))) <= clk (world s) + 1000.
Proof.
  assert (Hq : forall x, clk (world (snd ((displayMenu ;; stampPress) x)))
                         = clk (world x)).
  { intros x.
    assert (Hk : stays (same (fun y => clk (world y))) (displayMenu ;; stampPress)).
    { pose proof clock_displayMenu as Hm. pose proof clock_stampPress as Hp.
      apply stays_bind; [typeclasses eauto | exact Hm | intros _; exact Hp]. }
    exact (Hk x). }
  destruct (hw_millis (world s)) as [t0 w0] eqn:E0.
  pose proof (clk_millis (world s)) as C0. rewrite E0 in C0. cbn [snd] in C0.
  destruct (ul_sub (ul t0) (lastButtonPress (dev s)) <? 200) eqn:Hd.
  { rewrite (handleMenu_bounced s t0 w0 E0 Hd). cbn [snd in_world world]. lia. }
  destruct (hw_digitalRead BTN_UP w0) as [b1 w1] eqn:E1.
  pose proof (clk_digitalRead BTN_UP w0) as C1. rewrite E1 in C1. cbn [snd] in C1.
  destruct b1;
    [| rewrite (handleMenu_up s t0 w0 w1 E0 Hd E1), Hq; cbn [world]; lia].
  destruct (hw_digitalRead BTN_DOWN w1) as [b2 w2] eqn:E2.
  pose proof (clk_digitalRead BTN_DOWN w1) as C2. rewrite E2 in C2. cbn [snd] in C2.
  destruct b2;
    [| rewrite (handleMenu_down s t0 w0 w1 w2 E0 Hd E1 E2), Hq; cbn [world]; lia].
  destruct (hw_digitalRead BTN_SELECT w2) as [b3 w3] eqn:E3.
  pose proof (clk_digitalRead BTN_SELECT w2) as C3. rewrite E3 in C3. cbn [snd] in C3.
  destruct b3.
  2:{ rewrite (handleMenu_select s t0 w0 w1 w2 w3 E0 Hd E1 E2 E3).
      destruct (returns_selectAction (in_world w3 s)) as ([] & s1 & Es).
      rewrite (bind_done _ _ _ _ _ Es).
      pose proof (clock_stampPress s1) as Hp. unfold same in Hp. rewrite Hp.
      pose proof (clock_selectAction (in_world w3 s)) as Hs.
      rewrite Es in Hs. cbn [snd in_world world] in Hs. lia. }
  destruct (hw_digitalRead BTN_BACK w3) as [b4 w4] eqn:E4.
  pose proof (clk_digitalRead BTN_BACK w3) as C4. rewrite E4 in C4. cbn [snd] in C4.
  destruct b4.
  - rewrite (handleMenu_idle s t0 w0 w1 w2 w3 w4 E0 Hd E1 E2 E3 E4).
    cbn [snd in_world world]. lia.
  - rewrite (handleMenu_back s t0 w0 w1 w2 w3 w4 E0 Hd E1 E2 E3 E4), Hq.
    cbn [in_world world]. lia.
Qed.

(** With a timestamp less than 299 s old the power manager returns, and it
    moves neither the clock nor the timestamp. *)
Lemma managePower_awake (s : Sys W) (L : Z) :
  lastRead (dev s) = ul L -> 0 <= clk (world s) - L <= 300000 ->
  exists s', managePower s = (Done tt, s') /\
             clk (world s') = clk (world s) /\
             lastRead (dev s') = lastRead (dev s).
Proof.
  intros HL Hage. destruct (powerSaveMode (dev s)) eqn:Hps.
  - destruct (returns_dimBacklight s) as ([] & s1 & Ed).
    pose proof (clock_dimBacklight s) as Hc.
    pose proof (lastRead_dimBacklight s) as Hl.
    rewrite Ed in Hc, Hl. unfold same in Hc, Hl. cbn [snd] in Hc, Hl.
    rewrite (managePower_on s s1 Hps Ed).
    destruct (hw_millis (world s1)) as [t w] eqn:E.
    pose proof (clk_millis (world s1)) as Cw.
    pose proof (clk_millis_value (world s1)) as Ct.
    rewrite E in Cw, Ct. cbn [fst snd] in Cw, Ct.
    rewrite (sleepCheck_eq s1 t w E), Ct, Hl, HL, Hc.
    rewrite ul_sub_age by (unfold UL_MOD; lia).
    destruct (300000 <? clk (world s) - L) eqn:Ht;
      [apply Z.ltb_lt in Ht; lia |].
    exists (in_world w s1). cbn [in_world world dev].
    split; [reflexivity |]. split; [lia | congruence].
  - exists s. rewrite (managePower_off s Hps). auto.
Qed.

(** One iteration started with a timestamp at most 299 s old returns, and
    leaves a timestamp at most 15.1 s old. *)
Lemma loop_keeps_fresh (s : Sys W) :
  fresh clk 299000 s ->
  exists s', loop s = (Done tt, s') /\ fresh clk 15100 s'.
Proof.
  intros (L & HL & Hage).
  destruct (returns_handleMenu s) as ([] & sh & Eh).
  pose proof (lastRead_handleMenu s) as Hlh.
  pose proof (clock_handleMenu s) as Hch.
  rewrite Eh in Hlh, Hch. unfold same in Hlh. cbn [snd] in Hlh, Hch.
  destruct (managePower_awake sh L) as (sm & Em & Hcm & Hlm);
    [congruence | lia |].
  destruct (returns_autoSend sm) as ([] & sa & Ea).
  destruct (hw_millis (world sm)) as [t0 w0] eqn:E0.
  destruct (hw_millis w0) as [t1 w1] eqn:E1.
  pose proof (autoSend_lastRead sm t0 w0 t1 w1 E0 E1) as Hla.
  pose proof (clock_autoSend sm) as Hca.
  rewrite Ea in Hla, Hca. unfold same in Hca. cbn [snd] in Hla, Hca.
  pose proof (clk_millis (world sm)) as C0.
  pose proof (clk_millis_value (world sm)) as T0.
  rewrite E0 in C0, T0. cbn [fst snd] in C0, T0.
  pose proof (clk_millis_value w0) as T1. rewrite E1 in T1. cbn [fst] in T1.
  exists (mkSys (hw_delay 100 (world sa)) (dev sa) (trace sa ++ [Delay 100])).
  split.
  { unfold loop. rewrite (bind_done _ _ _ _ _ Eh), (bind_done _ _ _ _ _ Em),
      (bind_done _ _ _ _ _ Ea). reflexivity. }
  unfold fresh. cbn [world dev]. rewrite clk_delay, Hca.
  rewrite Hla, T0, Hlm, Hlh, HL.
  rewrite ul_sub_age by (unfold UL_MOD; lia).
  destruct (15000 <=? clk (world sm) - L) eqn:Ht.
  - exists t1. split; [reflexivity | lia].
  - apply Z.leb_gt in Ht. exists L. split; [reflexivity | lia].
Qed.

Lemma run_keeps_awake (n : nat) :
  forall s, fresh clk 299000 s -> exists s', run n s = (Done tt, s').
Proof.
  induction n as [| n IH]; intros s Hs; [exists s; reflexivity |].
  destruct (loop_keeps_fresh s Hs) as (s1 & E1 & (L & HL & Hage)).
  destruct (IH s1) as (s' & E').
  { exists L. split; [exact HL | lia]. }
  exists s'. cbn [run]. rewrite (bind_done _ _ _ _ _ E1). exact E'.
Qed.

End IdealClock.

(** On a board whose clock advances only inside [delay()], a loop
    entered with a schedule timestamp at most 299 s old never reaches the
    deep sleep, for any number of iterations, whatever the buttons, the
    sensors and the network do and whether or not power-save is on: the
    15-second schedule renews the timestamp that the 5-minute test reads. *)
Theorem deep_sleep_unreachable_on_ideal_clock
    {W : Type} {board : Board W} (clk : W -> Z) (s : Sys W) (n : nat) :
  ideal_timing clk -> fresh clk 299000 s -> fst (run n s) = Done tt.
Proof.
  intros Hideal Hs. destruct (run_keeps_awake clk Hideal n s Hs) as (s' & E).
  rewrite E. reflexivity.
Qed.

Lemma deep_sleep_unreachable_on_ideal_clock_witness :
  ideal_timing (board := SimBoard) clock /\
  fresh clock 299000 (browsing 5 true (holding BTN_SELECT (bench 290000 2047 25))) /\
  fst (run 400 (browsing 5 true (holding BTN_SELECT (bench 290000 2047 25))))
    = Done tt.
Proof.
  assert (Hi : ideal_timing (board := SimBoard) clock).
  { split; [intros w; split; reflexivity |].
    do 6 (split; [intros; reflexivity |]). intros; reflexivity. }
  assert (Hf : fresh clock 299000
                 (browsing 5 true (holding BTN_SELECT (bench 290000 2047 25)))).
  { exists 0. split; [reflexivity | cbn; lia]. }
  split; [exact Hi |]. split; [exact Hf |].
  exact (deep_sleep_unreachable_on_ideal_clock (board := SimBoard)
           clock _ 400 Hi Hf).
Defined.
